(** * The web front end of Boulder (wfe/web-front-end.go)

    A shallow embedding of the request verifier, the problem formatter and
    the resource handlers of [WebFrontEndImpl], followed by the properties
    proved about them.

    Conventions.
    - Go [string] and [[]byte] values are [string]s (lists of bytes).
    - [int] and [int64] values are [Z]; the code does no arithmetic on them.
    - A Go [(value, error)] pair is a [result].
    - A handler is a state-passing computation over the nonce service, the
      [http.ResponseWriter] and the list of calls made to the Registration
      Authority, the audit log and the statistics client.  An index out of
      range or a nil dereference is the outcome [Panicked].
    - Debug, notice and warning log lines are not recorded.
    - [HandlePaths], which registers the handlers with the HTTP engine,
      and [Index], which renders an HTML template, are not embedded. *)

From Stdlib Require Import ZArith String Ascii List Bool Lia.
From stdpp Require Import base option list gmap strings pretty.

Local Open Scope Z_scope.
Local Open Scope string_scope.

(** ** Errors *)

(** The dynamic types of [error] values the front end distinguishes:
    the error types of package [core] (each a string type), the sentinel
    [sql.ErrNoRows], and every other error, carried with its message. *)
Inductive error : Type :=
| MalformedRequestError (msg : string)
| NotSupportedError (msg : string)
| SyntaxError (msg : string)
| UnauthorizedError (msg : string)
| NotFoundError (msg : string)
| SignatureValidationError (msg : string)
| InternalServerError (msg : string)
| ErrNoRows
| errorString (msg : string).

(** [err.Error()] *)
Definition Error (err : error) : string :=
  match err with
  | MalformedRequestError m | NotSupportedError m | SyntaxError m
  | UnauthorizedError m | NotFoundError m | SignatureValidationError m
  | InternalServerError m | errorString m => m
  | ErrNoRows => "sql: no rows in result set"
  end.

Inductive result (A : Type) : Type :=
| Ok (a : A)
| Err (err : error).
Arguments Ok {A} a.
Arguments Err {A} err.

#[global] Instance error_eq_dec : EqDecision error.
Proof. solve_decision. Defined.

(** ** HTTP status codes used by the front end *)

Definition StatusOK : Z := 200.
Definition StatusCreated : Z := 201.
Definition StatusAccepted : Z := 202.
Definition StatusBadRequest : Z := 400.
Definition StatusForbidden : Z := 403.
Definition StatusNotFound : Z := 404.
Definition StatusMethodNotAllowed : Z := 405.
Definition StatusConflict : Z := 409.
Definition StatusPreconditionFailed : Z := 412.
Definition StatusInternalServerError : Z := 500.
Definition StatusNotImplemented : Z := 501.

Definition statusCodeFromError (err : error) : Z :=
  match err with
  | MalformedRequestError _ => StatusBadRequest
  | NotSupportedError _ => StatusNotImplemented
  | SyntaxError _ => StatusBadRequest
  | UnauthorizedError _ => StatusForbidden
  | NotFoundError _ => StatusNotFound
  | SignatureValidationError _ => StatusPreconditionFailed
  | InternalServerError _ => StatusInternalServerError
  | _ => StatusInternalServerError
  end.

(** The one-character string holding a double quote. *)
Definition dquote : string := String (ascii_of_nat 34) EmptyString.

(** ** Problem documents *)

(** The problem types; the empty string is the zero [ProblemType], left
    out of the document by [omitempty]. *)
Definition ProblemType : Type := string.
Definition MalformedProblem : ProblemType := "urn:acme:error:malformed".
Definition UnauthorizedProblem : ProblemType := "urn:acme:error:unauthorized".
Definition ServerInternalProblem : ProblemType := "urn:acme:error:serverInternal".

Module problem.
Record t : Type := mk {
  Type_ : ProblemType;
  Detail : string
}.
End problem.

(** ** Paths *)

Definition NewRegPath := "/acme/new-reg".
Definition RegPath := "/acme/reg/".
Definition NewAuthzPath := "/acme/new-authz".
Definition AuthzPath := "/acme/authz/".
Definition NewCertPath := "/acme/new-cert".
Definition CertPath := "/acme/cert/".
Definition RevokeCertPath := "/acme/revoke-cert".
Definition IssuerPath := "/acme/issuer-cert".

(** ** Data of packages [jose], [x509], [url] and [core]

    Only the fields the front end reads or writes are kept, but for a
    [url.URL], which the front end also renders as a whole.  A
    [jose.JsonWebKey] and the [PublicKey] of a parsed certificate are
    opaque to the front end and stand as their serialised bytes; the zero
    key is the empty string. *)

Definition JsonWebKey : Type := string.

Module JoseHeader.
Record t : Type := mk {
  KeyID : string;
  JsonWebKey : option JsonWebKey;   (* a pointer: nil when absent *)
  Algorithm : string;
  Nonce : string
}.
End JoseHeader.

Module Signature.
Record t : Type := mk {
  Header : JoseHeader.t;
  signature : string
}.
End Signature.

Module JsonWebSignature.
Record t : Type := mk {
  payload : string;
  Signatures : list Signature.t
}.
End JsonWebSignature.

Module Userinfo.
Record t : Type := mk {
  username : string;
  password : string;
  passwordSet : bool
}.
End Userinfo.

(** [url.URL]; a [core.AcmeURL] is one.  The front end reads [Path] and
    [RawQuery]; the other fields are carried for [String]. *)
Module URL.
Record t : Type := mk {
  Scheme : string;
  Opaque : string;
  User : option Userinfo.t;   (* a pointer: nil when absent *)
  Host : string;
  Path : string;
  RawQuery : string;
  Fragment : string
}.
End URL.

Module Registration.
Record t : Type := mk {
  ID : Z;
  Key : JsonWebKey;
  Contact : list string;
  Agreement : string
}.
(** [core.Registration{}] *)
Definition zero : t := mk 0 "" [] "".
End Registration.

Module Challenge.
Record t : Type := mk {
  Type_ : string;
  Status : string;
  URI : URL.t;
  Token : string
}.
End Challenge.

Module Authorization.
Record t : Type := mk {
  ID : string;
  Identifier : string;
  RegistrationID : Z;
  Status : string;
  Challenges : list Challenge.t
}.
End Authorization.

Module Certificate.
Record t : Type := mk {
  Serial : Z;
  RegistrationID : Z;
  DER : string
}.
End Certificate.

Module CertificateStatus.
Record t : Type := mk {
  Status : string
}.
End CertificateStatus.

Definition OCSPStatusRevoked : string := "revoked".

Module X509.
Record t : Type := mk {
  Raw : string;
  SerialNumber : Z;
  PublicKey : string
}.
End X509.

Module Request.
Record t : Type := mk {
  Method : string;
  URL_ : URL.t;
  Body : option (result string);   (* nil, or what [ioutil.ReadAll] gives *)
  RemoteAddr : string
}.
End Request.

(** ** Collaborators *)

(** [core.StorageGetter], read within one request. *)
Record StorageGetter : Type := {
  GetRegistrationByKey : JsonWebKey -> result Registration.t;
  GetAuthorization : string -> result Authorization.t;
  GetCertificate : string -> result Certificate.t;
  GetCertificateByShortSerial : string -> result Certificate.t;
  GetCertificateStatus : string -> result CertificateStatus.t
}.

(** [core.RegistrationAuthority]: what each call answers. *)
Record RegistrationAuthority : Type := {
  RA_NewRegistration : Registration.t -> result Registration.t;
  RA_NewAuthorization : Authorization.t -> Z -> result Authorization.t;
  RA_NewCertificate : string -> Z -> result Certificate.t;
  RA_UpdateRegistration : Registration.t -> Registration.t -> result Registration.t;
  RA_UpdateAuthorization :
    Authorization.t -> Z -> Challenge.t -> result Authorization.t;
  RA_RevokeCertificate : X509.t -> option error
}.

(** The library functions the handlers call: [jose.ParseSigned],
    [JsonWebSignature.Verify], [json.Unmarshal] and [json.Marshal] at
    the types used, [x509.ParseCertificate], [core.KeyDigestEquals],
    [core.SerialToString] and the method [String] of [url.URL]. *)
Record Library : Type := {
  ParseSigned : string -> result JsonWebSignature.t;
  Verify : JsonWebSignature.t -> option JsonWebKey ->
           result (string * JoseHeader.t);
  Unmarshal_Registration : string -> result Registration.t;
  Unmarshal_Authorization : string -> result Authorization.t;
  Unmarshal_Challenge : string -> result Challenge.t;
  Unmarshal_CertificateRequest : string -> result string;
  Unmarshal_RevokeRequest : string -> result string;
  Marshal_Registration : Registration.t -> result string;
  Marshal_Authorization : Authorization.t -> result string;
  Marshal_Challenge : Challenge.t -> result string;
  Marshal_problem : problem.t -> result string;
  ParseCertificate : string -> result X509.t;
  KeyDigestEquals : JsonWebKey -> string -> bool;
  SerialToString : Z -> string;
  URL_String : URL.t -> string
}.

(** What [core.GetBuildID], [core.GetBuildTime], [runtime.Version] and
    [core.GetBuildHost] return in the running binary. *)
Module Build.
Record t : Type := mk {
  GetBuildID : string;
  GetBuildTime : string;
  Version : string;
  GetBuildHost : string
}.
End Build.

(** The register of anti-replay nonces, [core.NonceService], as an
    interface over its state. *)
Class NonceService (NS : Type) : Type := {
  Nonce : NS -> string * NS;
  Valid : string -> NS -> bool * NS
}.

(** ** The response writer and the handler monad *)

Module ResponseWriter.
Record t : Type := mk {
  Header : gmap string (list string);
  Code : option Z;
  Body : string
}.
Definition empty : t := mk ∅ None "".
(** [response.Header().Set(key, value)] *)
Definition Set_ (key value : string) (r : t) : t :=
  mk (<[key := [value]]> (Header r)) (Code r) (Body r).
(** [response.Header().Add(key, value)] *)
Definition Add (key value : string) (r : t) : t :=
  mk (<[key := (default [] (Header r !! key) ++ [value])%list]> (Header r))
     (Code r) (Body r).
(** [response.WriteHeader(code)]: the first status written stays. *)
Definition WriteHeader (code : Z) (r : t) : t :=
  mk (Header r)
     (match Code r with Some c => Some c | None => Some code end)
     (Body r).
(** [response.Write(b)]: writes status 200 first if none was written. *)
Definition Write (b : string) (r : t) : t :=
  mk (Header r)
     (match Code r with Some c => Some c | None => Some 200%Z end)
     (Body r ++ b).
End ResponseWriter.

(** The calls made to the Registration Authority. *)
Inductive RACall : Type :=
| NewRegistrationCall (init : Registration.t)
| NewAuthorizationCall (init : Authorization.t) (regID : Z)
| NewCertificateCall (req : string) (regID : Z)
| UpdateRegistrationCall (base update : Registration.t)
| UpdateAuthorizationCall (authz : Authorization.t) (challengeIndex : Z)
    (response : Challenge.t)
| RevokeCertificateCall (cert : X509.t).

Inductive outcome (A : Type) : Type :=
| Returned (a : A)
| Panicked.
Arguments Returned {A} a.
Arguments Panicked {A}.


(** ** String helpers from the Go standard library *)

Definition slash : ascii := ascii_of_nat 47.
Definition newline : ascii := ascii_of_nat 10.

(** What is left of [s] after the longest match of [^.*/] when there is
    one: [.] matches every character but a newline, and [^] only the
    start of the text, so the match ends at the last slash standing
    before the first newline. *)
Fixpoint afterLastSlash (s : string) : option string :=
  match s with
  | EmptyString => None
  | String c rest =>
    if Ascii.eqb c newline then None
    else match afterLastSlash rest with
         | Some r => Some r
         | None => if Ascii.eqb c slash then Some rest else None
         end
  end.

(** The ID is always the last slash-separated token in the path:
    [regexp.MustCompile("^.*/").ReplaceAllString(path, "")]. *)
Definition parseIDFromPath (path : string) : string :=
  default path (afterLastSlash path).

Definition ErrSyntax : error := errorString "invalid syntax".
Definition ErrRange : error := errorString "value out of range".

Definition maxUint64 : Z := 2 ^ 64 - 1.

(** The digit loop of [strconv.ParseUint(s, 10, 64)], from the value [n]
    read so far. *)
Fixpoint ParseUint_loop (s : string) (n : Z) : result Z :=
  match s with
  | EmptyString => Ok n
  | String d rest =>
    let c := Z.of_nat (nat_of_ascii d) in
    if ((48 <=? c) && (c <=? 57))%Z then
      let v := (c - 48)%Z in
      if (n >=? maxUint64 / 10 + 1)%Z then Err ErrRange
      else
        let n1 := (n * 10 + v)%Z in
        if (n1 >? maxUint64)%Z then Err ErrRange
        else ParseUint_loop rest n1
    else Err ErrSyntax
  end.

Definition ParseUint (s : string) : result Z :=
  match s with
  | EmptyString => Err ErrSyntax
  | _ => ParseUint_loop s 0
  end.

(** [strconv.ParseInt(s, 10, 64)] *)
Definition ParseInt (s : string) : result Z :=
  match s with
  | EmptyString => Err ErrSyntax
  | String c rest =>
    let neg := Ascii.eqb c (ascii_of_nat 45) in
    let digits :=
      if Ascii.eqb c (ascii_of_nat 43) then rest
      else if neg then rest else s in
    match ParseUint digits with
    | Err err => Err err
    | Ok un =>
      let cutoff := (2 ^ 63)%Z in
      if negb neg && (un >=? cutoff)%Z then Err ErrRange
      else if neg && (un >? cutoff)%Z then Err ErrRange
      else Ok (if neg then (- un)%Z else un)
    end
  end.

(** The digit of [n mod 16] in lower-case hexadecimal. *)
Definition hexDigit (n : Z) : ascii :=
  let d := (n mod 16)%Z in
  if (d <? 10)%Z then ascii_of_nat (Z.to_nat (48 + d))
  else ascii_of_nat (Z.to_nat (87 + d)).

Fixpoint hexDigits (fuel : nat) (n : Z) (acc : string) : string :=
  match fuel with
  | O => acc
  | S fuel' =>
    let acc' := String (hexDigit n) acc in
    if (n / 16 =? 0)%Z then acc' else hexDigits fuel' (n / 16) acc'
  end.

(** The lower-case hexadecimal digits of [n >= 0], without leading
    zeros; [0] is one digit. *)
Definition hex (n : Z) : string :=
  hexDigits (S (Z.to_nat (Z.log2 n))) n EmptyString.

Fixpoint zeros (n : nat) : string :=
  match n with
  | O => EmptyString
  | S n' => String (ascii_of_nat 48) (zeros n')
  end.

(** [fmt.Sprintf("%016x", x)] for a [*big.Int]: the sign, then zeros up
    to a width of 16 characters, then the digits of the absolute value. *)
Definition Sprintf_016x (x : Z) : string :=
  let sign := if (x <? 0)%Z then "-" else "" in
  let digits := hex (Z.abs x) in
  let length := (String.length sign + String.length digits)%nat in
  sign ++ zeros (16 - length) ++ digits.

(** The last path segment of a certificate URL, from the serial number:
    [fmt.Sprintf("%016x", serial.Rsh(serial, 64))]. *)
Definition shortSerial (serial : Z) : string :=
  Sprintf_016x (Z.shiftr serial 64).

Definition isLowerHex (c : ascii) : bool :=
  let n := nat_of_ascii c in
  ((48 <=? n) && (n <=? 57) || (97 <=? n) && (n <=? 102))%nat.

Fixpoint allChars (p : ascii -> bool) (s : string) : bool :=
  match s with
  | EmptyString => true
  | String c rest => p c && allChars p rest
  end.

(** [allHex.Match([]byte(s))] with [allHex = "^[0-9a-f]+$"]. *)
Definition allHex (s : string) : bool :=
  negb (String.length s =? 0)%nat && allChars isLowerHex s.

(** [s[n:]] when [n <= len(s)]. *)
Definition dropPrefix (n : nat) (s : string) : string :=
  String.substring n (String.length s - n) s.

(** The first index whose challenge URI has the path and the query of the
    request URL, looked for from index [i] on. *)
Fixpoint findChallenge (challenges : list Challenge.t) (u : URL.t) (i : nat)
  : option nat :=
  match challenges with
  | [] => None
  | challenge :: rest =>
    let tempURL := Challenge.URI challenge in
    if ((URL.Path tempURL =? URL.Path u) &&
        (URL.RawQuery tempURL =? URL.RawQuery u))%string
    then Some i
    else findChallenge rest u (S i)
  end.

Section Handlers.

Context {NS : Type} `{NonceService NS}.

(** What a handler works on: the nonce service, the response writer, and
    what has been sent to the Registration Authority, to the audit log
    and to the statistics client, each oldest first. *)
Record state : Type := mkState {
  nonceService : NS;
  response : ResponseWriter.t;
  calls : list RACall;
  audit : list string;
  stats : list string
}.

Definition handler (A : Type) : Type := state -> outcome A * state.

Definition hret {A} (a : A) : handler A := fun s => (Returned a, s).

Definition hbind {A B} (m : handler A) (k : A -> handler B) : handler B :=
  fun s =>
    match m s with
    | (Returned a, s') => k a s'
    | (Panicked, s') => (Panicked, s')
    end.

Definition panic {A} : handler A := fun s => (Panicked, s).

#[global] Instance handler_ret : MRet handler := @hret.
#[global] Instance handler_bind : MBind handler := fun A B k m => hbind m k.

(** *** Effects *)

Definition callRA (c : RACall) : handler unit :=
  fun s => (Returned tt,
            mkState (nonceService s) (response s) (calls s ++ [c])
              (audit s) (stats s)).

(** [wfe.log.Audit(msg)] *)
Definition Audit (msg : string) : handler unit :=
  fun s => (Returned tt,
            mkState (nonceService s) (response s) (calls s)
              (audit s ++ [msg]) (stats s)).

(** [wfe.Stats.Inc(stat, 1, 1.0)] *)
Definition StatsInc (stat : string) : handler unit :=
  fun s => (Returned tt,
            mkState (nonceService s) (response s) (calls s) (audit s)
              (stats s ++ [stat])).

Definition withResponse (f : ResponseWriter.t -> ResponseWriter.t) : handler unit :=
  fun s => (Returned tt,
            mkState (nonceService s) (f (response s)) (calls s) (audit s)
              (stats s)).

Definition HeaderSet (key value : string) : handler unit :=
  withResponse (ResponseWriter.Set_ key value).

Definition HeaderAdd (key value : string) : handler unit :=
  withResponse (ResponseWriter.Add key value).

Definition WriteHeader (code : Z) : handler unit :=
  withResponse (ResponseWriter.WriteHeader code).

Definition Write (b : string) : handler unit :=
  withResponse (ResponseWriter.Write b).

Definition nonceNonce : handler string :=
  fun s => let (n, ns) := Nonce (nonceService s) in
           (Returned n, mkState ns (response s) (calls s) (audit s) (stats s)).

Definition nonceValid (nonce : string) : handler bool :=
  fun s => let (b, ns) := Valid nonce (nonceService s) in
           (Returned b, mkState ns (response s) (calls s) (audit s) (stats s)).

(** *** The front end *)

Record WebFrontEndImpl : Type := {
  RA : RegistrationAuthority;
  SA : StorageGetter;
  lib : Library;
  BaseURL : string;
  NewReg : string;
  RegBase : string;
  NewAuthz : string;
  AuthzBase : string;
  NewCert : string;
  CertBase : string;
  IssuerCert : string;
  SubscriberAgreementURL : string
}.

Variable wfe : WebFrontEndImpl.

(** [strings.Join(methods, ", ")] *)
Fixpoint Join (elems : list string) (sep : string) : string :=
  match elems with
  | [] => ""
  | [x] => x
  | x :: rest => x ++ sep ++ Join rest sep
  end.

Definition sendAllow (methods : list string) : handler unit :=
  HeaderSet "Allow" (Join methods ", ").

Definition sendStandardHeaders : handler unit :=
  n ← nonceNonce;
  HeaderSet "Replay-Nonce" n;;
  HeaderSet "Access-Control-Allow-Origin" "*".

(** The [switch code] of [sendError]. *)
Definition problemTypeOfCode (code : Z) : ProblemType :=
  if (code =? StatusForbidden)%Z then UnauthorizedProblem
  else if (code =? StatusConflict)%Z then MalformedProblem
  else if (code =? StatusMethodNotAllowed)%Z then MalformedProblem
  else if (code =? StatusNotFound)%Z then MalformedProblem
  else if (code =? StatusBadRequest)%Z then MalformedProblem
  else if (code =? StatusInternalServerError)%Z then ServerInternalProblem
  else "".

(** Notify the client of an error condition and log it for audit
    purposes. *)
Definition sendError (details : string) (code : Z) : handler unit :=
  let problem := problem.mk (problemTypeOfCode code) details in
  let problemDoc :=
    match Marshal_problem (lib wfe) problem with
    | Ok doc => doc
    | Err _ =>
      "{" ++ dquote ++ "detail" ++ dquote ++ ": " ++ dquote ++
      "Problem marshalling error message." ++ dquote ++ "}"
    end in
  (match Marshal_problem (lib wfe) problem with
   | Ok _ => mret tt
   | Err _ => Audit "Could not marshal error message"
   end);;
  (if (problem.Type_ problem =? ServerInternalProblem)%string
   then Audit ("Internal error - " ++ details) else mret tt);;
  HeaderSet "Content-Type" "application/problem+json";;
  WriteHeader code;;
  Write problemDoc.

(** [link(url, relation)] *)
Definition link (url relation : string) : string :=
  "<" ++ url ++ ">;rel=" ++ dquote ++ relation ++ dquote.

(** The result of [verifyPOST] when its error is nil: the payload, the
    key and the registration.  With an error the three other results are
    never read by a caller. *)
Definition verified : Type := string * JsonWebKey * Registration.t.

Definition errorsNew (msg : string) : error := errorString msg.

Definition verifyPOST (request : Request.t) (regCheck : bool)
  : handler (result verified) :=
  (* Read body *)
  match Request.Body request with
  | None => mret (Err (errorsNew "No body on POST"))
  | Some (Err err) => mret (Err err)
  | Some (Ok body) =>
    (* Parse as JWS *)
    match ParseSigned (lib wfe) body with
    | Err err => mret (Err err)
    | Ok parsedJws =>
      (* Verify JWS *)
      let sigs := JsonWebSignature.Signatures parsedJws in
      if (1 <? length sigs)%nat then
        mret (Err (errorsNew "Too many signatures on POST"))
      else if (length sigs =? 0)%nat then
        mret (Err (errorsNew "POST not signed"))
      else
        match sigs !! 0%nat with
        | None => panic
        | Some sig0 =>
          let key := JoseHeader.JsonWebKey (Signature.Header sig0) in
          match Verify (lib wfe) parsedJws key with
          | Err err => mret (Err err)
          | Ok (payload, header) =>
            (* Check that the request has a known anti-replay nonce *)
            if (String.length (JoseHeader.Nonce header) =? 0)%nat then
              mret (Err (errorsNew "JWS has no anti-replay nonce"))
            else
              valid ← nonceValid (JoseHeader.Nonce header);
              if negb valid then
                mret (Err (errorsNew "JWS has invalid anti-replay nonce"))
              else
                match key with
                | None => panic   (* [*key] with a nil key *)
                | Some k =>
                  match GetRegistrationByKey (SA wfe) k with
                  | Err err =>
                    (* If we are requiring a valid registration, any failure
                       to look up the registration is an overall failure to
                       verify.  Otherwise we just return an empty
                       registration. *)
                    if regCheck then mret (Err err)
                    else mret (Ok (payload, k, Registration.zero))
                  | Ok reg => mret (Ok (payload, k, reg))
                  end
                end
          end
        end
    end
  end.

(** *** Resource handlers *)

(** NewRegistration is used by clients to submit a new
    registration/account. *)
Definition NewRegistration (request : Request.t) : handler unit :=
  sendStandardHeaders;;
  if negb (Request.Method request =? "POST") then
    sendAllow ["POST"];;
    sendError "Method not allowed" StatusMethodNotAllowed
  else
    v ← verifyPOST request false;
    match v with
    | Err _ => sendError "Unable to read/verify body" StatusBadRequest
    | Ok (body, key, _) =>
      match GetRegistrationByKey (SA wfe) key with
      | Ok _ => sendError "Registration key is already in use" StatusConflict
      | Err _ =>
        match Unmarshal_Registration (lib wfe) body with
        | Err _ => sendError "Error unmarshaling JSON" StatusBadRequest
        | Ok init =>
          if negb (String.length (Registration.Agreement init) =? 0)%nat &&
             negb (Registration.Agreement init =? SubscriberAgreementURL wfe)
          then
            sendError
              ("Provided agreement URL [" ++ Registration.Agreement init ++
               "] does not match current agreement URL [" ++
               SubscriberAgreementURL wfe ++ "]") StatusBadRequest
          else
            let init := Registration.mk (Registration.ID init) key
                          (Registration.Contact init)
                          (Registration.Agreement init) in
            callRA (NewRegistrationCall init);;
            match RA_NewRegistration (RA wfe) init with
            | Err err =>
              sendError "Error creating new registration" (statusCodeFromError err)
            | Ok reg =>
              let id := Registration.ID reg in
              let regURL := RegBase wfe ++ pretty id in
              match Marshal_Registration (lib wfe) reg with
              | Err _ =>
                sendError "Error marshaling registration" StatusInternalServerError
              | Ok responseBody =>
                HeaderAdd "Location" regURL;;
                HeaderSet "Content-Type" "application/json";;
                HeaderAdd "Link" (link (NewAuthz wfe) "next");;
                (if negb (String.length (SubscriberAgreementURL wfe) =? 0)%nat
                 then HeaderAdd "Link"
                        (link (SubscriberAgreementURL wfe) "terms-of-service")
                 else mret tt);;
                WriteHeader StatusCreated;;
                Write responseBody;;
                StatsInc "Registrations"
              end
            end
        end
      end
    end.

(** The error answer shared by the handlers that call
    [verifyPOST(request, true)]. *)
Definition sendVerifyError (err : error) : handler unit :=
  match err with
  | ErrNoRows =>
    sendError "No registration exists matching provided key" StatusForbidden
  | _ => sendError "Unable to read/verify body" StatusBadRequest
  end.

(** NewAuthorization is used by clients to submit a new ID
    Authorization. *)
Definition NewAuthorization (request : Request.t) : handler unit :=
  sendStandardHeaders;;
  if negb (Request.Method request =? "POST") then
    sendAllow ["POST"];;
    sendError "Method not allowed" StatusMethodNotAllowed
  else
    v ← verifyPOST request true;
    match v with
    | Err err => sendVerifyError err
    | Ok (body, _, currReg) =>
      if (Registration.Agreement currReg =? "") then
        sendError "Must agree to subscriber agreement before any further actions"
          StatusForbidden
      else
        match Unmarshal_Authorization (lib wfe) body with
        | Err _ => sendError "Error unmarshaling JSON" StatusBadRequest
        | Ok init =>
          callRA (NewAuthorizationCall init (Registration.ID currReg));;
          match RA_NewAuthorization (RA wfe) init (Registration.ID currReg) with
          | Err err => sendError "Error creating new authz" (statusCodeFromError err)
          | Ok authz =>
            (* Make a URL for this authz, then blow away the ID and RegID
               before serializing *)
            let authzURL := AuthzBase wfe ++ Authorization.ID authz in
            let authz := Authorization.mk "" (Authorization.Identifier authz) 0
                           (Authorization.Status authz)
                           (Authorization.Challenges authz) in
            match Marshal_Authorization (lib wfe) authz with
            | Err _ => sendError "Error marshaling authz" StatusInternalServerError
            | Ok responseBody =>
              HeaderAdd "Location" authzURL;;
              HeaderAdd "Link" (link (NewCert wfe) "next");;
              HeaderSet "Content-Type" "application/json";;
              WriteHeader StatusCreated;;
              Write responseBody;;
              StatsInc "PendingAuthorizations"
            end
          end
        end
    end.

(** The test of [RevokeCertificate] that lets a request through to the
    Registration Authority. *)
Definition revokeAuthorized (requestKey : JsonWebKey)
    (parsedCertificate : X509.t) (registration : Registration.t)
    (cert : Certificate.t) : bool :=
  KeyDigestEquals (lib wfe) requestKey (X509.PublicKey parsedCertificate) ||
  (Registration.ID registration =? Certificate.RegistrationID cert)%Z.

(** RevokeCertificate is used by clients to request the revocation of a
    cert. *)
Definition RevokeCertificate (request : Request.t) : handler unit :=
  sendStandardHeaders;;
  if negb (Request.Method request =? "POST") then
    sendAllow ["POST"];;
    sendError "Method not allowed" StatusMethodNotAllowed
  else
    (* We don't ask verifyPOST to verify there is a correponding
       registration, because anyone with the right private key can revoke
       a certificate. *)
    v ← verifyPOST request false;
    match v with
    | Err _ => sendError "Unable to read/verify body" StatusBadRequest
    | Ok (body, requestKey, registration) =>
      match Unmarshal_RevokeRequest (lib wfe) body with
      | Err _ => sendError "Unable to read/verify body" StatusBadRequest
      | Ok CertificateDER =>
        match ParseCertificate (lib wfe) CertificateDER with
        | Err _ => sendError "Unable to read/verify body" StatusBadRequest
        | Ok providedCert =>
          let serial := SerialToString (lib wfe) (X509.SerialNumber providedCert) in
          match GetCertificate (SA wfe) serial with
          | Err _ => sendError "No such certificate" StatusNotFound
          | Ok cert =>
            if negb (Certificate.DER cert =? CertificateDER) then
              sendError "No such certificate" StatusNotFound
            else
              match ParseCertificate (lib wfe) (Certificate.DER cert) with
              | Err _ => sendError "Invalid certificate" StatusInternalServerError
              | Ok parsedCertificate =>
                match GetCertificateStatus (SA wfe) serial with
                | Err _ =>
                  sendError "Certificate status not yet available" StatusNotFound
                | Ok certStatus =>
                  if (CertificateStatus.Status certStatus =? OCSPStatusRevoked) then
                    sendError "Certificate already revoked" StatusConflict
                  else if negb (revokeAuthorized requestKey parsedCertificate
                                  registration cert) then
                    sendError
                      "Revocation request must be signed by private key of cert to be revoked"
                      StatusForbidden
                  else
                    callRA (RevokeCertificateCall parsedCertificate);;
                    match RA_RevokeCertificate (RA wfe) parsedCertificate with
                    | Some err =>
                      sendError "Failed to revoke certificate" (statusCodeFromError err)
                    | None =>
                      StatsInc "RevokedCertificates";;
                      WriteHeader StatusOK
                    end
                end
              end
          end
        end
      end
    end.

(** NewCertificate is used by clients to request the issuance of a cert
    for an authorized identifier. *)
Definition NewCertificate (request : Request.t) : handler unit :=
  sendStandardHeaders;;
  if negb (Request.Method request =? "POST") then
    sendAllow ["POST"];;
    sendError "Method not allowed" StatusMethodNotAllowed
  else
    v ← verifyPOST request true;
    match v with
    | Err err => sendVerifyError err
    | Ok (body, key, reg) =>
      if (Registration.Agreement reg =? "") then
        sendError "Must agree to subscriber agreement before any further actions"
          StatusForbidden
      else
        match Unmarshal_CertificateRequest (lib wfe) body with
        | Err _ =>
          sendError "Error unmarshaling certificate request" StatusBadRequest
        | Ok init =>
          (* Create new certificate and return *)
          callRA (NewCertificateCall init (Registration.ID reg));;
          match RA_NewCertificate (RA wfe) init (Registration.ID reg) with
          | Err err => sendError "Error creating new cert" (statusCodeFromError err)
          | Ok cert =>
            (* Make a URL for this certificate.  We use only the sequential
               part of the serial number. *)
            match ParseCertificate (lib wfe) (Certificate.DER cert) with
            | Err _ => sendError "Error creating new cert" StatusBadRequest
            | Ok parsedCertificate =>
              let serial := X509.SerialNumber parsedCertificate in
              let certURL := CertBase wfe ++ shortSerial serial in
              HeaderAdd "Location" certURL;;
              HeaderAdd "Link" (link (BaseURL wfe ++ IssuerPath) "up");;
              HeaderSet "Content-Type" "application/pkix-cert";;
              WriteHeader StatusCreated;;
              Write (Certificate.DER cert);;
              StatsInc "Certificates"
            end
          end
        end
    end.

(** The answer of [challenge] once the challenge to show is known. *)
Definition sendChallenge (authz : Authorization.t) (challenge : Challenge.t)
    (jsonReply : string) : handler unit :=
  let authzURL := AuthzBase wfe ++ Authorization.ID authz in
  let challengeURL := Challenge.URI challenge in
  HeaderAdd "Location" (URL_String (lib wfe) challengeURL);;
  HeaderSet "Content-Type" "application/json";;
  HeaderAdd "Link" (link authzURL "up");;
  WriteHeader StatusAccepted;;
  Write jsonReply.

Definition challenge (authz : Authorization.t) (request : Request.t)
  : handler unit :=
  sendStandardHeaders;;
  if negb (Request.Method request =? "GET") &&
     negb (Request.Method request =? "POST") then
    sendAllow ["GET"; "POST"];;
    sendError "Method not allowed" StatusMethodNotAllowed
  else
    (* Check that the requested challenge exists within the authorization *)
    match findChallenge (Authorization.Challenges authz) (Request.URL_ request) 0 with
    | None => sendError "Unable to find challenge" StatusNotFound
    | Some challengeIndex =>
      if (Request.Method request =? "GET") then
        match Authorization.Challenges authz !! challengeIndex with
        | None => panic
        | Some challenge =>
          match Marshal_Challenge (lib wfe) challenge with
          | Err _ =>
            sendError "Failed to marshal challenge" StatusInternalServerError
          | Ok jsonReply => sendChallenge authz challenge jsonReply
          end
        end
      else if (Request.Method request =? "POST") then
        v ← verifyPOST request true;
        match v with
        | Err err => sendVerifyError err
        | Ok (body, _, currReg) =>
          if (Registration.Agreement currReg =? "") then
            sendError
              "Must agree to subscriber agreement before any further actions"
              StatusForbidden
          (* Check that the registration ID matching the key used matches
             the registration ID on the authz object *)
          else if negb (Registration.ID currReg =?
                        Authorization.RegistrationID authz)%Z then
            sendError
              "User registration ID doesn't match registration ID in authorization"
              StatusForbidden
          else
            match Unmarshal_Challenge (lib wfe) body with
            | Err _ =>
              sendError "Error unmarshaling challenge response" StatusBadRequest
            | Ok challengeResponse =>
              (* Ask the RA to update this authorization *)
              callRA (UpdateAuthorizationCall authz (Z.of_nat challengeIndex)
                      challengeResponse);;
              match RA_UpdateAuthorization (RA wfe) authz
                      (Z.of_nat challengeIndex) challengeResponse with
              | Err err =>
                sendError "Unable to update authorization" (statusCodeFromError err)
              | Ok updatedAuthz =>
                match Authorization.Challenges updatedAuthz !! challengeIndex with
                | None => panic   (* index out of range *)
                | Some challenge =>
                  (* assumption: UpdateAuthorization does not modify order
                     of challenges *)
                  match Marshal_Challenge (lib wfe) challenge with
                  | Err _ =>
                    sendError "Failed to marshal challenge"
                      StatusInternalServerError
                  | Ok jsonReply => sendChallenge authz challenge jsonReply
                  end
                end
              end
            end
        end
      else
        sendAllow ["GET"; "POST"];;
        sendError "Method not allowed" StatusMethodNotAllowed
    end.

(** Registration is used by a client to submit an update to their
    registration. *)
Definition Registration (request : Request.t) : handler unit :=
  sendStandardHeaders;;
  if negb (Request.Method request =? "POST") then
    sendAllow ["POST"];;
    sendError "Method not allowed" StatusMethodNotAllowed
  else
    v ← verifyPOST request true;
    match v with
    | Err err => sendVerifyError err
    | Ok (body, _, currReg) =>
      (* Requests to this handler should have a path that leads to a known
         registration *)
      let idStr := parseIDFromPath (URL.Path (Request.URL_ request)) in
      match ParseInt idStr with
      | Err _ => sendError "Registration ID must be an integer" StatusBadRequest
      | Ok id =>
        if (id <=? 0)%Z then
          sendError "Registration ID must be a positive non-zero integer"
            StatusBadRequest
        else if negb (id =? Registration.ID currReg)%Z then
          sendError "Request signing key did not match registration key"
            StatusForbidden
        else
          match Unmarshal_Registration (lib wfe) body with
          | Err _ => sendError "Error unmarshaling registration" StatusBadRequest
          | Ok update =>
            if negb (String.length (Registration.Agreement update) =? 0)%nat &&
               negb (Registration.Agreement update =? SubscriberAgreementURL wfe)
            then
              sendError
                ("Provided agreement URL [" ++ Registration.Agreement update ++
                 "] does not match current agreement URL [" ++
                 SubscriberAgreementURL wfe ++ "]") StatusBadRequest
            else
              (* Registration objects contain a JWK object, which must be
                 non-nil.  We know the key of the updated registration
                 object is going to be the same as the key of the current
                 one, so we set it here. *)
              let update := Registration.mk (Registration.ID update)
                              (Registration.Key currReg)
                              (Registration.Contact update)
                              (Registration.Agreement update) in
              (* Ask the RA to update this authorization. *)
              callRA (UpdateRegistrationCall currReg update);;
              match RA_UpdateRegistration (RA wfe) currReg update with
              | Err err =>
                sendError "Unable to update registration" (statusCodeFromError err)
              | Ok updatedReg =>
                match Marshal_Registration (lib wfe) updatedReg with
                | Err _ =>
                  sendError "Failed to marshal registration"
                    StatusInternalServerError
                | Ok jsonReply =>
                  HeaderSet "Content-Type" "application/json";;
                  WriteHeader StatusAccepted;;
                  Write jsonReply
                end
              end
          end
      end
    end.

(** Authorization is used by clients to submit an update to one of their
    authorizations. *)
Definition Authorization (request : Request.t) : handler unit :=
  sendStandardHeaders;;
  if negb (Request.Method request =? "GET") &&
     negb (Request.Method request =? "POST") then
    sendAllow ["GET"; "POST"];;
    sendError "Method not allowed" StatusMethodNotAllowed
  else
    (* Requests to this handler should have a path that leads to a known
       authz *)
    let id := parseIDFromPath (URL.Path (Request.URL_ request)) in
    match GetAuthorization (SA wfe) id with
    | Err _ => sendError "Unable to find authorization" StatusNotFound
    | Ok authz =>
      (* If there is a fragment, then this is actually a request to a
         challenge URI *)
      if negb (String.length (URL.RawQuery (Request.URL_ request)) =? 0)%nat then
        challenge authz request
      else if (Request.Method request =? "GET") then
        (* Blank out ID and regID *)
        let authz := Authorization.mk "" (Authorization.Identifier authz) 0
                       (Authorization.Status authz)
                       (Authorization.Challenges authz) in
        match Marshal_Authorization (lib wfe) authz with
        | Err _ => sendError "Failed to marshal authz" StatusInternalServerError
        | Ok jsonReply =>
          HeaderAdd "Link" (link (NewCert wfe) "next");;
          HeaderSet "Content-Type" "application/json";;
          WriteHeader StatusOK;;
          Write jsonReply
        end
      else
        sendAllow ["GET"; "POST"];;
        sendError "Method not allowed" StatusMethodNotAllowed
    end.

(** Certificate is used by clients to request a copy of their current
    certificate, or to request a reissuance of the certificate. *)
Definition Certificate (request : Request.t) : handler unit :=
  sendStandardHeaders;;
  if negb (Request.Method request =? "GET") &&
     negb (Request.Method request =? "POST") then
    sendAllow ["GET"; "POST"];;
    sendError "Method not allowed" StatusMethodNotAllowed
  else
    let path := URL.Path (Request.URL_ request) in
    if (Request.Method request =? "GET") then
      (* Certificate paths consist of the CertBase path, plus exactly
         sixteen hex digits. *)
      if negb (String.prefix CertPath path) then
        sendError "Not found" StatusNotFound
      else
        let serial := dropPrefix (String.length CertPath) path in
        if negb (String.length serial =? 16)%nat || negb (allHex serial) then
          sendError "Not found" StatusNotFound
        else
          match GetCertificateByShortSerial (SA wfe) serial with
          | Err err =>
            if String.prefix "gorp: multiple rows returned" (Error err) then
              sendError "Multiple certificates with same short serial"
                StatusConflict
            else sendError "Not found" StatusNotFound
          | Ok cert =>
            HeaderSet "Content-Type" "application/pkix-cert";;
            HeaderAdd "Link" (link IssuerPath "up");;
            WriteHeader StatusOK;;
            Write (Certificate.DER cert)
          end
    else if (Request.Method request =? "POST") then
      sendError "Not yet supported" StatusNotFound
    else
      sendAllow ["GET"; "POST"];;
      sendError "Method not allowed" StatusMethodNotAllowed.

(** Terms is used by the client to obtain the current Terms of Service /
    Subscriber Agreement to which the subscriber must agree. *)
Definition Terms (request : Request.t) : handler unit :=
  sendStandardHeaders;;
  if negb (Request.Method request =? "GET") then
    sendAllow ["GET"];;
    sendError "Method not allowed" StatusMethodNotAllowed
  else
    Write "TODO: Add terms of use here".

(** Issuer obtains the issuer certificate used by this instance of
    Boulder. *)
Definition Issuer (request : Request.t) : handler unit :=
  sendStandardHeaders;;
  if negb (Request.Method request =? "GET") then
    sendAllow ["GET"];;
    sendError "Method not allowed" StatusMethodNotAllowed
  else
    HeaderSet "Content-Type" "application/pkix-cert";;
    WriteHeader StatusOK;;
    Write (IssuerCert wfe).

(** BuildID tells the requestor what build we're running. *)
Definition BuildID (build : Build.t) (request : Request.t) : handler unit :=
  sendStandardHeaders;;
  if negb (Request.Method request =? "GET") then
    sendAllow ["GET"];;
    sendError "Method not allowed" StatusMethodNotAllowed
  else
    HeaderSet "Content-Type" "text/plain";;
    WriteHeader StatusOK;;
    let detailsString :=
      "Boulder=(" ++ Build.GetBuildID build ++ " " ++ Build.GetBuildTime build ++
      ") Golang=(" ++ Build.Version build ++
      ") BuildHost=(" ++ Build.GetBuildHost build ++ ")" in
    (* [fmt.Fprintln] adds a newline *)
    Write (detailsString ++ String newline "").

End Handlers.

(** ** The nonce registry *)

(** Modelled from the spec: package [core], which holds the nonce service
    ([core.NonceService], [core.NewNonceService]), is not among the
    sources.  The registry follows section 4.1 of the specification:
    [issue] produces a fresh, never-before-issued token and records it as
    outstanding; [consume] returns true and invalidates the token if it is
    currently valid, and returns false without side effect otherwise.
    Tokens are the decimal renderings of a counter of the tokens issued,
    which makes each a new one. *)
Module NonceRegistry.
Record t : Type := mk {
  issued : N;
  outstanding : gset string
}.
Definition new : t := mk 0 ∅.
Definition token (n : N) : string := pretty n.
Definition issue (r : t) : string * t :=
  (token (issued r),
   mk (issued r + 1) ({[ token (issued r) ]} ∪ outstanding r)).
Definition consume (tok : string) (r : t) : bool * t :=
  if decide (tok ∈ outstanding r)
  then (true, mk (issued r) (outstanding r ∖ {[ tok ]}))
  else (false, r).
(** The operations of the registry, and a run of them, first to last. *)
Inductive op : Type :=
| Issue
| Consume (tok : string).
Definition apply (o : op) (r : t) : t :=
  match o with
  | Issue => (issue r).2
  | Consume tok => (consume tok r).2
  end.
Definition run (ops : list op) (r : t) : t := fold_left (fun r o => apply o r) ops r.
(** A token the registry has issued. *)
Definition issuedBefore (r : t) (tok : string) : Prop :=
  exists i, (i < issued r)%N /\ tok = token i.
(** The invariant of a registry against the tokens [used] up to now:
    every outstanding token was issued, and every used token was issued
    and is no longer outstanding. *)
Definition inv (r : t) (used : list string) : Prop :=
  (forall tok, tok ∈ outstanding r -> issuedBefore r tok) /\
  (forall tok, tok ∈ used -> issuedBefore r tok /\ tok ∉ outstanding r).
End NonceRegistry.

#[global] Instance NonceRegistry_service : NonceService NonceRegistry.t := {
  Nonce := NonceRegistry.issue;
  Valid := NonceRegistry.consume
}.

(** The calls that reach the nonce registry: the standard headers of a
    response, and the verification of a POST. *)
Inductive step : Type :=
| StandardHeaders
| VerifyPOST (wfe : WebFrontEndImpl) (request : Request.t) (regCheck : bool).

(** The nonce of the verified header of a request, when its signature
    step passes. *)
Definition verifiedNonce (wfe : WebFrontEndImpl) (request : Request.t)
  : option string :=
  match Request.Body request with
  | Some (Ok body) =>
    match ParseSigned (lib wfe) body with
    | Ok jws =>
      match JsonWebSignature.Signatures jws with
      | [sig0] =>
        match Verify (lib wfe) jws
                (JoseHeader.JsonWebKey (Signature.Header sig0)) with
        | Ok (_, header) => Some (JoseHeader.Nonce header)
        | Err _ => None
        end
      | _ => None
      end
    | Err _ => None
    end
  | _ => None
  end.

(** The nonces of the requests [verifyPOST] accepted, oldest first, over a
    run of calls from state [s]. *)
Fixpoint acceptedNonces {NS : Type} `{NonceService NS}
    (steps : list step) (s : @state NS) : list string :=
  match steps with
  | [] => []
  | StandardHeaders :: rest =>
    acceptedNonces rest (sendStandardHeaders s).2
  | VerifyPOST wfe request regCheck :: rest =>
    let r := verifyPOST wfe request regCheck s in
    match r.1, verifiedNonce wfe request with
    | Returned (Ok _), Some nonce => nonce :: acceptedNonces rest r.2
    | _, _ => acceptedNonces rest r.2
    end
  end.

(** A handler served on a request: the server hands it a new response
    writer, and the calls, audit lines and statistics of the final state are those of
    this request. *)
Definition serve {NS : Type} (h : @handler NS unit) (ns : NS)
  : outcome unit * @state NS :=
  h (mkState ns ResponseWriter.empty [] [] []).

(** The state in which a handler calls [verifyPOST]: the standard headers
    have been set on the new response writer. *)
Definition afterHeaders {NS : Type} `{NonceService NS} (ns : NS) : @state NS :=
  (sendStandardHeaders (mkState ns ResponseWriter.empty [] [] [])).2.

(** The state of a front end made by [NewWebFrontEndImpl], before its
    first request. *)
Definition newState : @state NonceRegistry.t :=
  mkState NonceRegistry.new ResponseWriter.empty [] [] [].

(** ** The storage of certificates *)

(** Modelled from the spec: the storage layer behind [core.StorageGetter]
    is not among the sources.  Section 6 of the specification asks of
    [getCertificateByShortSerial] that it signal the multiple-match case
    distinctly from not-found; the front end tells the two apart by the
    message of the error, which starts with [gorp: multiple rows
    returned] for several rows.  The stored certificates are a list, and a
    certificate matches a short identifier when the identifier derived
    from its serial number is that one. *)
Definition certsByShortSerial (certs : list Certificate.t) (shortId : string)
  : list Certificate.t :=
  filter (fun c => shortSerial (Certificate.Serial c) = shortId) certs.

Definition lookupByShortSerial (certs : list Certificate.t) (shortId : string)
  : result Certificate.t :=
  match certsByShortSerial certs shortId with
  | [] => Err ErrNoRows
  | [cert] => Ok cert
  | _ => Err (errorString "gorp: multiple rows returned for: select")
  end.

(** ** A small deployment

    A concrete library, storage and authority, on which the handlers
    evaluate.  An envelope is [key|nonce|payload|signature...]; a
    signature made with a key is the key between [sig(] and [)]. *)
Module Example.

Definition bar : ascii := ascii_of_nat 124.

(** The problem documents of the deployment: the type, a bar, and the
    detail. *)
Definition Marshal_problem_doc (type detail : string) : string :=
  type ++ "|" ++ detail.

(** The fields of [s] between bars, from the field [cur] read so far. *)
Fixpoint fields (s cur : string) : list string :=
  match s with
  | EmptyString => [cur]
  | String c rest =>
    if Ascii.eqb c bar then cur :: fields rest EmptyString
    else fields rest (cur ++ String c EmptyString)
  end.

Definition parseSigned (body : string) : result JsonWebSignature.t :=
  match fields body EmptyString with
  | key :: nonce :: payload :: sigs =>
    let header :=
      JoseHeader.mk "" (if (key =? "")%string then None else Some key)
        "RS256" nonce in
    Ok (JsonWebSignature.mk payload (map (Signature.mk header) sigs))
  | _ => Err (errorString "square/go-jose: compact JWS format must have three parts")
  end.

Definition verify (jws : JsonWebSignature.t) (key : option JsonWebKey)
  : result (string * JoseHeader.t) :=
  match key, JsonWebSignature.Signatures jws with
  | Some k, [sig0] =>
    if (Signature.signature sig0 =? "sig(" ++ k ++ ")")%string
    then Ok (JsonWebSignature.payload jws, Signature.Header sig0)
    else Err (errorString "square/go-jose: error in cryptographic primitive")
  | _, _ => Err (errorString "square/go-jose: unsupported key type/format")
  end.

(** The payload of an account request names the key it asks for. *)
Definition unmarshal_Registration (body : string) : result Registration.t :=
  Ok (Registration.mk 0 body [] "").

Definition unmarshal_Authorization (body : string) : result Authorization.t :=
  Ok (Authorization.mk "" body 0 "" []).

(** The URL that has a path and a query only. *)
Definition relative (path query : string) : URL.t :=
  URL.mk "" "" None "" path query "".

(** The rendering of the URLs of the deployment, which have no opaque
    part, no user and no character to escape. *)
Definition urlString (u : URL.t) : string :=
  (if (URL.Scheme u =? "")%string then "" else URL.Scheme u ++ ":") ++
  (if (URL.Scheme u =? "")%string && (URL.Host u =? "")%string then ""
   else "//" ++ URL.Host u) ++
  URL.Path u ++
  (if (URL.RawQuery u =? "")%string then "" else "?" ++ URL.RawQuery u) ++
  (if (URL.Fragment u =? "")%string then "" else "#" ++ URL.Fragment u).

Definition unmarshal_Challenge (body : string) : result Challenge.t :=
  Ok (Challenge.mk "simpleHttps" "" (relative "" "") body).

Definition certA : X509.t := X509.mk "cert-A" (7 * 2 ^ 64 + 1) "alice-key".
Definition certB : X509.t := X509.mk "cert-B" (7 * 2 ^ 64 + 2) "bob-key".
Definition certC : X509.t := X509.mk "cert-C" (9 * 2 ^ 64 + 5) "carol-key".
Definition certWide : X509.t := X509.mk "cert-wide" (2 ^ 128) "bob-key".

Definition parseCertificate (der : string) : result X509.t :=
  if (der =? "cert-A")%string then Ok certA
  else if (der =? "cert-B")%string then Ok certB
  else if (der =? "cert-C")%string then Ok certC
  else if (der =? "cert-wide")%string then Ok certWide
  else Err (errorString "asn1: syntax error")%string.

Definition library : Library := {|
  ParseSigned := parseSigned;
  Verify := verify;
  Unmarshal_Registration := unmarshal_Registration;
  Unmarshal_Authorization := unmarshal_Authorization;
  Unmarshal_Challenge := unmarshal_Challenge;
  Unmarshal_CertificateRequest := Ok;
  Unmarshal_RevokeRequest := Ok;
  Marshal_Registration := fun reg =>
    Ok (pretty (Registration.ID reg) ++ "|" ++ Registration.Key reg);
  Marshal_Authorization := fun authz => Ok (Authorization.Identifier authz);
  Marshal_Challenge := fun challenge => Ok (Challenge.Token challenge);
  Marshal_problem := fun p =>
    Ok (Marshal_problem_doc (problem.Type_ p) (problem.Detail p));
  ParseCertificate := parseCertificate;
  KeyDigestEquals := String.eqb;
  SerialToString := hex;
  URL_String := urlString
|}.

Definition terms : string := "https://ca.example/terms/v1".

Definition alice : Registration.t := Registration.mk 1 "alice-key" [] terms.
Definition bob : Registration.t := Registration.mk 2 "bob-key" [] terms.

Definition challengeURI : URL.t := relative "/acme/authz/az1" "challenge=0".

Definition authz1 : Authorization.t :=
  Authorization.mk "az1" "example.com" 1 "pending"
    [ Challenge.mk "dvsni" "pending" (relative "/acme/authz/az1" "challenge=9") "t0";
      Challenge.mk "simpleHttps" "pending" challengeURI "t1" ].

Definition certificates : list Certificate.t :=
  [ Certificate.mk (7 * 2 ^ 64 + 1) 1 "cert-A";
    Certificate.mk (7 * 2 ^ 64 + 2) 2 "cert-B";
    Certificate.mk (9 * 2 ^ 64 + 5) 0 "cert-C";
    Certificate.mk (2 ^ 128) 2 "cert-wide" ].

(** The storage of the deployment; [revoked] is the status it reports
    for every certificate. *)
Definition storage (revoked : bool) : StorageGetter := {|
  GetRegistrationByKey := fun key =>
    if (key =? "alice-key")%string then Ok alice
    else if (key =? "bob-key")%string then Ok bob
    else Err ErrNoRows;
  GetAuthorization := fun id =>
    if (id =? "az1")%string then Ok authz1 else Err ErrNoRows;
  GetCertificate := fun serial =>
    match filter (fun c => hex (Certificate.Serial c) = serial) certificates with
    | cert :: _ => Ok cert
    | [] => Err ErrNoRows
    end;
  GetCertificateByShortSerial := lookupByShortSerial certificates;
  GetCertificateStatus := fun _ =>
    Ok (CertificateStatus.mk (if revoked then OCSPStatusRevoked else "good"))
|}.

(** The authority accepts every request; an updated authorization keeps
    its challenges and marks the answered one. *)
Definition authority : RegistrationAuthority := {|
  RA_NewRegistration := fun init =>
    Ok (Registration.mk 3 (Registration.Key init) (Registration.Contact init)
          (Registration.Agreement init));
  RA_NewAuthorization := fun init regID =>
    Ok (Authorization.mk "az2" (Authorization.Identifier init) regID "pending" []);
  RA_NewCertificate := fun _ regID =>
    Ok (Certificate.mk (7 * 2 ^ 64 + 2) regID "cert-B");
  RA_UpdateRegistration := fun base update =>
    Ok (Registration.mk (Registration.ID base) (Registration.Key update)
          (Registration.Contact update) (Registration.Agreement base));
  RA_UpdateAuthorization := fun authz _ _ => Ok authz;
  RA_RevokeCertificate := fun _ => None
|}.

Definition wfe (revoked : bool) : WebFrontEndImpl := {|
  RA := authority;
  SA := storage revoked;
  lib := library;
  BaseURL := "https://ca.example";
  NewReg := "https://ca.example/acme/new-reg";
  RegBase := "https://ca.example/acme/reg/";
  NewAuthz := "https://ca.example/acme/new-authz";
  AuthzBase := "https://ca.example/acme/authz/";
  NewCert := "https://ca.example/acme/new-cert";
  CertBase := "https://ca.example/acme/cert/";
  IssuerCert := "issuer";
  SubscriberAgreementURL := terms
|}.

(** The same deployment before an authority that knows no new
    registrations and answers them with [core.NotSupportedError]. *)
Definition wfeUnsupported : WebFrontEndImpl := {|
  RA := {|
    RA_NewRegistration := fun _ => Err (NotSupportedError "not supported");
    RA_NewAuthorization := RA_NewAuthorization authority;
    RA_NewCertificate := RA_NewCertificate authority;
    RA_UpdateRegistration := RA_UpdateRegistration authority;
    RA_UpdateAuthorization := RA_UpdateAuthorization authority;
    RA_RevokeCertificate := RA_RevokeCertificate authority
  |};
  SA := storage false;
  lib := library;
  BaseURL := BaseURL (wfe false);
  NewReg := NewReg (wfe false);
  RegBase := RegBase (wfe false);
  NewAuthz := NewAuthz (wfe false);
  AuthzBase := AuthzBase (wfe false);
  NewCert := NewCert (wfe false);
  CertBase := CertBase (wfe false);
  IssuerCert := IssuerCert (wfe false);
  SubscriberAgreementURL := terms
|}.

(** A POST to [path] whose envelope is signed by [key] over [payload]
    with the nonce [nonce]. *)
Definition post (path query key nonce payload : string) : Request.t :=
  Request.mk "POST" (relative path query)
    (Some (Ok (key ++ "|" ++ nonce ++ "|" ++ payload ++ "|sig(" ++ key ++ ")")))
    "192.0.2.1:4711".

Definition get (path query : string) : Request.t :=
  Request.mk "GET" (relative path query) None "192.0.2.1:4711".

(** The state after one response has gone out: the nonce [0] is
    outstanding. *)
Definition ready : @state NonceRegistry.t := (sendStandardHeaders newState).2.
Definition nonces : NonceRegistry.t := nonceService ready.

(** Alice updates her account and asks for the key of Mallory. *)
Definition aliceUpdate : Request.t :=
  post "/acme/reg/1" "" "alice-key" "0" "mallory-key".

(** Alice posts an update to a path that names no integer. *)
Definition aliceBadPath : Request.t :=
  post "/acme/reg/abc" "" "alice-key" "0" "alice-key".

(** Bob answers the second challenge of the authorization of Alice, and
    Alice answers it herself. *)
Definition bobAnswer : Request.t :=
  post "/acme/authz/az1" "challenge=0" "bob-key" "0" "token".
Definition aliceAnswer : Request.t :=
  post "/acme/authz/az1" "challenge=0" "alice-key" "0" "token".

(** Bob asks to revoke the certificate of Alice; Mallory, who has no
    account, asks to revoke a certificate stored with the account id 0. *)
Definition bobRevokesA : Request.t :=
  post "/acme/revoke-cert" "" "bob-key" "0" "cert-A".
Definition malloryRevokesC : Request.t :=
  post "/acme/revoke-cert" "" "mallory-key" "0" "cert-C".

(** Mallory registers her key. *)
Definition malloryRegisters : Request.t :=
  post "/acme/new-reg" "" "mallory-key" "0" "mallory-key".

(** Mallory, who has no account, signs a request with her own key. *)
Definition malloryPost : Request.t :=
  post "/acme/new-authz" "" "mallory-key" "0" "example.com".

(** A request with another method, and requests that bear no envelope. *)
Definition plain (method path query : string) : Request.t :=
  Request.mk method (relative path query) None "192.0.2.1:4711".

(** Bob, who has an account, asks for a second one. *)
Definition bobRegisters : Request.t :=
  post "/acme/new-reg" "" "bob-key" "0" "bob-key".

(** Alice asks for an authorization and for a certificate, and updates
    her account at its own URL. *)
Definition aliceNewAuthz : Request.t :=
  post "/acme/new-authz" "" "alice-key" "0" "example.com".
Definition aliceNewCert : Request.t :=
  post "/acme/new-cert" "" "alice-key" "0" "csr".
Definition aliceRevokesA : Request.t :=
  post "/acme/revoke-cert" "" "alice-key" "0" "cert-A".

(** An account that has not agreed to the terms, in a storage that knows
    this account only. *)
Definition carol : Registration.t := Registration.mk 4 "carol-key" [] "".
Definition wfeCarol : WebFrontEndImpl := {|
  RA := authority;
  SA := {|
    GetRegistrationByKey := fun key =>
      if (key =? "carol-key")%string then Ok carol else Err ErrNoRows;
    GetAuthorization := GetAuthorization (storage false);
    GetCertificate := GetCertificate (storage false);
    GetCertificateByShortSerial := GetCertificateByShortSerial (storage false);
    GetCertificateStatus := GetCertificateStatus (storage false)
  |};
  lib := library;
  BaseURL := BaseURL (wfe false);
  NewReg := NewReg (wfe false);
  RegBase := RegBase (wfe false);
  NewAuthz := NewAuthz (wfe false);
  AuthzBase := AuthzBase (wfe false);
  NewCert := NewCert (wfe false);
  CertBase := CertBase (wfe false);
  IssuerCert := IssuerCert (wfe false);
  SubscriberAgreementURL := terms
|}.
Definition carolNewAuthz : Request.t :=
  post "/acme/new-authz" "" "carol-key" "0" "example.com".

(** An authority that answers an update with an authorization that has
    lost its challenges. *)
Definition wfeShortReply : WebFrontEndImpl := {|
  RA := {|
    RA_NewRegistration := RA_NewRegistration authority;
    RA_NewAuthorization := RA_NewAuthorization authority;
    RA_NewCertificate := RA_NewCertificate authority;
    RA_UpdateRegistration := RA_UpdateRegistration authority;
    RA_UpdateAuthorization := fun authz _ _ =>
      Ok (Authorization.mk (Authorization.ID authz)
            (Authorization.Identifier authz)
            (Authorization.RegistrationID authz) "valid" []);
    RA_RevokeCertificate := RA_RevokeCertificate authority
  |};
  SA := storage false;
  lib := library;
  BaseURL := BaseURL (wfe false);
  NewReg := NewReg (wfe false);
  RegBase := RegBase (wfe false);
  NewAuthz := NewAuthz (wfe false);
  AuthzBase := AuthzBase (wfe false);
  NewCert := NewCert (wfe false);
  CertBase := CertBase (wfe false);
  IssuerCert := IssuerCert (wfe false);
  SubscriberAgreementURL := terms
|}.

(** A storage that keeps, under every serial number, a certificate
    issued to Alice again: its bytes are not those of [certA]. *)
Definition wfeReissued : WebFrontEndImpl := {|
  RA := authority;
  SA := {|
    GetRegistrationByKey := GetRegistrationByKey (storage false);
    GetAuthorization := GetAuthorization (storage false);
    GetCertificate := fun _ => Ok (Certificate.mk (7 * 2 ^ 64 + 1) 1 "cert-A2");
    GetCertificateByShortSerial := GetCertificateByShortSerial (storage false);
    GetCertificateStatus := GetCertificateStatus (storage false)
  |};
  lib := library;
  BaseURL := BaseURL (wfe false);
  NewReg := NewReg (wfe false);
  RegBase := RegBase (wfe false);
  NewAuthz := NewAuthz (wfe false);
  AuthzBase := AuthzBase (wfe false);
  NewCert := NewCert (wfe false);
  CertBase := CertBase (wfe false);
  IssuerCert := IssuerCert (wfe false);
  SubscriberAgreementURL := terms
|}.

(** An authority that returns, for every certificate request, bytes that
    are no certificate. *)
Definition wfeGarbled : WebFrontEndImpl := {|
  RA := {|
    RA_NewRegistration := RA_NewRegistration authority;
    RA_NewAuthorization := RA_NewAuthorization authority;
    RA_NewCertificate := fun _ regID =>
      Ok (Certificate.mk (7 * 2 ^ 64 + 2) regID "garbled");
    RA_UpdateRegistration := RA_UpdateRegistration authority;
    RA_UpdateAuthorization := RA_UpdateAuthorization authority;
    RA_RevokeCertificate := RA_RevokeCertificate authority
  |};
  SA := storage false;
  lib := library;
  BaseURL := BaseURL (wfe false);
  NewReg := NewReg (wfe false);
  RegBase := RegBase (wfe false);
  NewAuthz := NewAuthz (wfe false);
  AuthzBase := AuthzBase (wfe false);
  NewCert := NewCert (wfe false);
  CertBase := CertBase (wfe false);
  IssuerCert := IssuerCert (wfe false);
  SubscriberAgreementURL := terms
|}.

(** An authority that issues the certificate with the serial number
    [2 ^ 128]. *)
Definition wfeWide : WebFrontEndImpl := {|
  RA := {|
    RA_NewRegistration := RA_NewRegistration authority;
    RA_NewAuthorization := RA_NewAuthorization authority;
    RA_NewCertificate := fun _ regID =>
      Ok (Certificate.mk (2 ^ 128) regID "cert-wide");
    RA_UpdateRegistration := RA_UpdateRegistration authority;
    RA_UpdateAuthorization := RA_UpdateAuthorization authority;
    RA_RevokeCertificate := RA_RevokeCertificate authority
  |};
  SA := storage false;
  lib := library;
  BaseURL := BaseURL (wfe false);
  NewReg := NewReg (wfe false);
  RegBase := RegBase (wfe false);
  NewAuthz := NewAuthz (wfe false);
  AuthzBase := AuthzBase (wfe false);
  NewCert := NewCert (wfe false);
  CertBase := CertBase (wfe false);
  IssuerCert := IssuerCert (wfe false);
  SubscriberAgreementURL := terms
|}.

(** The build of the deployment. *)
Definition build : Build.t :=
  Build.mk "3f1e2a9" "Mon May 18 2015" "go1.4.2" "builder.example".

End Example.

(** * Properties of the request verifier *)

Section VerifierFacts.

Context {NS : Type} `{NonceService NS}.
Variable wfe : WebFrontEndImpl.

Ltac run_handler :=
  unfold mbind, mret, handler_bind, handler_ret, hbind, hret, panic,
    nonceValid, nonceNonce, callRA, Audit, StatsInc, withResponse in *.

(** What a successful [verifyPOST] went through, and the state it leaves:
    one call of [Valid], nothing written, nothing emitted. *)
Lemma verifyPOST_Ok_inv request regCheck s payload k reg s' :
  verifyPOST wfe request regCheck s = (Returned (Ok (payload, k, reg)), s') ->
  exists body jws sig0 header,
    Request.Body request = Some (Ok body) /\
    ParseSigned (lib wfe) body = Ok jws /\
    JsonWebSignature.Signatures jws = [sig0] /\
    JoseHeader.JsonWebKey (Signature.Header sig0) = Some k /\
    Verify (lib wfe) jws (Some k) = Ok (payload, header) /\
    JoseHeader.Nonce header <> "" /\
    Valid (JoseHeader.Nonce header) (nonceService s) = (true, nonceService s') /\
    response s' = response s /\ calls s' = calls s /\
    audit s' = audit s /\ stats s' = stats s /\
    (GetRegistrationByKey (SA wfe) k = Ok reg \/
     regCheck = false /\ reg = Registration.zero /\
     exists err, GetRegistrationByKey (SA wfe) k = Err err).
Proof.
  unfold verifyPOST. run_handler.
  destruct (Request.Body request) as [[body|]|] eqn:Hbody; try (intros; simplify_eq; fail).
  destruct (ParseSigned (lib wfe) body) as [jws|] eqn:Hparse; try (intros; simplify_eq; fail).
  destruct (JsonWebSignature.Signatures jws) as [|sig0 [|sig1 rest]] eqn:Hsigs;
    simpl; try (intros; simplify_eq; fail).
  destruct (Verify (lib wfe) jws _) as [[payload' header]|] eqn:Hver;
    try (intros; simplify_eq; fail).
  destruct (String.length (JoseHeader.Nonce header) =? 0)%nat eqn:Hlen;
    try (intros; simplify_eq; fail).
  destruct (Valid (JoseHeader.Nonce header) (nonceService s)) as [valid ns] eqn:Hvalid.
  destruct valid; simpl; try (intros; simplify_eq; fail).
  destruct (JoseHeader.JsonWebKey (Signature.Header sig0)) as [k'|] eqn:Hkey;
    try (intros; simplify_eq; fail).
  assert (Hnonce : JoseHeader.Nonce header <> "").
  { intros Heq. rewrite Heq in Hlen. discriminate. }
  destruct (GetRegistrationByKey (SA wfe) k') as [reg'|err] eqn:Hreg.
  - intros ?; simplify_eq. exists body, jws, sig0, header. simpl. split_and!; eauto.
  - destruct regCheck; intros ?; simplify_eq.
    exists body, jws, sig0, header. simpl. split_and!; eauto.
Qed.

(** A request that meets every condition is verified, and the result is
    the payload, the key and the registration found (the empty one when
    none is found and none is required). *)
Lemma verifyPOST_Ok_intro request regCheck s body jws sig0 k payload header :
  Request.Body request = Some (Ok body) ->
  ParseSigned (lib wfe) body = Ok jws ->
  JsonWebSignature.Signatures jws = [sig0] ->
  JoseHeader.JsonWebKey (Signature.Header sig0) = Some k ->
  Verify (lib wfe) jws (Some k) = Ok (payload, header) ->
  JoseHeader.Nonce header <> "" ->
  (Valid (JoseHeader.Nonce header) (nonceService s)).1 = true ->
  (regCheck = true -> exists reg, GetRegistrationByKey (SA wfe) k = Ok reg) ->
  verifyPOST wfe request regCheck s =
    (Returned (Ok (payload, k,
                   match GetRegistrationByKey (SA wfe) k with
                   | Ok reg => reg
                   | Err _ => Registration.zero
                   end)),
     mkState (Valid (JoseHeader.Nonce header) (nonceService s)).2
       (response s) (calls s) (audit s) (stats s)).
Proof.
  intros Hbody Hparse Hsigs Hkey Hver Hnonce Hvalid Hreg.
  unfold verifyPOST. run_handler.
  rewrite Hbody, Hparse, Hsigs. simpl. rewrite Hkey, Hver.
  destruct (String.length (JoseHeader.Nonce header) =? 0)%nat eqn:Hlen.
  { apply Nat.eqb_eq in Hlen. destruct (JoseHeader.Nonce header); [congruence|discriminate]. }
  destruct (Valid (JoseHeader.Nonce header) (nonceService s)) as [valid ns].
  simpl in Hvalid. subst valid. simpl.
  destruct (GetRegistrationByKey (SA wfe) k) as [reg|err]; [done|].
  destruct regCheck; [|done].
  destruct Hreg as [reg ?]; [done|discriminate].
Qed.

(** [verifyPOST] writes no response and emits nothing; it leaves the
    nonce service as it was unless the signature step passed, and then
    the nonce service went through one call of [Valid], on the nonce of
    the verified header. *)
Lemma verifyPOST_state request regCheck s :
  let s' := (verifyPOST wfe request regCheck s).2 in
  response s' = response s /\ calls s' = calls s /\
    audit s' = audit s /\ stats s' = stats s /\
  (s' = s \/
   exists body jws sig0 payload header,
     Request.Body request = Some (Ok body) /\
     ParseSigned (lib wfe) body = Ok jws /\
     JsonWebSignature.Signatures jws = [sig0] /\
     Verify (lib wfe) jws (JoseHeader.JsonWebKey (Signature.Header sig0)) =
       Ok (payload, header) /\
     JoseHeader.Nonce header <> "" /\
     nonceService s' = (Valid (JoseHeader.Nonce header) (nonceService s)).2).
Proof.
  unfold verifyPOST. run_handler.
  destruct (Request.Body request) as [[body|]|] eqn:Hbody; simpl; auto 10.
  destruct (ParseSigned (lib wfe) body) as [jws|] eqn:Hparse; simpl; auto 10.
  destruct (JsonWebSignature.Signatures jws) as [|sig0 [|sig1 rest]] eqn:Hsigs;
    simpl; auto 10.
  destruct (Verify (lib wfe) jws _) as [[payload header]|] eqn:Hver; simpl; auto 10.
  destruct (String.length (JoseHeader.Nonce header) =? 0)%nat eqn:Hlen; simpl; auto 10.
  assert (Hnonce : JoseHeader.Nonce header <> "").
  { intros Heq. rewrite Heq in Hlen. discriminate. }
  destruct (Valid (JoseHeader.Nonce header) (nonceService s)) as [valid ns] eqn:Hvalid.
  assert (Hpassed : exists body0 jws0 sig1 payload0 header0,
       Some (Ok body) = Some (Ok body0) /\
       ParseSigned (lib wfe) body0 = Ok jws0 /\
       JsonWebSignature.Signatures jws0 = [sig1] /\
       Verify (lib wfe) jws0 (JoseHeader.JsonWebKey (Signature.Header sig1)) =
         Ok (payload0, header0) /\
       JoseHeader.Nonce header0 <> "" /\
       ns = (Valid (JoseHeader.Nonce header0) (nonceService s)).2).
  { exists body, jws, sig0, payload, header. rewrite Hsigs, Hvalid. auto 10. }
  clear Hver.
  destruct valid; simpl; [|by auto 10].
  destruct (JoseHeader.JsonWebKey (Signature.Header sig0)) as [k|]; simpl; [|by auto 10].
  destruct (GetRegistrationByKey (SA wfe) k); [|destruct regCheck]; simpl; auto 10.
Qed.

(** The nonce service after [verifyPOST] in terms of [verifiedNonce]. *)
Lemma verifyPOST_nonce_step request regCheck s :
  let r := verifyPOST wfe request regCheck s in
  (r.2 = s \/
   exists nonce, verifiedNonce wfe request = Some nonce /\
     nonceService r.2 = (Valid nonce (nonceService s)).2) /\
  (forall v, r.1 = Returned (Ok v) ->
   exists nonce, verifiedNonce wfe request = Some nonce /\
     Valid nonce (nonceService s) = (true, nonceService r.2)).
Proof.
  simpl. split.
  - destruct (verifyPOST_state request regCheck s) as (_ & _ & _ & _ & [Hs|Hs]); [by left|].
    right. destruct Hs as (body & jws & sig0 & payload & header & Hbody & Hparse &
                           Hsigs & Hver & _ & Hns).
    exists (JoseHeader.Nonce header). split; [|done].
    unfold verifiedNonce. by rewrite Hbody, Hparse, Hsigs, Hver.
  - intros [[payload k] reg] Hr.
    destruct (verifyPOST wfe request regCheck s) as [o s'] eqn:Hrun.
    simpl in Hr. subst o.
    apply verifyPOST_Ok_inv in Hrun
      as (body & jws & sig0 & header & Hbody & Hparse & Hsigs & Hkey & Hver & _ &
          Hvalid & _).
    exists (JoseHeader.Nonce header). split; [|done].
    unfold verifiedNonce. by rewrite Hbody, Hparse, Hsigs, Hkey, Hver.
Qed.

(** C1, as amended.  For a request with a body, [verifyPOST] succeeds if
    and only if the body parses as an envelope with exactly one signature,
    the signature verifies against the key embedded in its header, the
    nonce of the verified header is not empty and is valid in the nonce
    service, and, when a registration is required, the key maps to a
    stored registration.  The nonce service changes only in executions
    where the signature step has passed, and then by the one call of
    [Valid] on that nonce. *)
Theorem verifyPOST_succeeds_iff request regCheck s body :
  Request.Body request = Some (Ok body) ->
  ((exists v, (verifyPOST wfe request regCheck s).1 = Returned (Ok v)) <->
   (exists jws sig0 k payload header,
      ParseSigned (lib wfe) body = Ok jws /\
      JsonWebSignature.Signatures jws = [sig0] /\
      JoseHeader.JsonWebKey (Signature.Header sig0) = Some k /\
      Verify (lib wfe) jws (Some k) = Ok (payload, header) /\
      JoseHeader.Nonce header <> "" /\
      (Valid (JoseHeader.Nonce header) (nonceService s)).1 = true /\
      (regCheck = true -> exists reg, GetRegistrationByKey (SA wfe) k = Ok reg))) /\
  (nonceService (verifyPOST wfe request regCheck s).2 <> nonceService s ->
   exists jws sig0 payload header,
     ParseSigned (lib wfe) body = Ok jws /\
     JsonWebSignature.Signatures jws = [sig0] /\
     Verify (lib wfe) jws (JoseHeader.JsonWebKey (Signature.Header sig0)) =
       Ok (payload, header) /\
     nonceService (verifyPOST wfe request regCheck s).2 =
       (Valid (JoseHeader.Nonce header) (nonceService s)).2).
Proof.
  intros Hbody. split; [split|].
  - intros [[[payload k] reg] Hv].
    destruct (verifyPOST wfe request regCheck s) as [o s'] eqn:Hrun.
    simpl in Hv. subst o.
    apply verifyPOST_Ok_inv in Hrun
      as (body' & jws & sig0 & header & Hbody' & Hparse & Hsigs & Hkey & Hver &
          Hnonce & Hvalid & _ & _ & _ & _ & Hreg).
    rewrite Hbody in Hbody'. simplify_eq.
    exists jws, sig0, k, payload, header. rewrite Hvalid.
    split_and!; try done.
    intros ->. destruct Hreg as [?|(? & _)]; [eauto|discriminate].
  - intros (jws & sig0 & k & payload & header & Hparse & Hsigs & Hkey & Hver &
            Hnonce & Hvalid & Hreg).
    erewrite verifyPOST_Ok_intro by eauto. simpl. eauto.
  - intros Hchanged.
    destruct (verifyPOST_state request regCheck s) as (_ & _ & _ & _ & [Hs|Hs]).
    { rewrite Hs in Hchanged. done. }
    destruct Hs as (body' & jws & sig0 & payload & header & Hbody' & Hparse &
                    Hsigs & Hver & _ & Hns).
    rewrite Hbody in Hbody'. simplify_eq. eauto 10.
Qed.

End VerifierFacts.

(** The witness of C1: the update of Alice is verified. *)
Lemma verifyPOST_succeeds_iff_witness :
  exists v,
    (verifyPOST (Example.wfe false) Example.aliceUpdate true Example.ready).1 =
    Returned (Ok v).
Proof.
  destruct (verifyPOST_succeeds_iff (Example.wfe false) Example.aliceUpdate true
              Example.ready _ eq_refl) as [[_ Hif] _].
  apply Hif.
  exists (JsonWebSignature.mk "mallory-key"
            [Signature.mk (JoseHeader.mk "" (Some "alice-key") "RS256" "0")
               "sig(alice-key)"]),
    (Signature.mk (JoseHeader.mk "" (Some "alice-key") "RS256" "0")
       "sig(alice-key)"),
    "alice-key", "mallory-key",
    (JoseHeader.mk "" (Some "alice-key") "RS256" "0").
  split_and!; try reflexivity.
  - discriminate.
  - intros _. exists Example.alice. reflexivity.
Defined.

(** C1 as stated fails: the request of Mallory parses with exactly one
    signature, the signature verifies against the embedded key and the
    nonce is valid, yet [verifyPOST] with the registration required
    returns the lookup error. *)
Lemma verifyPOST_unknown_account_counterexample :
  exists body jws sig0 payload header,
    Request.Body Example.malloryPost = Some (Ok body) /\
    ParseSigned (lib (Example.wfe false)) body = Ok jws /\
    JsonWebSignature.Signatures jws = [sig0] /\
    Verify (lib (Example.wfe false)) jws
      (JoseHeader.JsonWebKey (Signature.Header sig0)) = Ok (payload, header) /\
    (Valid (JoseHeader.Nonce header) (nonceService Example.ready)).1 = true /\
    (verifyPOST (Example.wfe false) Example.malloryPost true Example.ready).1 =
      Returned (Err ErrNoRows).
Proof.
  exists "mallory-key|0|example.com|sig(mallory-key)",
    (JsonWebSignature.mk "example.com"
       [Signature.mk (JoseHeader.mk "" (Some "mallory-key") "RS256" "0")
          "sig(mallory-key)"]),
    (Signature.mk (JoseHeader.mk "" (Some "mallory-key") "RS256" "0")
       "sig(mallory-key)"),
    "example.com",
    (JoseHeader.mk "" (Some "mallory-key") "RS256" "0").
  split_and!; reflexivity.
Qed.

(** * Properties of the nonce registry *)

Section RegistryFacts.

Import NonceRegistry.

Lemma inv_new : inv new [].
Proof.
  split; intros tok Hin.
  - unfold new in Hin. simpl in Hin. set_solver.
  - by apply elem_of_nil in Hin.
Qed.

Lemma issuedBefore_issue r tok :
  issuedBefore r tok -> issuedBefore (issue r).2 tok.
Proof. intros (i & Hi & ->). exists i. simpl. split; [lia|done]. Qed.

Lemma issuedBefore_fresh r : ~ issuedBefore r (token (issued r)).
Proof.
  intros (i & Hi & Heq). unfold token in Heq.
  apply (inj pretty) in Heq. lia.
Qed.

Lemma inv_issue r used : inv r used -> inv (issue r).2 used.
Proof.
  intros [Hout Hused]. split; intros tok Hin.
  - simpl in Hin. apply elem_of_union in Hin as [Hin|Hin].
    + apply elem_of_singleton in Hin as ->. exists (issued r). simpl. split; [lia|done].
    + by apply issuedBefore_issue, Hout.
  - destruct (Hused tok Hin) as [Hbefore Hnot]. split.
    + by apply issuedBefore_issue.
    + simpl. intros [Heq|?]%elem_of_union; [|done].
      apply elem_of_singleton in Heq as ->.
      by apply (issuedBefore_fresh r).
Qed.

Lemma consume_true tok r :
  (consume tok r).1 = true -> tok ∈ outstanding r.
Proof. unfold consume. by case_decide. Qed.

Lemma consume_false tok r :
  (consume tok r).1 = false -> (consume tok r).2 = r.
Proof. unfold consume. by case_decide. Qed.

Lemma inv_consume tok r used : inv r used -> inv (consume tok r).2 used.
Proof.
  intros [Hout Hused]. unfold consume. case_decide; [|done].
  split; intros tok' Hin; simpl in *.
  - apply Hout. by apply elem_of_difference in Hin as [? _].
  - destruct (Hused tok' Hin) as [Hbefore Hnot]. split; [done|].
    by intros [? _]%elem_of_difference.
Qed.

Lemma inv_consume_true tok r used :
  inv r used -> (consume tok r).1 = true ->
  (tok ∉ used) /\ inv (consume tok r).2 (tok :: used)%list.
Proof.
  intros [Hout Hused] Htrue. pose proof (consume_true _ _ Htrue) as Hin.
  split.
  - intros Hu. by destruct (Hused tok Hu).
  - unfold consume. rewrite decide_True by done.
    split; intros tok' Hin'; simpl in *.
    + apply Hout. by apply elem_of_difference in Hin' as [? _].
    + apply elem_of_cons in Hin' as [->|Hin'].
      * split; [by apply Hout|].
        intros [_ Hne]%elem_of_difference. apply Hne. by apply elem_of_singleton.
      * destruct (Hused tok' Hin') as [Hbefore Hnot]. split; [done|].
        by intros [? _]%elem_of_difference.
Qed.

(** Over a run of calls from a state whose registry meets the invariant,
    no nonce is accepted twice, and none that was used before. *)
Lemma acceptedNonces_fresh calls : forall (s : @state NonceRegistry.t) used,
  inv (nonceService s) used ->
  NoDup (acceptedNonces calls s) /\
  (forall nonce, nonce ∈ acceptedNonces calls s -> nonce ∉ used).
Proof.
  induction calls as [|c calls IH]; intros s used Hinv; simpl.
  { split; [constructor|]. intros ? Hin. by apply elem_of_nil in Hin. }
  destruct c as [|wfe request regCheck].
  - apply IH. simpl. by apply inv_issue.
  - pose proof (verifyPOST_nonce_step wfe request regCheck s) as [Hstep Hok].
    simpl in Hstep, Hok.
    assert (Hinv' : inv (nonceService (verifyPOST wfe request regCheck s).2) used).
    { destruct Hstep as [->|(nonce & _ & ->)]; [done|]. by apply inv_consume. }
    destruct (verifyPOST wfe request regCheck s).1 as [[v|err]|] eqn:Hres;
      try (destruct (verifiedNonce wfe request); by apply IH).
    destruct (Hok v eq_refl) as (nonce & Hnonce & Hvalid).
    rewrite Hnonce.
    assert (Hvalid' : consume nonce (nonceService s) =
              (true, nonceService (verifyPOST wfe request regCheck s).2))
      by exact Hvalid.
    destruct (inv_consume_true nonce _ _ Hinv) as [Hfresh Hinv2];
      [by rewrite Hvalid'|].
    rewrite Hvalid' in Hinv2. simpl in Hinv2.
    destruct (IH _ _ Hinv2) as [Hnodup Hnot].
    split.
    + constructor; [|done]. intros Hin. apply (Hnot _ Hin). by left.
    + intros n [->|Hin]%elem_of_cons; [done|].
      intros Hu. apply (Hnot _ Hin). by right.
Qed.

Lemma inv_run ops : forall r used, inv r used -> inv (run ops r) used.
Proof.
  induction ops as [|o ops IH]; intros r used Hinv; simpl; [done|].
  apply IH. destruct o; simpl; [by apply inv_issue|by apply inv_consume].
Qed.

(** An outstanding token stays outstanding until it is consumed. *)
Lemma outstanding_run tok ops : forall r,
  tok ∈ outstanding r -> Consume tok ∉ ops -> tok ∈ outstanding (run ops r).
Proof.
  induction ops as [|o ops IH]; intros r Hin Hnot; simpl; [done|].
  apply not_elem_of_cons in Hnot as [Hne Hnot].
  apply IH; [|done]. destruct o as [|tok']; simpl.
  - apply elem_of_union. by right.
  - unfold consume. case_decide; [|done]. simpl.
    apply elem_of_difference. split; [done|].
    intros ->%elem_of_singleton. done.
Qed.

(** C2.  In every registry reached from a new one, a token just issued
    is consumed with success at its first consume, whatever was issued
    or consumed in between; a consume that succeeds invalidates the
    token, and every later consume of it fails, whatever happens in
    between; a consume that fails leaves the registry as it was.  Over
    every run of standard headers and verifications from a new front
    end, no nonce is accepted by [verifyPOST] twice. *)
Theorem nonce_single_use :
  (forall before between,
     Consume (issue (run before new)).1 ∉ between ->
     (consume (issue (run before new)).1
        (run between (issue (run before new)).2)).1 = true) /\
  (forall before tok between,
     (consume tok (run before new)).1 = true ->
     (tok ∉ outstanding (consume tok (run before new)).2) /\
     consume tok (run between (consume tok (run before new)).2) =
       (false, run between (consume tok (run before new)).2)) /\
  (forall r tok, (consume tok r).1 = false -> (consume tok r).2 = r) /\
  (forall steps, NoDup (acceptedNonces steps newState)).
Proof.
  split_and!.
  - intros before between Hnot.
    assert (Hin : (issue (run before new)).1 ∈
                  outstanding (run between (issue (run before new)).2)).
    { apply outstanding_run; [|done]. simpl. apply elem_of_union. left.
      by apply elem_of_singleton. }
    unfold consume. by rewrite decide_True.
  - intros before tok between Htrue.
    pose proof (inv_run before _ _ inv_new) as Hinv.
    destruct (inv_consume_true _ _ _ Hinv Htrue) as [_ Hinv'].
    split.
    + destruct Hinv' as [_ Hused]. apply (Hused tok). by left.
    + apply (inv_run between) in Hinv'. destruct Hinv' as [_ Hused].
      destruct (Hused tok) as [_ Hnot]; [by left|].
      unfold consume at 1. by rewrite decide_False.
  - intros r tok. apply consume_false.
  - intros steps. apply (acceptedNonces_fresh steps newState []), inv_new.
Qed.

End RegistryFacts.

(** The witness of C2: the token the new registry issues is consumed
    once, also after another issue, and not again; a replay of the update
    of Alice is not accepted a second time. *)
Lemma nonce_single_use_witness :
  (NonceRegistry.consume "0"
     (NonceRegistry.run [NonceRegistry.Issue]
        (NonceRegistry.issue NonceRegistry.new).2)).1 = true /\
  (NonceRegistry.consume "0"
     (NonceRegistry.run [NonceRegistry.Issue]
        (NonceRegistry.consume "0"
           (NonceRegistry.run [NonceRegistry.Issue] NonceRegistry.new)).2)).1
    = false /\
  NoDup (acceptedNonces
           [ StandardHeaders;
             VerifyPOST (Example.wfe false) Example.aliceUpdate true;
             VerifyPOST (Example.wfe false) Example.aliceUpdate true ]
           newState) /\
  acceptedNonces
    [ StandardHeaders;
      VerifyPOST (Example.wfe false) Example.aliceUpdate true;
      VerifyPOST (Example.wfe false) Example.aliceUpdate true ]
    newState = ["0"].
Proof.
  destruct nonce_single_use as (Hfirst & Hnext & _ & Hrun).
  split_and!.
  - apply (Hfirst [] [NonceRegistry.Issue]).
    intros Hin. apply list_elem_of_singleton in Hin. discriminate.
  - destruct (Hnext [NonceRegistry.Issue] "0" [NonceRegistry.Issue]) as [_ Heq].
    + reflexivity.
    + by rewrite Heq.
  - apply Hrun.
  - vm_compute. reflexivity.
Defined.

(** * Short identifiers of certificates *)

Section ShortSerialFacts.

Lemma length_append (a b : string) :
  String.length (a ++ b) = (String.length a + String.length b)%nat.
Proof. induction a as [|c a IH]; simpl; [done|by rewrite IH]. Qed.

Lemma allChars_append p (a b : string) :
  allChars p (a ++ b) = allChars p a && allChars p b.
Proof.
  induction a as [|c a IH]; simpl; [done|].
  by rewrite IH, andb_assoc.
Qed.

Lemma substring_all (s : string) : substring 0 (String.length s) s = s.
Proof. induction s as [|c s IH]; simpl; [done|by rewrite IH]. Qed.

Lemma zeros_length n : String.length (zeros n) = n.
Proof. induction n as [|n IH]; simpl; [done|by rewrite IH]. Qed.

Lemma zeros_allHex n : allChars isLowerHex (zeros n) = true.
Proof. induction n as [|n IH]; simpl; done. Qed.

Lemma hexDigit_isLowerHex n : isLowerHex (hexDigit n) = true.
Proof.
  unfold hexDigit.
  pose proof (Z.mod_pos_bound n 16 ltac:(lia)) as Hd.
  assert (Hcases : exists d : nat, (d < 16)%nat /\ (n mod 16)%Z = Z.of_nat d).
  { exists (Z.to_nat (n mod 16)). lia. }
  destruct Hcases as (d & Hlt & ->).
  do 16 (destruct d as [|d]; [reflexivity|]). lia.
Qed.

Lemma hexDigits_allHex fuel : forall n acc,
  allChars isLowerHex acc = true ->
  allChars isLowerHex (hexDigits fuel n acc) = true.
Proof.
  induction fuel as [|fuel IH]; intros n acc Hacc; simpl; [done|].
  destruct (n / 16 =? 0)%Z.
  - simpl. by rewrite hexDigit_isLowerHex.
  - apply IH. simpl. by rewrite hexDigit_isLowerHex.
Qed.

(** A number below [16 ^ (k + 1)] has at most [k + 1] digits. *)
Lemma hexDigits_length_le k : forall fuel n acc,
  (0 <= n < 16 ^ Z.of_nat (S k))%Z ->
  (String.length (hexDigits fuel n acc) <= S k + String.length acc)%nat.
Proof.
  induction k as [|k IH]; intros fuel n acc Hn;
    (destruct fuel as [|fuel]; simpl; [lia|]).
  - assert (n / 16 = 0)%Z as -> by (apply Z.div_small; simpl in Hn; lia).
    simpl. lia.
  - destruct (n / 16 =? 0)%Z eqn:Hq; [simpl; lia|].
    assert (Hn' : (0 <= n / 16 < 16 ^ Z.of_nat (S k))%Z).
    { split; [apply Z.div_pos; lia|].
      apply Z.div_lt_upper_bound; [lia|].
      replace (16 * 16 ^ Z.of_nat (S k))%Z with (16 ^ Z.of_nat (S (S k)))%Z; [lia|].
      rewrite (Nat2Z.inj_succ (S k)), Z.pow_succ_r by lia. done. }
    specialize (IH fuel (n / 16)%Z (String (hexDigit n) acc) Hn').
    simpl in IH. lia.
Qed.

Lemma hex_length_le n :
  (0 <= n < 2 ^ 64)%Z -> (String.length (hex n) <= 16)%nat.
Proof.
  intros Hn. unfold hex.
  pose proof (hexDigits_length_le 15 (S (Z.to_nat (Z.log2 n))) n EmptyString) as Hle.
  simpl String.length in Hle. rewrite Nat.add_0_r in Hle. apply Hle.
  change (16 ^ Z.of_nat 16)%Z with (2 ^ 64)%Z. done.
Qed.

Lemma hex_allHex n : allChars isLowerHex (hex n) = true.
Proof. unfold hex. by apply hexDigits_allHex. Qed.

(** The rendering of a number that fits 64 bits is exactly sixteen
    lower-case hexadecimal digits. *)
Lemma Sprintf_016x_width x :
  (0 <= x < 2 ^ 64)%Z ->
  String.length (Sprintf_016x x) = 16%nat /\ allHex (Sprintf_016x x) = true.
Proof.
  intros Hx. unfold Sprintf_016x. cbv zeta.
  rewrite (proj2 (Z.ltb_ge x 0)) by lia. rewrite Z.abs_eq by lia.
  change ("" ++ zeros (16 - (String.length "" + String.length (hex x))) ++ hex x)
    with (zeros (16 - String.length (hex x)) ++ hex x).
  pose proof (hex_length_le x Hx) as Hle.
  assert (Hlen : String.length (zeros (16 - String.length (hex x)) ++ hex x) = 16%nat).
  { rewrite length_append, zeros_length. lia. }
  split; [done|].
  unfold allHex. rewrite Hlen. simpl.
  by rewrite allChars_append, zeros_allHex, hex_allHex.
Qed.

Lemma prefix_CertPath x : String.prefix CertPath (CertPath ++ x) = true.
Proof. apply prefix_correct. simpl. by destruct x. Qed.

Lemma dropPrefix_CertPath x :
  dropPrefix (String.length CertPath) (CertPath ++ x) = x.
Proof.
  change (substring 0 (String.length x - 0) x = x).
  rewrite Nat.sub_0_r. apply substring_all.
Qed.

(** The rendering never has fewer than sixteen characters. *)
Lemma Sprintf_016x_min_width x : (16 <= String.length (Sprintf_016x x))%nat.
Proof.
  unfold Sprintf_016x. cbv zeta.
  rewrite !length_append, zeros_length. lia.
Qed.

Lemma shortSerial_width serial :
  (0 <= serial < 2 ^ 128)%Z ->
  String.length (shortSerial serial) = 16%nat /\
  allHex (shortSerial serial) = true.
Proof.
  intros Hs. apply Sprintf_016x_width.
  rewrite Z.shiftr_div_pow2 by lia. split.
  - apply Z.div_pos; lia.
  - apply Z.div_lt_upper_bound; [lia|].
    change (2 ^ 64 * 2 ^ 64)%Z with (2 ^ 128)%Z. lia.
Qed.

Lemma hexDigits_length_acc fuel : forall n acc,
  (String.length acc <= String.length (hexDigits fuel n acc))%nat.
Proof.
  induction fuel as [|fuel IH]; intros n acc; simpl; [lia|].
  destruct (n / 16 =? 0)%Z; [simpl; lia|].
  etransitivity; [|apply IH]. simpl. lia.
Qed.

Lemma hexDigits_length_ge k : forall fuel n acc,
  (16 ^ Z.of_nat k <= n)%Z ->
  (k < fuel)%nat ->
  (S k + String.length acc <= String.length (hexDigits fuel n acc))%nat.
Proof.
  induction k as [|k IH]; intros fuel n acc Hn Hfuel;
    (destruct fuel as [|fuel]; [lia|]); simpl.
  - destruct (n / 16 =? 0)%Z; [simpl; lia|].
    etransitivity; [|apply hexDigits_length_acc]. simpl. lia.
  - assert (Hq : (16 ^ Z.of_nat k <= n / 16)%Z).
    { apply Z.div_le_lower_bound; [lia|].
      replace (16 * 16 ^ Z.of_nat k)%Z with (16 ^ Z.of_nat (S k))%Z; [done|].
      rewrite Nat2Z.inj_succ, Z.pow_succ_r by lia. reflexivity. }
    assert (0 < 16 ^ Z.of_nat k)%Z by (apply Z.pow_pos_nonneg; lia).
    destruct (Z.eqb_spec (n / 16) 0) as [Hz|_]; [lia|].
    etransitivity; [|apply (IH fuel (n / 16)%Z); [done|lia]]. simpl. lia.
Qed.

(** The rendering of a number that does not fit 64 bits has more than
    sixteen characters. *)
Lemma Sprintf_016x_wide x :
  (2 ^ 64 <= x)%Z -> (16 < String.length (Sprintf_016x x))%nat.
Proof.
  intros Hx. unfold Sprintf_016x. cbv zeta.
  rewrite !length_append, zeros_length. rewrite Z.abs_eq by lia.
  assert (Hlog : (64 <= Z.log2 x)%Z)
    by (apply (Z.log2_le_mono (2 ^ 64) x) in Hx; exact Hx).
  pose proof (hexDigits_length_ge 16 (S (Z.to_nat (Z.log2 x))) x EmptyString)
    as Hge.
  change (16 ^ Z.of_nat 16)%Z with (2 ^ 64)%Z in Hge.
  specialize (Hge Hx ltac:(lia)).
  change (String.length EmptyString) with 0%nat in Hge.
  unfold hex. lia.
Qed.

Lemma shortSerial_wide serial :
  (2 ^ 128 <= serial)%Z -> (16 < String.length (shortSerial serial))%nat.
Proof.
  intros Hs. apply Sprintf_016x_wide.
  rewrite Z.shiftr_div_pow2 by lia.
  apply Z.div_le_lower_bound; lia.
Qed.

End ShortSerialFacts.

(** * Properties of the resource handlers *)

Section HandlerFacts.

Context {NS : Type} `{NonceService NS}.
Variable wfe : WebFrontEndImpl.

Ltac run_handler :=
  unfold mbind, mret, handler_bind, handler_ret, hbind, hret, panic,
    nonceValid, nonceNonce, callRA, Audit, StatsInc, withResponse in *.

(** [sendError] returns, writes the status [code] unless one was written
    before, and touches neither the nonce service, nor the calls, nor the
    statistics. *)
Lemma sendError_result details code (s : @state NS) :
  (sendError wfe details code s).1 = Returned tt.
Proof.
  unfold sendError, HeaderSet, WriteHeader, Write. run_handler.
  repeat case_match; simplify_eq; reflexivity.
Qed.

Lemma sendError_calls details code (s : @state NS) :
  calls (sendError wfe details code s).2 = calls s.
Proof.
  unfold sendError, HeaderSet, WriteHeader, Write. run_handler.
  repeat case_match; simplify_eq; reflexivity.
Qed.

Lemma sendError_nonceService details code (s : @state NS) :
  nonceService (sendError wfe details code s).2 = nonceService s.
Proof.
  unfold sendError, HeaderSet, WriteHeader, Write. run_handler.
  repeat case_match; simplify_eq; reflexivity.
Qed.

Lemma sendError_Code details code (s : @state NS) :
  ResponseWriter.Code (response (sendError wfe details code s).2) =
  Some (default code (ResponseWriter.Code (response s))).
Proof.
  unfold sendError, HeaderSet, WriteHeader, Write. run_handler.
  destruct s as [ns [hd [c|] b] cs au st]; simpl;
    repeat case_match; simplify_eq; reflexivity.
Qed.

(** The document [sendError] writes is the marshalled problem whose type
    is [problemTypeOfCode code]. *)
Lemma sendError_Body details code (s : @state NS) doc :
  Marshal_problem (lib wfe) (problem.mk (problemTypeOfCode code) details) =
    Ok doc ->
  ResponseWriter.Body (response (sendError wfe details code s).2) =
  ResponseWriter.Body (response s) ++ doc.
Proof.
  intros Hdoc.
  unfold sendError, HeaderSet, WriteHeader, Write. run_handler.
  rewrite Hdoc. repeat case_match; simplify_eq; reflexivity.
Qed.

(** No error of the Registration Authority is answered with 202. *)
Lemma statusCodeFromError_not_Accepted err :
  statusCodeFromError err <> StatusAccepted.
Proof. destruct err; discriminate. Qed.

(** The challenge found is in the list, at the index returned less the
    start index, and its URI has the path and the query looked for. *)
Lemma findChallenge_Some challenges u : forall i j,
  findChallenge challenges u i = Some j ->
  (i <= j)%nat /\
  exists challenge,
    challenges !! (j - i)%nat = Some challenge /\
    URL.Path (Challenge.URI challenge) = URL.Path u /\
    URL.RawQuery (Challenge.URI challenge) = URL.RawQuery u.
Proof.
  induction challenges as [|c rest IH]; intros i j; simpl; [done|].
  destruct (_ && _) eqn:Hmatch.
  - intros ?; simplify_eq. split; [lia|]. exists c.
    replace (j - j)%nat with 0%nat by lia.
    apply andb_true_iff in Hmatch as [?%String.eqb_eq ?%String.eqb_eq]. done.
  - intros Hrest. destruct (IH _ _ Hrest) as (Hle & c' & Hlook & Huri).
    split; [lia|]. exists c'. split; [|done].
    replace (j - i)%nat with (S (j - S i)) by lia. done.
Qed.

Ltac unfold_effects :=
  unfold serve, afterHeaders, sendVerifyError, sendChallenge, sendAllow,
    sendStandardHeaders, HeaderSet, HeaderAdd, WriteHeader, Write in *;
  run_handler.

(** What [verifyPOST] left of the state it was called in. *)
Ltac verify_facts :=
  match goal with
  | Hv : verifyPOST ?w ?r ?b ?s = (_, ?s') |- _ =>
    let Hs := fresh "Hs" in
    let Hresponse := fresh "Hresponse" in
    let Hcalls := fresh "Hcalls" in
    pose proof (verifyPOST_state w r b s) as Hs;
    rewrite Hv in Hs; simpl in Hs;
    destruct Hs as (Hresponse & Hcalls & _);
    rewrite ?Hresponse, ?Hcalls
  end.

Ltac leaf :=
  simpl;
  rewrite ?sendError_result, ?sendError_calls, ?sendError_Code,
    ?sendError_nonceService;
  simpl;
  try verify_facts;
  simpl in *.

(** ** Account update *)

(** C4.  Every update that [Registration] hands to the Registration
    Authority carries the key of the account it updates, and that account
    is the one stored for the key that signed the request; what the
    payload says of the key is not read. *)
Theorem Registration_keeps_key request ns base update :
  UpdateRegistrationCall base update ∈
    calls (serve (Registration wfe request) ns).2 ->
  Registration.Key update = Registration.Key base /\
  exists payload k s1,
    verifyPOST wfe request true (afterHeaders ns) =
      (Returned (Ok (payload, k, base)), s1) /\
    GetRegistrationByKey (SA wfe) k = Ok base.
Proof.
  unfold Registration. unfold_effects.
  intros Hin.
  repeat case_match; simplify_eq; revert Hin; leaf;
    try (intros Hin; by apply elem_of_nil in Hin).
  all: intros Hin; apply list_elem_of_singleton in Hin; simplify_eq; simpl.
  all: split; [done|].
  all: match goal with
       | Hv : verifyPOST _ _ _ _ = _ |- _ =>
         pose proof (verifyPOST_Ok_inv _ _ _ _ _ _ _ _ Hv)
           as (? & ? & ? & ? & _ & _ & _ & _ & _ & _ & _ & _ & _ & _ & _ & Hreg)
       end.
  all: destruct Hreg as [Hreg|[? _]]; [|discriminate].
  all: eauto.
Qed.

(** C6, as amended.  For a POST that [verifyPOST] accepts,
    [Registration] answers Bad Request when the last path segment is not
    an integer or is not positive, and Forbidden when it is a positive
    integer other than the id of the account of the signer; in each case
    nothing is sent to the Registration Authority, whatever it is.  A call
    to the Registration Authority is made only with the last path segment
    a positive integer equal to that id. *)
Theorem Registration_path_check request ns payload k currReg s1 :
  Request.Method request = "POST" ->
  verifyPOST wfe request true (afterHeaders ns) =
    (Returned (Ok (payload, k, currReg)), s1) ->
  (forall err,
     ParseInt (parseIDFromPath (URL.Path (Request.URL_ request))) = Err err ->
     ResponseWriter.Code (response (serve (Registration wfe request) ns).2) =
       Some StatusBadRequest /\
     calls (serve (Registration wfe request) ns).2 = []) /\
  (forall id,
     ParseInt (parseIDFromPath (URL.Path (Request.URL_ request))) = Ok id ->
     (id <= 0)%Z ->
     ResponseWriter.Code (response (serve (Registration wfe request) ns).2) =
       Some StatusBadRequest /\
     calls (serve (Registration wfe request) ns).2 = []) /\
  (forall id,
     ParseInt (parseIDFromPath (URL.Path (Request.URL_ request))) = Ok id ->
     (0 < id)%Z -> id <> Registration.ID currReg ->
     ResponseWriter.Code (response (serve (Registration wfe request) ns).2) =
       Some StatusForbidden /\
     calls (serve (Registration wfe request) ns).2 = []) /\
  (calls (serve (Registration wfe request) ns).2 <> [] ->
   ParseInt (parseIDFromPath (URL.Path (Request.URL_ request))) =
     Ok (Registration.ID currReg) /\
   (0 < Registration.ID currReg)%Z).
Proof.
  intros Hmethod Hv. unfold Registration. unfold_effects.
  rewrite Hmethod. simpl.
  simpl in Hv. destruct (Nonce ns) as [n ns1]. simpl in *. rewrite Hv.
  split_and!.
  - intros err ->. by leaf.
  - intros id -> Hid. rewrite (proj2 (Z.leb_le id 0)) by done. by leaf.
  - intros id -> Hpos Hne.
    rewrite (proj2 (Z.leb_gt id 0)) by done.
    rewrite (proj2 (Z.eqb_neq _ _)) by done. by leaf.
  - destruct (ParseInt _) as [id|err]; [|by leaf].
    destruct (Z.leb_spec id 0); [by leaf|].
    destruct (Z.eqb_spec id (Registration.ID currReg)); [|by leaf].
    subst id. done.
Qed.

(** ** Challenges *)

(** C5.  For a POST to the URI of a challenge of [authz] that
    [verifyPOST] accepts, when the id of the account of the signer is not
    the id of the account that owns [authz], [challenge] answers Forbidden
    and sends nothing to the Registration Authority.  Every update
    [challenge] sends to the Registration Authority is for a signer whose
    account id is the one that owns [authz]. *)
Theorem challenge_owner_check authz request ns :
  (forall payload k currReg s1 challengeIndex,
     Request.Method request = "POST" ->
     findChallenge (Authorization.Challenges authz) (Request.URL_ request) 0 =
       Some challengeIndex ->
     verifyPOST wfe request true (afterHeaders ns) =
       (Returned (Ok (payload, k, currReg)), s1) ->
     Registration.ID currReg <> Authorization.RegistrationID authz ->
     ResponseWriter.Code (response (serve (challenge wfe authz request) ns).2) =
       Some StatusForbidden /\
     calls (serve (challenge wfe authz request) ns).2 = []) /\
  (forall a i c,
     UpdateAuthorizationCall a i c ∈
       calls (serve (challenge wfe authz request) ns).2 ->
     a = authz /\
     exists payload k currReg s1,
       verifyPOST wfe request true (afterHeaders ns) =
         (Returned (Ok (payload, k, currReg)), s1) /\
       Registration.ID currReg = Authorization.RegistrationID authz).
Proof.
  split.
  - intros payload k currReg s1 challengeIndex Hmethod Hfound Hv Hne.
    unfold challenge. unfold_effects.
    rewrite Hmethod, Hfound. simpl.
    simpl in Hv. destruct (Nonce ns) as [n ns1]. simpl in *. rewrite Hv.
    destruct (Registration.Agreement currReg =? "")%string; [by leaf|].
    rewrite (proj2 (Z.eqb_neq _ _)) by done. by leaf.
  - intros a i c.
    remember (serve (challenge wfe authz request) ns) as r eqn:Hr.
    unfold challenge in Hr. unfold_effects. simpl in Hr. simpl.
    destruct (Nonce ns) as [n ns1]. simpl in Hr. simpl.
    intros Hin.
    repeat case_match; simplify_eq; revert Hin; leaf;
      try (intros Hin; by apply elem_of_nil in Hin).
    all: intros Hin; apply list_elem_of_singleton in Hin; simplify_eq.
    all: split; [done|].
    all: match goal with
         | Hid : negb (_ =? _)%Z = false |- _ =>
           apply negb_false_iff, Z.eqb_eq in Hid
         end.
    all: eauto 10.
Qed.

(** C7.  When [challenge] answers a POST with 202, the index found for
    the request URI in the challenges of [authz] is the index sent to the
    Registration Authority, in the only call made, and the body of the
    response is the challenge at that index of the authorization the
    Registration Authority returned. *)
Theorem challenge_index_stable authz request ns :
  Request.Method request = "POST" ->
  ResponseWriter.Code (response (serve (challenge wfe authz request) ns).2) =
    Some StatusAccepted ->
  exists challengeIndex asked challengeResponse updatedAuthz updated jsonReply,
    findChallenge (Authorization.Challenges authz) (Request.URL_ request) 0 =
      Some challengeIndex /\
    Authorization.Challenges authz !! challengeIndex = Some asked /\
    URL.Path (Challenge.URI asked) = URL.Path (Request.URL_ request) /\
    URL.RawQuery (Challenge.URI asked) = URL.RawQuery (Request.URL_ request) /\
    calls (serve (challenge wfe authz request) ns).2 =
      [UpdateAuthorizationCall authz (Z.of_nat challengeIndex) challengeResponse] /\
    RA_UpdateAuthorization (RA wfe) authz (Z.of_nat challengeIndex)
      challengeResponse = Ok updatedAuthz /\
    Authorization.Challenges updatedAuthz !! challengeIndex = Some updated /\
    Marshal_Challenge (lib wfe) updated = Ok jsonReply /\
    ResponseWriter.Body (response (serve (challenge wfe authz request) ns).2) =
      jsonReply /\
    (serve (challenge wfe authz request) ns).1 = Returned tt.
Proof.
  intros Hmethod. unfold challenge. unfold_effects.
  rewrite Hmethod. simpl.
  intros Hcode.
  repeat case_match; simplify_eq; revert Hcode; leaf;
    try discriminate;
    try (intros [=Hcode]; by apply statusCodeFromError_not_Accepted in Hcode).
  all: intros _.
  all: match goal with
       | Hf : findChallenge _ _ 0 = Some ?i |- _ =>
         destruct (findChallenge_Some _ _ _ _ Hf) as (_ & asked & Hasked & Hpath & Hquery);
         rewrite Nat.sub_0_r in Hasked
       end.
  all: eexists _, asked, _, _, _, _; split_and!; eauto.
Qed.

(** ** Revocation *)

(** C3, as amended.  [RevokeCertificate] sends a revocation to the
    Registration Authority only for a verified request whose payload is
    the stored certificate and whose signing key matches the public key
    of the certificate, or whose signer has the account id stored with
    the certificate.  A verified request for a stored certificate that
    parses, whose status is available and not revoked, and that meets
    neither condition is answered Forbidden, with no call made. *)
Theorem RevokeCertificate_authorization request ns :
  (forall parsed,
     RevokeCertificateCall parsed ∈
       calls (serve (RevokeCertificate wfe request) ns).2 ->
     exists payload requestKey registration s1 der provided cert,
       verifyPOST wfe request false (afterHeaders ns) =
         (Returned (Ok (payload, requestKey, registration)), s1) /\
       Unmarshal_RevokeRequest (lib wfe) payload = Ok der /\
       ParseCertificate (lib wfe) der = Ok provided /\
       GetCertificate (SA wfe)
         (SerialToString (lib wfe) (X509.SerialNumber provided)) = Ok cert /\
       Certificate.DER cert = der /\
       ParseCertificate (lib wfe) (Certificate.DER cert) = Ok parsed /\
       (KeyDigestEquals (lib wfe) requestKey (X509.PublicKey parsed) = true \/
        Registration.ID registration = Certificate.RegistrationID cert)) /\
  (forall payload requestKey registration s1 der provided cert parsed certStatus,
     Request.Method request = "POST" ->
     verifyPOST wfe request false (afterHeaders ns) =
       (Returned (Ok (payload, requestKey, registration)), s1) ->
     Unmarshal_RevokeRequest (lib wfe) payload = Ok der ->
     ParseCertificate (lib wfe) der = Ok provided ->
     GetCertificate (SA wfe)
       (SerialToString (lib wfe) (X509.SerialNumber provided)) = Ok cert ->
     Certificate.DER cert = der ->
     ParseCertificate (lib wfe) (Certificate.DER cert) = Ok parsed ->
     GetCertificateStatus (SA wfe)
       (SerialToString (lib wfe) (X509.SerialNumber provided)) = Ok certStatus ->
     CertificateStatus.Status certStatus <> OCSPStatusRevoked ->
     KeyDigestEquals (lib wfe) requestKey (X509.PublicKey parsed) = false ->
     Registration.ID registration <> Certificate.RegistrationID cert ->
     ResponseWriter.Code (response (serve (RevokeCertificate wfe request) ns).2) =
       Some StatusForbidden /\
     calls (serve (RevokeCertificate wfe request) ns).2 = []).
Proof.
  split.
  - intros parsed. unfold RevokeCertificate, revokeAuthorized. unfold_effects.
    intros Hin.
    repeat case_match; simplify_eq; revert Hin; leaf;
      try (intros Hin; by apply elem_of_nil in Hin).
    all: intros Hin; apply list_elem_of_singleton in Hin; simplify_eq.
    all: repeat match goal with
         | Hb : negb _ = false |- _ => apply negb_false_iff in Hb
         end.
    all: match goal with
         | Hder : (_ =? _)%string = true |- _ => apply String.eqb_eq in Hder
         end.
    all: match goal with
         | Hauth : _ || _ = true |- _ =>
           apply orb_true_iff in Hauth as [Hauth|Hauth%Z.eqb_eq]
         end.
    all: eexists _, _, _, _, _, _, _; split_and!; eauto; congruence.
  - intros payload requestKey registration s1 der provided cert parsed certStatus
      Hmethod Hv Hunmarshal Hprovided Hcert Hder Hparsed Hstatus Hgood Hkey Hid.
    unfold RevokeCertificate, revokeAuthorized. unfold_effects.
    rewrite Hmethod. simpl. simpl in Hv.
    destruct (Nonce ns) as [n ns1]. simpl in *. rewrite Hv.
    subst der. rewrite Hunmarshal. simpl. rewrite Hprovided. simpl.
    rewrite Hcert. simpl. rewrite String.eqb_refl. simpl.
    rewrite Hparsed. simpl. rewrite Hstatus. simpl.
    rewrite (proj2 (String.eqb_neq _ _)) by done.
    rewrite Hkey. rewrite (proj2 (Z.eqb_neq _ _)) by done. by leaf.
Qed.

#[local] Arguments Z.eqb : simpl never.

(** C10.  A revocation request signed by a key that maps to no stored
    registration is verified with the empty registration, whose id is 0.
    When the request reaches the authorization test (its payload is the
    stored certificate, whose status is available and not revoked), the
    test is that the signing key matches the public key of the
    certificate or that the account id stored with the certificate is 0:
    the revocation is sent to the Registration Authority if and only if
    one of the two holds, and the request is answered Forbidden
    otherwise. *)
Theorem RevokeCertificate_accountless request ns payload requestKey registration
    s1 err der cert parsed certStatus :
  Request.Method request = "POST" ->
  verifyPOST wfe request false (afterHeaders ns) =
    (Returned (Ok (payload, requestKey, registration)), s1) ->
  GetRegistrationByKey (SA wfe) requestKey = Err err ->
  Unmarshal_RevokeRequest (lib wfe) payload = Ok der ->
  ParseCertificate (lib wfe) der = Ok parsed ->
  GetCertificate (SA wfe)
    (SerialToString (lib wfe) (X509.SerialNumber parsed)) = Ok cert ->
  Certificate.DER cert = der ->
  GetCertificateStatus (SA wfe)
    (SerialToString (lib wfe) (X509.SerialNumber parsed)) = Ok certStatus ->
  CertificateStatus.Status certStatus <> OCSPStatusRevoked ->
  registration = Registration.zero /\
  Registration.ID registration = 0%Z /\
  revokeAuthorized wfe requestKey parsed registration cert =
    KeyDigestEquals (lib wfe) requestKey (X509.PublicKey parsed) ||
    (0 =? Certificate.RegistrationID cert)%Z /\
  (calls (serve (RevokeCertificate wfe request) ns).2 =
     [RevokeCertificateCall parsed] <->
   KeyDigestEquals (lib wfe) requestKey (X509.PublicKey parsed) = true \/
   Certificate.RegistrationID cert = 0%Z) /\
  (~ (KeyDigestEquals (lib wfe) requestKey (X509.PublicKey parsed) = true \/
      Certificate.RegistrationID cert = 0%Z) ->
   ResponseWriter.Code (response (serve (RevokeCertificate wfe request) ns).2) =
     Some StatusForbidden /\
   calls (serve (RevokeCertificate wfe request) ns).2 = []).
Proof.
  intros Hmethod Hv Hreg Hunmarshal Hparsed Hcert Hder Hstatus Hgood.
  assert (Hzero : registration = Registration.zero).
  { apply verifyPOST_Ok_inv in Hv
      as (? & ? & ? & ? & _ & _ & _ & _ & _ & _ & _ & _ & _ & _ & _ & Hfound).
    destruct Hfound as [Hfound|(_ & ? & _)]; [congruence|done]. }
  subst registration.
  split; [done|]. split; [done|]. split; [done|].
  unfold RevokeCertificate, revokeAuthorized. unfold_effects.
  rewrite Hmethod. simpl. simpl in Hv.
  destruct (Nonce ns) as [n ns1]. simpl in *. rewrite Hv.
  subst der. rewrite Hunmarshal. simpl. rewrite Hparsed. simpl.
  rewrite Hcert. simpl. rewrite String.eqb_refl. simpl.
  rewrite Hparsed. simpl. rewrite Hstatus. simpl.
  rewrite (proj2 (String.eqb_neq _ _)) by done.
  destruct (KeyDigestEquals (lib wfe) requestKey (X509.PublicKey parsed));
    destruct (Z.eqb_spec 0 (Certificate.RegistrationID cert)) as [Hid|Hid];
    simpl.
  1-3: split; [|intros []; by auto].
  1-3: destruct (RA_RevokeCertificate (RA wfe) parsed); leaf; split; auto.
  split; [|by leaf].
  leaf. split; [discriminate|]. intros [?|?]; [discriminate|congruence].
Qed.

(** ** Certificates *)

(** A certificate request answered with 201 went to the Registration
    Authority once; the [Location] of the answer is [CertBase] followed
    by the short identifier of the serial number of the certificate
    returned, and the body is that certificate. *)
Lemma NewCertificate_Location request ns :
  ResponseWriter.Code (response (serve (NewCertificate wfe request) ns).2) =
    Some StatusCreated ->
  exists init regID cert parsedCertificate,
    calls (serve (NewCertificate wfe request) ns).2 =
      [NewCertificateCall init regID] /\
    RA_NewCertificate (RA wfe) init regID = Ok cert /\
    ParseCertificate (lib wfe) (Certificate.DER cert) = Ok parsedCertificate /\
    ResponseWriter.Header (response (serve (NewCertificate wfe request) ns).2)
      !! "Location" =
      Some [CertBase wfe ++ shortSerial (X509.SerialNumber parsedCertificate)] /\
    ResponseWriter.Body (response (serve (NewCertificate wfe request) ns).2) =
      Certificate.DER cert.
Proof.
  remember (serve (NewCertificate wfe request) ns) as r eqn:Hr.
  unfold NewCertificate in Hr. unfold_effects. simpl in Hr.
  destruct (Nonce ns) as [n ns1]. simpl in Hr.
  intros Hcode.
  repeat case_match; simplify_eq; revert Hcode.
  all: try (leaf; discriminate).
  all: try (leaf; intros [=Hcode]; destruct err; discriminate).
  intros _. cbn [snd response calls]. verify_facts.
  eexists _, _, _, _. split_and!; eauto.
Qed.

(** A GET of the short identifier of a serial number below [2 ^ 128],
    before a storage that looks the identifier up in [certs]: the answer
    is the one certificate that has the identifier, Conflict when several
    have it, and Not Found when none has. *)
Lemma Certificate_GET certs request serial ns :
  GetCertificateByShortSerial (SA wfe) = lookupByShortSerial certs ->
  Request.Method request = "GET" ->
  URL.Path (Request.URL_ request) = CertPath ++ shortSerial serial ->
  (0 <= serial < 2 ^ 128)%Z ->
  match certsByShortSerial certs (shortSerial serial) with
  | [] =>
    ResponseWriter.Code (response (serve (Certificate wfe request) ns).2) =
      Some StatusNotFound
  | [cert] =>
    ResponseWriter.Code (response (serve (Certificate wfe request) ns).2) =
      Some StatusOK /\
    ResponseWriter.Body (response (serve (Certificate wfe request) ns).2) =
      Certificate.DER cert
  | _ =>
    ResponseWriter.Code (response (serve (Certificate wfe request) ns).2) =
      Some StatusConflict
  end.
Proof.
  intros HSA Hmethod Hpath Hrange.
  destruct (shortSerial_width serial Hrange) as [Hlen Hhex].
  revert Hpath Hlen Hhex. generalize (shortSerial serial).
  intros x Hpath Hlen Hhex.
  remember (serve (Certificate wfe request) ns) as r eqn:Hr.
  unfold Certificate in Hr. unfold_effects. cbv zeta in Hr.
  rewrite Hmethod, Hpath, HSA in Hr.
  rewrite prefix_CertPath, dropPrefix_CertPath, Hlen, Hhex in Hr.
  unfold lookupByShortSerial in Hr.
  simpl in Hr. destruct (Nonce ns) as [n ns1]. simpl in Hr.
  destruct (certsByShortSerial certs x) as [|c [|c' rest]];
    simpl in Hr; subst r; leaf; done.
Qed.

(** A GET of [CertPath] followed by other than sixteen characters is
    answered Not Found. *)
Lemma Certificate_GET_width request (ns : NS) x :
  Request.Method request = "GET" ->
  URL.Path (Request.URL_ request) = CertPath ++ x ->
  String.length x <> 16%nat ->
  ResponseWriter.Code (response (serve (Certificate wfe request) ns).2) =
    Some StatusNotFound.
Proof.
  intros Hmethod Hpath Hlen.
  apply Nat.eqb_neq in Hlen.
  remember (serve (Certificate wfe request) ns) as r eqn:Hr.
  unfold Certificate in Hr. unfold_effects. cbv zeta in Hr.
  rewrite Hmethod, Hpath in Hr.
  rewrite prefix_CertPath, dropPrefix_CertPath, Hlen in Hr.
  simpl in Hr. destruct (Nonce ns) as [n ns1]. simpl in Hr.
  subst r. leaf. done.
Qed.

(** The short identifier of a serial number is the
    rendering of the serial number shifted right by 64 bits, so two
    serial numbers that differ in the low 64 bits only have the same
    one; for a serial number from 0 to below [2 ^ 128] it is exactly
    sixteen lower-case hexadecimal digits.  The [Location] of an issued
    certificate ends with the identifier of its serial number.  A GET of
    the identifier of such a serial number returns the one stored
    certificate that has it, is answered Conflict when several stored
    certificates have it, and Not Found when none has. *)
Theorem shortSerial_round_trip :
  (forall serial, shortSerial serial = Sprintf_016x (Z.shiftr serial 64)) /\
  (forall serial serial',
     Z.shiftr serial 64 = Z.shiftr serial' 64 ->
     shortSerial serial = shortSerial serial') /\
  (forall serial, (16 <= String.length (shortSerial serial))%nat) /\
  (forall serial,
     (0 <= serial < 2 ^ 128)%Z ->
     String.length (shortSerial serial) = 16%nat /\
     allHex (shortSerial serial) = true) /\
  (forall request ns,
     ResponseWriter.Code (response (serve (NewCertificate wfe request) ns).2) =
       Some StatusCreated ->
     exists init regID cert parsedCertificate,
       calls (serve (NewCertificate wfe request) ns).2 =
         [NewCertificateCall init regID] /\
       RA_NewCertificate (RA wfe) init regID = Ok cert /\
       ParseCertificate (lib wfe) (Certificate.DER cert) = Ok parsedCertificate /\
       ResponseWriter.Header (response (serve (NewCertificate wfe request) ns).2)
         !! "Location" =
         Some [CertBase wfe ++ shortSerial (X509.SerialNumber parsedCertificate)] /\
       ResponseWriter.Body (response (serve (NewCertificate wfe request) ns).2) =
         Certificate.DER cert) /\
  (forall certs request serial ns,
     GetCertificateByShortSerial (SA wfe) = lookupByShortSerial certs ->
     Request.Method request = "GET" ->
     URL.Path (Request.URL_ request) = CertPath ++ shortSerial serial ->
     (0 <= serial < 2 ^ 128)%Z ->
     match certsByShortSerial certs (shortSerial serial) with
     | [] =>
       ResponseWriter.Code (response (serve (Certificate wfe request) ns).2) =
         Some StatusNotFound
     | [cert] =>
       ResponseWriter.Code (response (serve (Certificate wfe request) ns).2) =
         Some StatusOK /\
       ResponseWriter.Body (response (serve (Certificate wfe request) ns).2) =
         Certificate.DER cert
     | _ =>
       ResponseWriter.Code (response (serve (Certificate wfe request) ns).2) =
         Some StatusConflict
     end).
Proof.
  split_and!.
  - reflexivity.
  - intros serial serial' Heq. unfold shortSerial. by rewrite Heq.
  - intros serial. apply Sprintf_016x_min_width.
  - apply shortSerial_width.
  - apply NewCertificate_Location.
  - apply Certificate_GET.
Qed.

End HandlerFacts.

(** * The handlers on the small deployment *)

(** The witness of C4: the payload of the update of Alice names the key
    of Mallory, and the update sent carries the key of Alice. *)
Lemma Registration_keeps_key_witness :
  Unmarshal_Registration (lib (Example.wfe false)) "mallory-key" =
    Ok (Registration.mk 0 "mallory-key" [] "") /\
  calls (serve (Registration (Example.wfe false) Example.aliceUpdate)
           Example.nonces).2 =
    [UpdateRegistrationCall Example.alice (Registration.mk 0 "alice-key" [] "")] /\
  (Registration.Key (Registration.mk 0 "alice-key" [] "") =
     Registration.Key Example.alice /\
   exists payload k s1,
     verifyPOST (Example.wfe false) Example.aliceUpdate true
       (afterHeaders Example.nonces) =
       (Returned (Ok (payload, k, Example.alice)), s1) /\
     GetRegistrationByKey (SA (Example.wfe false)) k = Ok Example.alice).
Proof.
  split; [reflexivity|]. split; [reflexivity|].
  apply (Registration_keeps_key (Example.wfe false) Example.aliceUpdate
           Example.nonces).
  vm_compute. constructor.
Defined.

(** The witness of C6: the update of Alice to a path that names no
    integer is answered Bad Request, with no call made. *)
Lemma Registration_path_check_witness :
  ResponseWriter.Code
    (response (serve (Registration (Example.wfe false) Example.aliceBadPath)
                 Example.nonces).2) = Some StatusBadRequest /\
  calls (serve (Registration (Example.wfe false) Example.aliceBadPath)
           Example.nonces).2 = [].
Proof.
  destruct (Registration_path_check (Example.wfe false) Example.aliceBadPath
              Example.nonces "alice-key" "alice-key" Example.alice
              (verifyPOST (Example.wfe false) Example.aliceBadPath true
                 (afterHeaders Example.nonces)).2) as [Hnoint _];
    [reflexivity | reflexivity |].
  apply (Hnoint ErrSyntax). reflexivity.
Defined.

(** C6 as stated fails: the request of Alice is verified, its last path
    segment is not an integer, and the answer is Bad Request, which is
    not Forbidden. *)
Lemma Registration_path_check_counterexample :
  (verifyPOST (Example.wfe false) Example.aliceBadPath true
     (afterHeaders Example.nonces)).1 =
    Returned (Ok ("alice-key", "alice-key", Example.alice)) /\
  parseIDFromPath (URL.Path (Request.URL_ Example.aliceBadPath)) = "abc" /\
  ParseInt "abc" = Err ErrSyntax /\
  ResponseWriter.Code
    (response (serve (Registration (Example.wfe false) Example.aliceBadPath)
                 Example.nonces).2) = Some StatusBadRequest /\
  StatusBadRequest <> StatusForbidden.
Proof. split_and!; [reflexivity..|discriminate]. Qed.

(** The witness of C5: Bob, whose account id is 2, answers a challenge
    of the authorization of the account 1 and is answered Forbidden. *)
Lemma challenge_owner_check_witness :
  ResponseWriter.Code
    (response (serve (challenge (Example.wfe false) Example.authz1
                        Example.bobAnswer) Example.nonces).2) =
    Some StatusForbidden /\
  calls (serve (challenge (Example.wfe false) Example.authz1 Example.bobAnswer)
           Example.nonces).2 = [].
Proof.
  apply (proj1 (challenge_owner_check (Example.wfe false) Example.authz1
                  Example.bobAnswer Example.nonces)
           "token" "bob-key" Example.bob
           (verifyPOST (Example.wfe false) Example.bobAnswer true
              (afterHeaders Example.nonces)).2 1%nat);
    [reflexivity | reflexivity | reflexivity | discriminate].
Defined.

(** The witness of C7: Alice answers the challenge at index 1, the
    index 1 is sent, and the body is the challenge at index 1 of the
    authorization returned. *)
Lemma challenge_index_stable_witness :
  exists challengeIndex asked challengeResponse updatedAuthz updated jsonReply,
    findChallenge (Authorization.Challenges Example.authz1)
      (Request.URL_ Example.aliceAnswer) 0 = Some challengeIndex /\
    Authorization.Challenges Example.authz1 !! challengeIndex = Some asked /\
    URL.Path (Challenge.URI asked) = URL.Path (Request.URL_ Example.aliceAnswer) /\
    URL.RawQuery (Challenge.URI asked) =
      URL.RawQuery (Request.URL_ Example.aliceAnswer) /\
    calls (serve (challenge (Example.wfe false) Example.authz1
                    Example.aliceAnswer) Example.nonces).2 =
      [UpdateAuthorizationCall Example.authz1 (Z.of_nat challengeIndex)
         challengeResponse] /\
    RA_UpdateAuthorization (RA (Example.wfe false)) Example.authz1
      (Z.of_nat challengeIndex) challengeResponse = Ok updatedAuthz /\
    Authorization.Challenges updatedAuthz !! challengeIndex = Some updated /\
    Marshal_Challenge (lib (Example.wfe false)) updated = Ok jsonReply /\
    ResponseWriter.Body
      (response (serve (challenge (Example.wfe false) Example.authz1
                          Example.aliceAnswer) Example.nonces).2) = jsonReply /\
    (serve (challenge (Example.wfe false) Example.authz1 Example.aliceAnswer)
       Example.nonces).1 = Returned tt.
Proof.
  apply (challenge_index_stable (Example.wfe false) Example.authz1
           Example.aliceAnswer Example.nonces); reflexivity.
Defined.

(** The witness of C3: Bob asks to revoke the certificate of Alice,
    which is not revoked, and is answered Forbidden. *)
Lemma RevokeCertificate_authorization_witness :
  ResponseWriter.Code
    (response (serve (RevokeCertificate (Example.wfe false) Example.bobRevokesA)
                 Example.nonces).2) = Some StatusForbidden /\
  calls (serve (RevokeCertificate (Example.wfe false) Example.bobRevokesA)
           Example.nonces).2 = [].
Proof.
  apply (proj2 (RevokeCertificate_authorization (Example.wfe false)
                  Example.bobRevokesA Example.nonces)
           "cert-A" "bob-key" Example.bob
           (verifyPOST (Example.wfe false) Example.bobRevokesA false
              (afterHeaders Example.nonces)).2
           "cert-A" Example.certA
           (Certificate.mk (7 * 2 ^ 64 + 1) 1 "cert-A") Example.certA
           (CertificateStatus.mk "good"));
    try reflexivity; discriminate.
Defined.

(** C3 as stated fails: the request of Bob is verified and its payload
    is the stored certificate of Alice; neither the key nor the account
    id of Bob matches, and the certificate being revoked already, the
    answer is Conflict, which is not Forbidden. *)
Lemma RevokeCertificate_revoked_counterexample :
  (verifyPOST (Example.wfe true) Example.bobRevokesA false
     (afterHeaders Example.nonces)).1 =
    Returned (Ok ("cert-A", "bob-key", Example.bob)) /\
  ParseCertificate (lib (Example.wfe true)) "cert-A" = Ok Example.certA /\
  GetCertificate (SA (Example.wfe true))
    (SerialToString (lib (Example.wfe true)) (X509.SerialNumber Example.certA)) =
    Ok (Certificate.mk (7 * 2 ^ 64 + 1) 1 "cert-A") /\
  KeyDigestEquals (lib (Example.wfe true)) "bob-key"
    (X509.PublicKey Example.certA) = false /\
  Registration.ID Example.bob <> 1%Z /\
  ResponseWriter.Code
    (response (serve (RevokeCertificate (Example.wfe true) Example.bobRevokesA)
                 Example.nonces).2) = Some StatusConflict /\
  StatusConflict <> StatusForbidden.
Proof. split_and!; try reflexivity; discriminate. Qed.

(** The witness of C10: Mallory has no account; the certificate she asks
    to revoke is stored with the account id 0 and has another key, and
    the revocation is sent. *)
Lemma RevokeCertificate_accountless_witness :
  KeyDigestEquals (lib (Example.wfe false)) "mallory-key"
    (X509.PublicKey Example.certC) = false /\
  calls (serve (RevokeCertificate (Example.wfe false) Example.malloryRevokesC)
           Example.nonces).2 = [RevokeCertificateCall Example.certC].
Proof.
  split; [reflexivity|].
  destruct (RevokeCertificate_accountless (Example.wfe false)
              Example.malloryRevokesC Example.nonces
              "cert-C" "mallory-key" Registration.zero
              (verifyPOST (Example.wfe false) Example.malloryRevokesC false
                 (afterHeaders Example.nonces)).2
              ErrNoRows "cert-C" (Certificate.mk (9 * 2 ^ 64 + 5) 0 "cert-C")
              Example.certC (CertificateStatus.mk "good"))
    as (_ & _ & _ & Hsent & _); [reflexivity.. | discriminate |].
  apply Hsent. right. reflexivity.
Defined.

(** The round trip on the deployment: the certificate with the serial
    number [9 * 2 ^ 64 + 5] is the only one stored with its short
    identifier, and a GET of the identifier returns it. *)
Lemma shortSerial_round_trip_witness :
  shortSerial (9 * 2 ^ 64 + 5) = "0000000000000009" /\
  ResponseWriter.Code
    (response
       (serve (Certificate (Example.wfe false)
                 (Example.get (CertPath ++ shortSerial (9 * 2 ^ 64 + 5)) ""))
          Example.nonces).2) = Some StatusOK /\
  ResponseWriter.Body
    (response
       (serve (Certificate (Example.wfe false)
                 (Example.get (CertPath ++ shortSerial (9 * 2 ^ 64 + 5)) ""))
          Example.nonces).2) = "cert-C".
Proof.
  split; [reflexivity|].
  destruct (shortSerial_round_trip (NS := NonceRegistry.t) (Example.wfe false))
    as (_ & _ & _ & _ & _ & Hget).
  apply (Hget Example.certificates
           (Example.get (CertPath ++ shortSerial (9 * 2 ^ 64 + 5)) "")
           (9 * 2 ^ 64 + 5)%Z Example.nonces);
    [reflexivity | reflexivity | reflexivity | lia].
Defined.

(** C9.  The short identifier is not of fixed width.  For a serial
    number from 0 to below [2 ^ 128] it has sixteen lower-case hexadecimal
    digits, as [Certificate] demands of the path it is given.  [%016x]
    pads to a least width only: the identifier of a serial number from
    [2 ^ 128] on has more than sixteen characters, and a GET of it is
    answered Not Found whatever is stored.  The identifier of the serial
    number [2 ^ 128] has seventeen digits: [NewCertificate] answers 201
    for the certificate with this serial number and hands out a
    [Location] with the seventeen digits; one stored certificate has the
    identifier, and a GET of it is answered Not Found. *)
Theorem shortSerial_overflow :
  (forall serial,
     0 <= serial < 2 ^ 128 ->
     String.length (shortSerial serial) = 16%nat /\
     allHex (shortSerial serial) = true) /\
  (forall serial,
     2 ^ 128 <= serial -> (16 < String.length (shortSerial serial))%nat) /\
  (forall NS (H : NonceService NS) wfe request (ns : NS) serial,
     Request.Method request = "GET" ->
     URL.Path (Request.URL_ request) = CertPath ++ shortSerial serial ->
     2 ^ 128 <= serial ->
     ResponseWriter.Code (response (serve (Certificate wfe request) ns).2) =
       Some StatusNotFound) /\
  shortSerial (2 ^ 128) = "10000000000000000" /\
  String.length (shortSerial (2 ^ 128)) = 17%nat /\
  ResponseWriter.Code
    (response (serve (NewCertificate Example.wfeWide Example.aliceNewCert)
                 Example.nonces).2) = Some StatusCreated /\
  ResponseWriter.Body
    (response (serve (NewCertificate Example.wfeWide Example.aliceNewCert)
                 Example.nonces).2) = "cert-wide" /\
  ResponseWriter.Header
    (response (serve (NewCertificate Example.wfeWide Example.aliceNewCert)
                 Example.nonces).2) !! "Location" =
    Some [CertBase Example.wfeWide ++ "10000000000000000"] /\
  certsByShortSerial Example.certificates (shortSerial (2 ^ 128)) =
    [Certificate.mk (2 ^ 128) 2 "cert-wide"] /\
  ResponseWriter.Code
    (response
       (serve (Certificate Example.wfeWide
                 (Example.get (CertPath ++ shortSerial (2 ^ 128)) ""))
          Example.nonces).2) = Some StatusNotFound.
Proof.
  split; [apply shortSerial_width|].
  split; [apply shortSerial_wide|].
  split.
  - intros NS H wfe request ns serial Hmethod Hpath Hwide.
    apply (Certificate_GET_width wfe request ns (shortSerial serial));
      [done..|].
    pose proof (shortSerial_wide serial Hwide). lia.
  - split_and!; reflexivity.
Qed.

(** * The type of a problem document *)

(** C8.  The type [sendError] gives a problem document is that of
    [problemTypeOfCode]: unauthorized for Forbidden, malformed for
    Conflict, Method Not Allowed, Not Found and Bad Request, server
    internal for Internal Server Error, and none for every other status.
    The statuses [statusCodeFromError] gives the errors
    [core.NotSupportedError] and [core.SignatureValidationError] get no
    type: before an authority that does not support registrations,
    [NewRegistration] answers 501 with a document that has no type. *)
Theorem sendError_unclassified_status :
  (forall NS (H : NonceService NS) wfe details code (s : @state NS) doc,
     Marshal_problem (lib wfe) (problem.mk (problemTypeOfCode code) details) =
       Ok doc ->
     ResponseWriter.Body (response (sendError wfe details code s).2) =
       ResponseWriter.Body (response s) ++ doc) /\
  problemTypeOfCode StatusForbidden = UnauthorizedProblem /\
  (forall code,
     code ∈ [StatusConflict; StatusMethodNotAllowed; StatusNotFound;
             StatusBadRequest] ->
     problemTypeOfCode code = MalformedProblem) /\
  problemTypeOfCode StatusInternalServerError = ServerInternalProblem /\
  (forall code,
     code ∉ [StatusForbidden; StatusConflict; StatusMethodNotAllowed;
             StatusNotFound; StatusBadRequest; StatusInternalServerError] ->
     problemTypeOfCode code = "") /\
  (forall msg,
     statusCodeFromError (NotSupportedError msg) = StatusNotImplemented /\
     problemTypeOfCode (statusCodeFromError (NotSupportedError msg)) = "" /\
     statusCodeFromError (SignatureValidationError msg) =
       StatusPreconditionFailed /\
     problemTypeOfCode (statusCodeFromError (SignatureValidationError msg)) = "") /\
  ResponseWriter.Code
    (response (serve (NewRegistration Example.wfeUnsupported
                        Example.malloryRegisters) Example.nonces).2) =
    Some StatusNotImplemented /\
  ResponseWriter.Body
    (response (serve (NewRegistration Example.wfeUnsupported
                        Example.malloryRegisters) Example.nonces).2) =
    Example.Marshal_problem_doc "" "Error creating new registration".
Proof.
  split_and!; try reflexivity.
  - intros NS H wfe details code s doc. apply sendError_Body.
  - intros code Hin. repeat (apply elem_of_cons in Hin as [->|Hin]; [reflexivity|]).
    by apply elem_of_nil in Hin.
  - intros code Hnot. unfold problemTypeOfCode.
    repeat match goal with
           | |- context [(code =? ?c)%Z] =>
             destruct (Z.eqb_spec code c) as [Heq|_];
               [exfalso; apply Hnot; rewrite Heq; set_solver|]
           end.
    reflexivity.
  - intros msg. split_and!; reflexivity.
Qed.

(** * Further properties of the handlers *)

Section CoverageFacts.

Context {NS : Type} `{NonceService NS}.
Variable wfe : WebFrontEndImpl.

Ltac run_handler :=
  unfold mbind, mret, handler_bind, handler_ret, hbind, hret, panic,
    nonceValid, nonceNonce, callRA, Audit, StatsInc, withResponse in *.

Ltac unfold_effects :=
  unfold serve, afterHeaders, sendVerifyError, sendChallenge, sendAllow,
    sendStandardHeaders, HeaderSet, HeaderAdd, WriteHeader, Write in *;
  run_handler.

Lemma sendError_stats details code (s : @state NS) :
  stats (sendError wfe details code s).2 = stats s.
Proof.
  unfold sendError, HeaderSet, WriteHeader, Write. run_handler.
  repeat case_match; simplify_eq; reflexivity.
Qed.

Lemma sendError_Header details code (s : @state NS) :
  ResponseWriter.Header (response (sendError wfe details code s).2) =
  <["Content-Type" := ["application/problem+json"]]>
    (ResponseWriter.Header (response s)).
Proof.
  unfold sendError, HeaderSet, WriteHeader, Write. run_handler.
  repeat case_match; simplify_eq; reflexivity.
Qed.

(** Only Internal Server Error has the server-internal type. *)
Lemma problemTypeOfCode_internal code :
  (problemTypeOfCode code =? ServerInternalProblem)%string =
  (code =? StatusInternalServerError)%Z.
Proof.
  unfold problemTypeOfCode.
  destruct (Z.eqb_spec code StatusForbidden) as [->|_]; [reflexivity|].
  destruct (Z.eqb_spec code StatusConflict) as [->|_]; [reflexivity|].
  destruct (Z.eqb_spec code StatusMethodNotAllowed) as [->|_]; [reflexivity|].
  destruct (Z.eqb_spec code StatusNotFound) as [->|_]; [reflexivity|].
  destruct (Z.eqb_spec code StatusBadRequest) as [->|_]; [reflexivity|].
  destruct (code =? StatusInternalServerError)%Z; reflexivity.
Qed.

(** The audit lines of [sendError]: one when the problem cannot be
    marshalled, and one when the status is Internal Server Error. *)
Lemma sendError_audit details code (s : @state NS) :
  audit (sendError wfe details code s).2 =
  (audit s ++
   match Marshal_problem (lib wfe) (problem.mk (problemTypeOfCode code) details) with
   | Ok _ => []
   | Err _ => ["Could not marshal error message"]
   end ++
   (if (code =? StatusInternalServerError)%Z
    then [("Internal error - " ++ details)%string] else []))%list.
Proof.
  unfold sendError, HeaderSet, WriteHeader, Write. run_handler.
  cbn [problem.Type_]. rewrite problemTypeOfCode_internal.
  destruct (Marshal_problem _ _); destruct (code =? StatusInternalServerError)%Z;
    simpl; rewrite ?app_nil_r, <- ?app_assoc; reflexivity.
Qed.

(** What [verifyPOST] left of the state it was called in. *)
Ltac verify_facts :=
  match goal with
  | Hv : verifyPOST ?w ?r ?b ?s = (_, ?s') |- _ =>
    let Hs := fresh "Hs" in
    let Hresponse := fresh "Hresponse" in
    let Hcalls := fresh "Hcalls" in
    let Haudit := fresh "Haudit" in
    let Hstats := fresh "Hstats" in
    pose proof (verifyPOST_state w r b s) as Hs;
    rewrite Hv in Hs; simpl in Hs;
    destruct Hs as (Hresponse & Hcalls & Haudit & Hstats & _);
    rewrite ?Hresponse, ?Hcalls, ?Haudit, ?Hstats
  end.

Ltac leaf :=
  simpl;
  rewrite ?sendError_result, ?sendError_calls, ?sendError_Code,
    ?sendError_nonceService, ?sendError_stats, ?sendError_Header;
  simpl;
  try verify_facts;
  simpl in *.

(** ** Methods *)

(** X1.  The handlers that take a POST only answer every other method
    with 405 and [Allow: POST]; they verify nothing, so the nonce service
    has only issued the nonce of the response, and they make no call and
    count nothing. *)
Theorem POST_only request ns h :
  Request.Method request <> "POST" ->
  h ∈ [NewRegistration wfe; NewAuthorization wfe; RevokeCertificate wfe;
       NewCertificate wfe; Registration wfe] ->
  (serve (h request) ns).1 = Returned tt /\
  ResponseWriter.Code (response (serve (h request) ns).2) =
    Some StatusMethodNotAllowed /\
  ResponseWriter.Header (response (serve (h request) ns).2) !! "Allow" =
    Some ["POST"] /\
  nonceService (serve (h request) ns).2 = (Nonce ns).2 /\
  calls (serve (h request) ns).2 = [] /\
  stats (serve (h request) ns).2 = [].
Proof.
  intros Hmethod Hh.
  apply String.eqb_neq in Hmethod.
  repeat (apply elem_of_cons in Hh as [->|Hh]);
    [..|by apply elem_of_nil in Hh].
  all: unfold NewRegistration, NewAuthorization, RevokeCertificate,
         NewCertificate, Registration; unfold_effects.
  all: simpl; rewrite Hmethod; simpl.
  all: destruct (Nonce ns) as [n ns1]; leaf.
  all: split_and!; reflexivity.
Qed.

(** X2.  [Authorization], [Certificate] and [challenge] answer a method
    other than GET and POST with 405 and [Allow: GET, POST], and [Terms]
    and [Issuer] a method other than GET with 405 and [Allow: GET]; in
    each case before anything is looked up or verified. *)
Theorem GET_POST_only request ns authz :
  (Request.Method request <> "GET" -> Request.Method request <> "POST" ->
   forall h,
     h ∈ [Authorization wfe; Certificate wfe; challenge wfe authz] ->
     (serve (h request) ns).1 = Returned tt /\
     ResponseWriter.Code (response (serve (h request) ns).2) =
       Some StatusMethodNotAllowed /\
     ResponseWriter.Header (response (serve (h request) ns).2) !! "Allow" =
       Some ["GET, POST"] /\
     nonceService (serve (h request) ns).2 = (Nonce ns).2 /\
     calls (serve (h request) ns).2 = []) /\
  (Request.Method request <> "GET" ->
   forall h,
     h ∈ [Terms wfe; Issuer wfe] ->
     (serve (h request) ns).1 = Returned tt /\
     ResponseWriter.Code (response (serve (h request) ns).2) =
       Some StatusMethodNotAllowed /\
     ResponseWriter.Header (response (serve (h request) ns).2) !! "Allow" =
       Some ["GET"] /\
     nonceService (serve (h request) ns).2 = (Nonce ns).2 /\
     calls (serve (h request) ns).2 = []).
Proof.
  split.
  - intros Hget Hpost h Hh.
    apply String.eqb_neq in Hget, Hpost.
    repeat (apply elem_of_cons in Hh as [->|Hh]);
      [..|by apply elem_of_nil in Hh].
    all: unfold Authorization, Certificate, challenge; unfold_effects.
    all: simpl; rewrite Hget, Hpost; simpl.
    all: destruct (Nonce ns) as [n ns1]; leaf.
    all: split_and!; reflexivity.
  - intros Hget h Hh.
    apply String.eqb_neq in Hget.
    repeat (apply elem_of_cons in Hh as [->|Hh]);
      [..|by apply elem_of_nil in Hh].
    all: unfold Terms, Issuer; unfold_effects.
    all: simpl; rewrite Hget; simpl.
    all: destruct (Nonce ns) as [n ns1]; leaf.
    all: split_and!; reflexivity.
Qed.

(** X3.  A POST is not served everywhere it is allowed: to an
    authorization that exists, with no query string, it is answered 405
    with [Allow: GET, POST], and to a certificate it is answered 404; in
    both cases the envelope is not verified and its nonce not used. *)
Theorem POST_unsupported request ns :
  Request.Method request = "POST" ->
  (forall authz,
     GetAuthorization (SA wfe)
       (parseIDFromPath (URL.Path (Request.URL_ request))) = Ok authz ->
     URL.RawQuery (Request.URL_ request) = "" ->
     ResponseWriter.Code (response (serve (Authorization wfe request) ns).2) =
       Some StatusMethodNotAllowed /\
     ResponseWriter.Header (response (serve (Authorization wfe request) ns).2)
       !! "Allow" = Some ["GET, POST"] /\
     nonceService (serve (Authorization wfe request) ns).2 = (Nonce ns).2 /\
     calls (serve (Authorization wfe request) ns).2 = []) /\
  (ResponseWriter.Code (response (serve (Certificate wfe request) ns).2) =
     Some StatusNotFound /\
   nonceService (serve (Certificate wfe request) ns).2 = (Nonce ns).2 /\
   calls (serve (Certificate wfe request) ns).2 = []).
Proof.
  intros Hmethod. split.
  - intros authz Hauthz Hquery.
    unfold Authorization. unfold_effects.
    simpl. rewrite Hmethod, Hauthz, Hquery. simpl.
    destruct (Nonce ns) as [n ns1]. leaf. split_and!; reflexivity.
  - unfold Certificate. unfold_effects.
    simpl. rewrite Hmethod. simpl.
    destruct (Nonce ns) as [n ns1]. leaf. split_and!; reflexivity.
Qed.

(** ** Reading an authorization *)

(** X4.  [Authorization] answers 404 for an id storage does not know,
    whatever the query.  A GET of a known authorization with no query
    string needs no envelope: the answer is 200 with the authorization
    marshalled after its id and its account id were blanked, and a link
    to the new-certificate resource; nothing is verified or called. *)
Theorem Authorization_read request ns :
  (Request.Method request = "GET" \/ Request.Method request = "POST" ->
   forall err,
     GetAuthorization (SA wfe)
       (parseIDFromPath (URL.Path (Request.URL_ request))) = Err err ->
     ResponseWriter.Code (response (serve (Authorization wfe request) ns).2) =
       Some StatusNotFound /\
     nonceService (serve (Authorization wfe request) ns).2 = (Nonce ns).2 /\
     calls (serve (Authorization wfe request) ns).2 = []) /\
  (Request.Method request = "GET" ->
   forall authz jsonReply,
     GetAuthorization (SA wfe)
       (parseIDFromPath (URL.Path (Request.URL_ request))) = Ok authz ->
     URL.RawQuery (Request.URL_ request) = "" ->
     Marshal_Authorization (lib wfe)
       (Authorization.mk "" (Authorization.Identifier authz) 0
          (Authorization.Status authz) (Authorization.Challenges authz)) =
       Ok jsonReply ->
     ResponseWriter.Code (response (serve (Authorization wfe request) ns).2) =
       Some StatusOK /\
     ResponseWriter.Body (response (serve (Authorization wfe request) ns).2) =
       jsonReply /\
     ResponseWriter.Header (response (serve (Authorization wfe request) ns).2)
       !! "Link" = Some [link (NewCert wfe) "next"] /\
     nonceService (serve (Authorization wfe request) ns).2 = (Nonce ns).2 /\
     calls (serve (Authorization wfe request) ns).2 = []).
Proof.
  split.
  - intros Hmethod err Hauthz.
    unfold Authorization. unfold_effects. simpl. rewrite Hauthz.
    destruct (Nonce ns) as [n ns1].
    destruct Hmethod as [-> | ->]; leaf; split_and!; reflexivity.
  - intros Hmethod authz jsonReply Hauthz Hquery Hjson.
    unfold Authorization. unfold_effects.
    simpl. rewrite Hmethod, Hauthz, Hquery. simpl. rewrite Hjson.
    destruct (Nonce ns) as [n ns1]. leaf. split_and!; reflexivity.
Qed.

(** ** Calls to the Registration Authority *)

(** X5.  No request reaches the Registration Authority unverified: a
    handler that makes a call was given a POST whose envelope
    [verifyPOST] accepted (with a registration required by all but
    [NewRegistration] and [RevokeCertificate]), and it makes that one
    call only.  [Certificate], [Terms] and [Issuer] never call, and never
    use a nonce. *)
Theorem calls_need_verification request ns authz :
  (forall h regCheck,
     (h, regCheck) ∈
       [(NewRegistration wfe, false); (NewAuthorization wfe, true);
        (RevokeCertificate wfe, false); (NewCertificate wfe, true);
        (Registration wfe, true); (challenge wfe authz, true)] ->
     calls (serve (h request) ns).2 <> [] ->
     Request.Method request = "POST" /\
     exists c v s1,
       calls (serve (h request) ns).2 = [c] /\
       verifyPOST wfe request regCheck (afterHeaders ns) =
         (Returned (Ok v), s1)) /\
  (forall h,
     h ∈ [Certificate wfe; Terms wfe; Issuer wfe] ->
     calls (serve (h request) ns).2 = [] /\
     nonceService (serve (h request) ns).2 = (Nonce ns).2).
Proof.
  split.
  - intros h regCheck Hh.
    repeat (apply elem_of_cons in Hh as [Hh|Hh]; [simplify_eq|]);
      [..|by apply elem_of_nil in Hh].
    all: match goal with
         | |- calls (serve ?x ?m).2 <> [] -> _ =>
           remember (serve x m) as r eqn:Hr
         end.
    all: unfold NewRegistration, NewAuthorization, RevokeCertificate,
           NewCertificate, Registration, challenge in Hr; unfold_effects.
    all: simpl in Hr; simpl.
    all: destruct (Nonce ns) as [n ns1]; simpl in Hr; simpl.
    all: intros Hmade.
    all: repeat case_match; simplify_eq; revert Hmade; leaf.
    all: try (intros Hmade; exfalso; apply Hmade; reflexivity).
    all: intros _.
    all: repeat match goal with
         | Hm : negb _ = false |- _ => apply negb_false_iff in Hm
         end.
    all: split;
      [ match goal with
        | Hm : (Request.Method _ =? "POST") = true |- _ =>
          by apply String.eqb_eq in Hm
        end
      | eexists _, _, _; split; [reflexivity|first [reflexivity|eassumption]] ].
  - intros h Hh.
    repeat (apply elem_of_cons in Hh as [->|Hh]);
      [..|by apply elem_of_nil in Hh].
    all: match goal with
         | |- calls (serve ?x ?m).2 = [] /\ _ =>
           remember (serve x m) as r eqn:Hr
         end.
    all: unfold Certificate, Terms, Issuer in Hr; unfold_effects.
    all: simpl in Hr; destruct (Nonce ns) as [n ns1]; simpl in Hr.
    all: repeat case_match; simplify_eq; leaf; split; reflexivity.
Qed.

(** Start of a proof about [serve (h request) ns]: the run is named,
    unfolded in its equation, and the nonce of the response issued. *)
Ltac start_run :=
  match goal with
  | |- context [serve ?x ?m] =>
    let r := fresh "r" in
    let Hr := fresh "Hr" in
    remember (serve x m) as r eqn:Hr;
    unfold NewRegistration, NewAuthorization, RevokeCertificate,
      NewCertificate, Registration, Authorization, Certificate, challenge,
      Terms, Issuer, BuildID in Hr;
    unfold_effects; simpl in Hr; simpl;
    let n := fresh "n" in
    let ns1 := fresh "ns1" in
    destruct (Nonce m) as [n ns1]; simpl in Hr; simpl
  end.

Ltac no_call :=
  let Hin := fresh "Hin" in
  intros Hin; by apply elem_of_nil in Hin.

(** ** New accounts *)

(** X6.  [NewRegistration] answers Conflict, without a call, when the key
    that signed the request has a registration already.  The registration
    it asks the Registration Authority to create carries the key that
    signed the request, a key with no registration, whatever key the
    payload names. *)
Theorem NewRegistration_key request ns :
  (forall payload k reg s1 found,
     Request.Method request = "POST" ->
     verifyPOST wfe request false (afterHeaders ns) =
       (Returned (Ok (payload, k, reg)), s1) ->
     GetRegistrationByKey (SA wfe) k = Ok found ->
     ResponseWriter.Code (response (serve (NewRegistration wfe request) ns).2) =
       Some StatusConflict /\
     calls (serve (NewRegistration wfe request) ns).2 = []) /\
  (forall init,
     NewRegistrationCall init ∈
       calls (serve (NewRegistration wfe request) ns).2 ->
     exists payload reg s1 asked err,
       verifyPOST wfe request false (afterHeaders ns) =
         (Returned (Ok (payload, Registration.Key init, reg)), s1) /\
       GetRegistrationByKey (SA wfe) (Registration.Key init) = Err err /\
       Unmarshal_Registration (lib wfe) payload = Ok asked /\
       init = Registration.mk (Registration.ID asked) (Registration.Key init)
                (Registration.Contact asked) (Registration.Agreement asked)).
Proof.
  split.
  - intros payload k reg s1 found Hmethod Hv Hfound.
    unfold NewRegistration. unfold_effects.
    rewrite Hmethod. simpl. simpl in Hv.
    destruct (Nonce ns) as [n ns1]. simpl in *. rewrite Hv, Hfound. by leaf.
  - intros init. start_run.
    intros Hin.
    repeat case_match; simplify_eq; revert Hin; leaf; try no_call.
    all: intros Hin; apply list_elem_of_singleton in Hin; simplify_eq; simpl.
    all: eexists _, _, _, _, _; split_and!; eauto.
Qed.

(** X7.  When [NewRegistration] answers 201, the Registration Authority
    was asked once and returned the registration that is the body; the
    [Location] is [RegBase] followed by the id of that registration in
    decimal, the links are the new-authorization resource and, when one
    is configured, the subscriber agreement; the registration is
    counted. *)
Theorem NewRegistration_created request ns :
  ResponseWriter.Code (response (serve (NewRegistration wfe request) ns).2) =
    Some StatusCreated ->
  exists init reg responseBody,
    calls (serve (NewRegistration wfe request) ns).2 =
      [NewRegistrationCall init] /\
    RA_NewRegistration (RA wfe) init = Ok reg /\
    Marshal_Registration (lib wfe) reg = Ok responseBody /\
    ResponseWriter.Body (response (serve (NewRegistration wfe request) ns).2) =
      responseBody /\
    ResponseWriter.Header (response (serve (NewRegistration wfe request) ns).2)
      !! "Location" = Some [RegBase wfe ++ pretty (Registration.ID reg)] /\
    ResponseWriter.Header (response (serve (NewRegistration wfe request) ns).2)
      !! "Link" =
      Some (link (NewAuthz wfe) "next" ::
            if (String.length (SubscriberAgreementURL wfe) =? 0)%nat then []
            else [link (SubscriberAgreementURL wfe) "terms-of-service"]) /\
    stats (serve (NewRegistration wfe request) ns).2 = ["Registrations"].
Proof.
  start_run.
  intros Hcode.
  repeat case_match; simplify_eq; revert Hcode.
  all: try (leaf; discriminate).
  all: try (leaf; intros [=Hcode];
            match goal with e : error |- _ => destruct e; discriminate end).
  all: intros _; cbn [snd response calls stats]; verify_facts.
  all: repeat match goal with
       | Hl : negb _ = _ |- _ =>
         first [apply negb_true_iff in Hl | apply negb_false_iff in Hl];
         rewrite Hl
       end.
  all: eexists _, _, _; split_and!; eauto.
Qed.

(** ** The subscriber agreement *)

(** X8.  [NewAuthorization] and [NewCertificate] answer a verified POST
    of an account that has agreed to nothing with Forbidden, and make no
    call.  The account id they hand to the Registration Authority is the
    id of the registration stored for the key that signed the request,
    and that registration has an agreement. *)
Theorem agreement_required request ns :
  (forall h payload k currReg s1,
     h ∈ [NewAuthorization wfe; NewCertificate wfe] ->
     Request.Method request = "POST" ->
     verifyPOST wfe request true (afterHeaders ns) =
       (Returned (Ok (payload, k, currReg)), s1) ->
     Registration.Agreement currReg = "" ->
     ResponseWriter.Code (response (serve (h request) ns).2) =
       Some StatusForbidden /\
     calls (serve (h request) ns).2 = []) /\
  (forall init regID,
     NewAuthorizationCall init regID ∈
       calls (serve (NewAuthorization wfe request) ns).2 ->
     exists payload k currReg s1,
       verifyPOST wfe request true (afterHeaders ns) =
         (Returned (Ok (payload, k, currReg)), s1) /\
       GetRegistrationByKey (SA wfe) k = Ok currReg /\
       regID = Registration.ID currReg /\
       Registration.Agreement currReg <> "" /\
       Unmarshal_Authorization (lib wfe) payload = Ok init) /\
  (forall init regID,
     NewCertificateCall init regID ∈
       calls (serve (NewCertificate wfe request) ns).2 ->
     exists payload k currReg s1,
       verifyPOST wfe request true (afterHeaders ns) =
         (Returned (Ok (payload, k, currReg)), s1) /\
       GetRegistrationByKey (SA wfe) k = Ok currReg /\
       regID = Registration.ID currReg /\
       Registration.Agreement currReg <> "" /\
       Unmarshal_CertificateRequest (lib wfe) payload = Ok init).
Proof.
  split_and!.
  - intros h payload k currReg s1 Hh Hmethod Hv Hagreement.
    repeat (apply elem_of_cons in Hh as [->|Hh]);
      [..|by apply elem_of_nil in Hh].
    all: unfold NewAuthorization, NewCertificate; unfold_effects.
    all: rewrite Hmethod; simpl; simpl in Hv.
    all: destruct (Nonce ns) as [n ns1]; simpl in *; rewrite Hv, Hagreement.
    all: by leaf.
  - intros init regID. start_run.
    intros Hin.
    repeat case_match; simplify_eq; revert Hin; leaf; try no_call.
    all: intros Hin; apply list_elem_of_singleton in Hin; simplify_eq; simpl.
    all: match goal with
         | Hv : verifyPOST _ _ _ _ = _ |- _ =>
           pose proof (verifyPOST_Ok_inv _ _ _ _ _ _ _ _ Hv)
             as (? & ? & ? & ? & _ & _ & _ & _ & _ & _ & _ & _ & _ & _ & _ & Hreg)
         end.
    all: destruct Hreg as [Hreg|[? _]]; [|discriminate].
    all: match goal with
         | Ha : (_ =? "")%string = false |- _ => apply String.eqb_neq in Ha
         end.
    all: eexists _, _, _, _; split_and!; eauto.
  - intros init regID. start_run.
    intros Hin.
    repeat case_match; simplify_eq; revert Hin; leaf; try no_call.
    all: intros Hin; apply list_elem_of_singleton in Hin; simplify_eq; simpl.
    all: match goal with
         | Hv : verifyPOST _ _ _ _ = _ |- _ =>
           pose proof (verifyPOST_Ok_inv _ _ _ _ _ _ _ _ Hv)
             as (? & ? & ? & ? & _ & _ & _ & _ & _ & _ & _ & _ & _ & _ & _ & Hreg)
         end.
    all: destruct Hreg as [Hreg|[? _]]; [|discriminate].
    all: match goal with
         | Ha : (_ =? "")%string = false |- _ => apply String.eqb_neq in Ha
         end.
    all: eexists _, _, _, _; split_and!; eauto.
Qed.

Ltac not_this_status :=
  let Hcode := fresh "Hcode" in
  leaf;
  first
    [ discriminate
    | intros [=Hcode];
      match goal with e : error |- _ => destruct e; discriminate end ].

(** X9.  The Registration Authority is never asked to record an
    agreement other than the current one: the registration
    [NewRegistration] sends and the update [Registration] sends have an
    agreement that is empty or is the subscriber agreement URL of the
    front end. *)
Theorem agreement_is_current request ns :
  (forall init,
     NewRegistrationCall init ∈
       calls (serve (NewRegistration wfe request) ns).2 ->
     Registration.Agreement init = "" \/
     Registration.Agreement init = SubscriberAgreementURL wfe) /\
  (forall base update,
     UpdateRegistrationCall base update ∈
       calls (serve (Registration wfe request) ns).2 ->
     Registration.Agreement update = "" \/
     Registration.Agreement update = SubscriberAgreementURL wfe).
Proof.
  split.
  - intros init. start_run. intros Hin.
    repeat case_match; simplify_eq; revert Hin; leaf; try no_call.
    all: intros Hin; apply list_elem_of_singleton in Hin; simplify_eq; simpl.
    all: match goal with
         | Ha : negb _ && negb _ = false |- _ =>
           apply andb_false_iff in Ha
             as [Ha%negb_false_iff%Nat.eqb_eq|Ha%negb_false_iff%String.eqb_eq]
         end.
    all: first [by right | left].
    all: match goal with
         | Ha : String.length ?a = 0%nat |- _ => by destruct a
         end.
  - intros base update. start_run. intros Hin.
    repeat case_match; simplify_eq; revert Hin; leaf; try no_call.
    all: intros Hin; apply list_elem_of_singleton in Hin; simplify_eq; simpl.
    all: match goal with
         | Ha : negb _ && negb _ = false |- _ =>
           apply andb_false_iff in Ha
             as [Ha%negb_false_iff%Nat.eqb_eq|Ha%negb_false_iff%String.eqb_eq]
         end.
    all: first [by right | left].
    all: match goal with
         | Ha : String.length ?a = 0%nat |- _ => by destruct a
         end.
Qed.

(** ** New authorizations *)

(** X10.  When [NewAuthorization] answers 201, the Registration Authority
    was asked once; the body is the authorization it returned with the id
    and the account id blanked, the [Location] is [AuthzBase] followed by
    the id it returned, the link is the new-certificate resource, and the
    authorization is counted. *)
Theorem NewAuthorization_created request ns :
  ResponseWriter.Code (response (serve (NewAuthorization wfe request) ns).2) =
    Some StatusCreated ->
  exists init regID authz responseBody,
    calls (serve (NewAuthorization wfe request) ns).2 =
      [NewAuthorizationCall init regID] /\
    RA_NewAuthorization (RA wfe) init regID = Ok authz /\
    Marshal_Authorization (lib wfe)
      (Authorization.mk "" (Authorization.Identifier authz) 0
         (Authorization.Status authz) (Authorization.Challenges authz)) =
      Ok responseBody /\
    ResponseWriter.Body (response (serve (NewAuthorization wfe request) ns).2) =
      responseBody /\
    ResponseWriter.Header (response (serve (NewAuthorization wfe request) ns).2)
      !! "Location" = Some [AuthzBase wfe ++ Authorization.ID authz] /\
    ResponseWriter.Header (response (serve (NewAuthorization wfe request) ns).2)
      !! "Link" = Some [link (NewCert wfe) "next"] /\
    stats (serve (NewAuthorization wfe request) ns).2 =
      ["PendingAuthorizations"].
Proof.
  start_run. intros Hcode.
  repeat case_match; simplify_eq; revert Hcode.
  all: try not_this_status.
  all: intros _; cbn [snd response calls stats]; verify_facts.
  all: eexists _, _, _, _; split_and!; eauto.
Qed.

(** ** Failed verification *)

(** X11.  A POST that [verifyPOST] refuses is answered by the handlers
    that require a registration with Forbidden when the error is
    [sql.ErrNoRows] and with Bad Request otherwise, and by
    [NewRegistration] and [RevokeCertificate] with Bad Request; no call is
    made, and the nonce service stays as [verifyPOST] left it, so a nonce
    used by a refused request is not given back. *)
Theorem verification_failure request ns err s1 :
  Request.Method request = "POST" ->
  (forall h,
     h ∈ [NewAuthorization wfe; NewCertificate wfe; Registration wfe] ->
     verifyPOST wfe request true (afterHeaders ns) = (Returned (Err err), s1) ->
     ResponseWriter.Code (response (serve (h request) ns).2) =
       Some (if decide (err = ErrNoRows) then StatusForbidden
             else StatusBadRequest) /\
     calls (serve (h request) ns).2 = [] /\
     nonceService (serve (h request) ns).2 = nonceService s1) /\
  (forall h,
     h ∈ [NewRegistration wfe; RevokeCertificate wfe] ->
     verifyPOST wfe request false (afterHeaders ns) = (Returned (Err err), s1) ->
     ResponseWriter.Code (response (serve (h request) ns).2) =
       Some StatusBadRequest /\
     calls (serve (h request) ns).2 = [] /\
     nonceService (serve (h request) ns).2 = nonceService s1).
Proof.
  intros Hmethod. split.
  - intros h Hh Hv.
    repeat (apply elem_of_cons in Hh as [->|Hh]);
      [..|by apply elem_of_nil in Hh].
    all: unfold NewAuthorization, NewCertificate, Registration; unfold_effects.
    all: rewrite Hmethod; simpl; simpl in Hv.
    all: destruct (Nonce ns) as [n ns1]; simpl in *; rewrite Hv.
    all: destruct err; leaf; split_and!; reflexivity.
  - intros h Hh Hv.
    repeat (apply elem_of_cons in Hh as [->|Hh]);
      [..|by apply elem_of_nil in Hh].
    all: unfold NewRegistration, RevokeCertificate; unfold_effects.
    all: rewrite Hmethod; simpl; simpl in Hv.
    all: destruct (Nonce ns) as [n ns1]; simpl in *; rewrite Hv.
    all: leaf; split_and!; reflexivity.
Qed.

(** ** Revocation, continued *)

(** X12.  [RevokeCertificate] answers Not Found, without a call, when the
    certificate stored under the serial number of the one submitted is not
    the one submitted, byte for byte.  It sends a revocation only for a
    certificate whose status is available and is not revoked.  When it
    answers 200 the Registration Authority took the one revocation sent
    without an error, the body is empty and the revocation is counted. *)
Theorem RevokeCertificate_outcome request ns :
  (forall payload requestKey registration s1 der provided cert,
     Request.Method request = "POST" ->
     verifyPOST wfe request false (afterHeaders ns) =
       (Returned (Ok (payload, requestKey, registration)), s1) ->
     Unmarshal_RevokeRequest (lib wfe) payload = Ok der ->
     ParseCertificate (lib wfe) der = Ok provided ->
     GetCertificate (SA wfe)
       (SerialToString (lib wfe) (X509.SerialNumber provided)) = Ok cert ->
     Certificate.DER cert <> der ->
     ResponseWriter.Code (response (serve (RevokeCertificate wfe request) ns).2) =
       Some StatusNotFound /\
     calls (serve (RevokeCertificate wfe request) ns).2 = []) /\
  (forall parsed,
     RevokeCertificateCall parsed ∈
       calls (serve (RevokeCertificate wfe request) ns).2 ->
     exists serial cert certStatus,
       GetCertificate (SA wfe) serial = Ok cert /\
       ParseCertificate (lib wfe) (Certificate.DER cert) = Ok parsed /\
       GetCertificateStatus (SA wfe) serial = Ok certStatus /\
       CertificateStatus.Status certStatus <> OCSPStatusRevoked) /\
  (ResponseWriter.Code (response (serve (RevokeCertificate wfe request) ns).2) =
     Some StatusOK ->
   exists parsed,
     calls (serve (RevokeCertificate wfe request) ns).2 =
       [RevokeCertificateCall parsed] /\
     RA_RevokeCertificate (RA wfe) parsed = None /\
     ResponseWriter.Body (response (serve (RevokeCertificate wfe request) ns).2) =
       "" /\
     stats (serve (RevokeCertificate wfe request) ns).2 =
       ["RevokedCertificates"]).
Proof.
  split_and!.
  - intros payload requestKey registration s1 der provided cert
      Hmethod Hv Hunmarshal Hprovided Hcert Hder.
    unfold RevokeCertificate. unfold_effects.
    rewrite Hmethod. simpl. simpl in Hv.
    destruct (Nonce ns) as [n ns1]. simpl in *. rewrite Hv.
    rewrite Hunmarshal. simpl. rewrite Hprovided. simpl. rewrite Hcert. simpl.
    rewrite (proj2 (String.eqb_neq _ _)) by done. by leaf.
  - intros parsed. start_run. intros Hin.
    repeat case_match; simplify_eq; revert Hin; leaf; try no_call.
    all: intros Hin; apply list_elem_of_singleton in Hin; simplify_eq.
    all: match goal with
         | Hs : (_ =? OCSPStatusRevoked)%string = false |- _ =>
           apply String.eqb_neq in Hs
         end.
    all: eexists _, _, _; split_and!; eauto.
  - start_run. intros Hcode.
    repeat case_match; simplify_eq; revert Hcode.
    all: try not_this_status.
    all: intros _; cbn [snd response calls stats]; verify_facts.
    all: eexists; split_and!; eauto.
Qed.

(** ** Account update, continued *)

(** X13.  When [Registration] answers 202, the Registration Authority
    was asked once, to update the registration stored for the signer, and
    the body is the registration it returned. *)
Theorem Registration_accepted request ns :
  ResponseWriter.Code (response (serve (Registration wfe request) ns).2) =
    Some StatusAccepted ->
  exists currReg update updatedReg jsonReply,
    calls (serve (Registration wfe request) ns).2 =
      [UpdateRegistrationCall currReg update] /\
    RA_UpdateRegistration (RA wfe) currReg update = Ok updatedReg /\
    Marshal_Registration (lib wfe) updatedReg = Ok jsonReply /\
    ResponseWriter.Body (response (serve (Registration wfe request) ns).2) =
      jsonReply /\
    ResponseWriter.Header (response (serve (Registration wfe request) ns).2)
      !! "Content-Type" = Some ["application/json"].
Proof.
  start_run. intros Hcode.
  repeat case_match; simplify_eq; revert Hcode.
  all: try not_this_status.
  all: intros _; cbn [snd response calls stats]; verify_facts.
  all: eexists _, _, _, _; split_and!; eauto.
Qed.

(** ** The audit log *)

(** X14.  When problem documents marshal, a handler writes to the audit
    log only with an answer of Internal Server Error, and then one line:
    no other answer, so no request a client can have refused, leaves a
    line. *)
Theorem audit_only_internal request ns authz build h :
  (forall p, exists doc, Marshal_problem (lib wfe) p = Ok doc) ->
  h ∈ [NewRegistration wfe; NewAuthorization wfe; RevokeCertificate wfe;
       NewCertificate wfe; Registration wfe; Authorization wfe;
       Certificate wfe; challenge wfe authz; Terms wfe; Issuer wfe;
       BuildID wfe build] ->
  audit (serve (h request) ns).2 = [] \/
  ResponseWriter.Code (response (serve (h request) ns).2) =
    Some StatusInternalServerError /\
  exists details,
    audit (serve (h request) ns).2 = ["Internal error - " ++ details].
Proof.
  intros Hmarshal Hh.
  repeat (apply elem_of_cons in Hh as [->|Hh]);
    [..|by apply elem_of_nil in Hh].
  all: start_run.
  all: repeat case_match; simplify_eq.
  all: try match goal with
       | |- context [statusCodeFromError ?e] => destruct e
       end.
  all: simpl; rewrite ?sendError_audit, ?sendError_Code; simpl.
  all: try verify_facts; simpl.
  all: repeat match goal with
       | |- context [Marshal_problem (lib wfe) ?p] =>
         let doc := fresh "doc" in
         let Hdoc := fresh "Hdoc" in
         destruct (Hmarshal p) as [doc Hdoc]; rewrite Hdoc
       end.
  all: simpl.
  all: first [by left | right; split; [reflexivity|eexists; reflexivity]].
Qed.

(** ** Standard headers *)

(** X15.  Whatever [NewRegistration], [NewAuthorization],
    [RevokeCertificate], [NewCertificate], [Registration], [Certificate],
    [Terms], [Issuer] or [BuildID] answers, and also when it panics, the
    response carries the nonce the nonce service issued at the start of
    the request as its only [Replay-Nonce], and the header
    [Access-Control-Allow-Origin: *].  A response of [Authorization]
    carries the header and one [Replay-Nonce] too: the second nonce
    issued when the request is handed to [challenge], which sends the
    standard headers again (the method is GET or POST, the authorization
    is stored and the query string is not empty), and the first one
    otherwise. *)
Theorem standard_headers request ns build :
  (forall h,
     h ∈ [NewRegistration wfe; NewAuthorization wfe; RevokeCertificate wfe;
          NewCertificate wfe; Registration wfe; Certificate wfe; Terms wfe;
          Issuer wfe; BuildID wfe build] ->
     ResponseWriter.Header (response (serve (h request) ns).2)
       !! "Replay-Nonce" = Some [(Nonce ns).1] /\
     ResponseWriter.Header (response (serve (h request) ns).2)
       !! "Access-Control-Allow-Origin" = Some ["*"]) /\
  ResponseWriter.Header (response (serve (Authorization wfe request) ns).2)
    !! "Replay-Nonce" =
    Some [if ((Request.Method request =? "GET") ||
              (Request.Method request =? "POST")) &&
             match GetAuthorization (SA wfe)
                     (parseIDFromPath (URL.Path (Request.URL_ request))) with
             | Ok _ => true
             | Err _ => false
             end &&
             negb (String.length (URL.RawQuery (Request.URL_ request)) =? 0)%nat
          then (Nonce (Nonce ns).2).1
          else (Nonce ns).1] /\
  ResponseWriter.Header (response (serve (Authorization wfe request) ns).2)
    !! "Access-Control-Allow-Origin" = Some ["*"].
Proof.
  split.
  - intros h Hh.
    repeat (apply elem_of_cons in Hh as [->|Hh]);
      [..|by apply elem_of_nil in Hh].
    all: start_run.
    all: repeat case_match; simplify_eq.
    all: leaf; split; reflexivity.
  - remember (serve (Authorization wfe request) ns) as r eqn:Hr.
    unfold Authorization, challenge in Hr. unfold_effects.
    simpl in Hr. simpl.
    destruct (Nonce ns) as [n ns1]. simpl in Hr. simpl.
    destruct (Request.Method request =? "GET") eqn:Hget;
      destruct (Request.Method request =? "POST") eqn:Hpost;
      simpl in Hr; simpl.
    4: { subst r. leaf. split; reflexivity. }
    all: destruct (GetAuthorization (SA wfe) _) as [authz|err];
      simpl in Hr; simpl; [|subst r; leaf; split; reflexivity].
    all: destruct (String.length (URL.RawQuery (Request.URL_ request)) =? 0)%nat;
      simpl in Hr; simpl.
    all: try destruct (Nonce ns1) as [n' ns2]; simpl in Hr; simpl.
    all: repeat case_match; simplify_eq; leaf; split; reflexivity.
Qed.

(** X16.  A request to an authorization that exists, with a query
    string, is handed to [challenge] after the standard headers were
    sent, and [challenge] sends them again: the nonce service issues two
    nonces, the response carries the second one only, and a GET leaves
    both outstanding. *)
Theorem Authorization_challenge request ns authz :
  Request.Method request = "GET" \/ Request.Method request = "POST" ->
  GetAuthorization (SA wfe)
    (parseIDFromPath (URL.Path (Request.URL_ request))) = Ok authz ->
  URL.RawQuery (Request.URL_ request) <> "" ->
  serve (Authorization wfe request) ns =
    challenge wfe authz request (afterHeaders ns) /\
  ResponseWriter.Header (response (serve (Authorization wfe request) ns).2)
    !! "Replay-Nonce" = Some [(Nonce (Nonce ns).2).1] /\
  (Request.Method request = "GET" ->
   nonceService (serve (Authorization wfe request) ns).2 =
     (Nonce (Nonce ns).2).2).
Proof.
  intros Hmethod Hauthz Hquery.
  assert (Hlen : (String.length (URL.RawQuery (Request.URL_ request)) =? 0)%nat
                 = false).
  { apply Nat.eqb_neq. by destruct (URL.RawQuery (Request.URL_ request)). }
  assert (Heq : serve (Authorization wfe request) ns =
                challenge wfe authz request (afterHeaders ns)).
  { unfold Authorization, afterHeaders, serve, sendStandardHeaders, sendAllow,
      HeaderSet. run_handler.
    simpl. rewrite Hauthz, Hlen. simpl.
    destruct (Nonce ns) as [n ns1]. simpl.
    by destruct Hmethod as [-> | ->]. }
  split; [done|]. rewrite Heq. clear Heq.
  remember (challenge wfe authz request (afterHeaders ns)) as r eqn:Hr.
  unfold challenge in Hr. unfold_effects. simpl in Hr. simpl.
  destruct (Nonce ns) as [n ns1]. simpl in Hr. simpl.
  destruct (Nonce ns1) as [n' ns2]. simpl in Hr. simpl.
  split.
  - repeat case_match; simplify_eq; leaf; reflexivity.
  - intros Hget. rewrite Hget in Hr. simpl in Hr.
    repeat case_match; simplify_eq; leaf; reflexivity.
Qed.

(** ** The URL of an account *)

Lemma pretty_N_char_digit d :
  (d < 10)%N ->
  Z.of_nat (nat_of_ascii (pretty_N_char d)) = (48 + Z.of_N d)%Z.
Proof.
  intros Hd.
  assert (Hcases : exists k : nat, (k < 10)%nat /\ d = N.of_nat k).
  { exists (N.to_nat d). lia. }
  destruct Hcases as (k & Hk & ->).
  do 10 (destruct k as [|k]; [reflexivity|]). lia.
Qed.

(** One digit more, read by the loop of [strconv.ParseUint]. *)
Lemma ParseUint_loop_digit d s n :
  (d < 10)%N -> (0 <= n)%Z -> (n * 10 + Z.of_N d <= maxUint64)%Z ->
  ParseUint_loop (String (pretty_N_char d) s) n =
  ParseUint_loop s (n * 10 + Z.of_N d).
Proof.
  intros Hd Hn Hmax. cbn [ParseUint_loop]. cbv zeta.
  rewrite pretty_N_char_digit by done.
  replace (48 <=? 48 + Z.of_N d)%Z with true by (symmetry; apply Z.leb_le; lia).
  replace (48 + Z.of_N d <=? 57)%Z with true by (symmetry; apply Z.leb_le; lia).
  cbn [andb].
  replace (n >=? maxUint64 / 10 + 1)%Z with false.
  2:{ symmetry. rewrite Z.geb_leb. apply Z.leb_gt.
      change (maxUint64 / 10 + 1)%Z with 1844674407370955162%Z.
      unfold maxUint64 in Hmax. lia. }
  replace (48 + Z.of_N d - 48)%Z with (Z.of_N d) by lia.
  replace (n * 10 + Z.of_N d >? maxUint64)%Z with false; [done|].
  symmetry. rewrite Z.gtb_ltb. by apply Z.ltb_ge.
Qed.

(** The decimal digits [pretty] writes for a number that fits 64 bits are
    read back as that number. *)
Lemma ParseUint_loop_pretty x :
  (Z.of_N x <= maxUint64)%Z ->
  forall s, ParseUint_loop (pretty_N_go x s) 0 = ParseUint_loop s (Z.of_N x).
Proof.
  induction (N.lt_wf_0 x) as [x _ IH]. intros Hmax s.
  destruct (decide (x = 0)%N) as [->|Hx]; [done|].
  rewrite pretty_N_go_step by lia.
  pose proof (N.mod_lt x 10 ltac:(lia)) as Hmod.
  pose proof (N.div_mod x 10 ltac:(lia)) as Hdiv.
  assert (Hlt : (x `div` 10 < x)%N) by (apply N.div_lt; lia).
  rewrite IH by lia.
  rewrite ParseUint_loop_digit by lia.
  f_equal. lia.
Qed.

(** A string the loop reads to the end is made of digits. *)
Lemma ParseUint_loop_digits s : forall n m,
  ParseUint_loop s n = Ok m ->
  allChars (fun c => negb (Ascii.eqb c slash) && negb (Ascii.eqb c newline) &&
                     negb (Ascii.eqb c (ascii_of_nat 43)) &&
                     negb (Ascii.eqb c (ascii_of_nat 45))) s = true.
Proof.
  induction s as [|c s IH]; intros n m; [done|].
  cbn [ParseUint_loop allChars]. cbv zeta.
  destruct (_ && _)%bool eqn:Hdigit; [|discriminate].
  apply andb_true_iff in Hdigit as [Hlo%Z.leb_le Hhi%Z.leb_le].
  repeat case_match; try discriminate. intros Hrest.
  rewrite (IH _ _ Hrest), andb_true_r.
  assert (Hne : forall k : nat,
            (k < 48)%nat -> Ascii.eqb c (ascii_of_nat k) = false).
  { intros k Hk. apply Ascii.eqb_neq. intros ->.
    rewrite nat_ascii_embedding in Hlo by lia. lia. }
  unfold slash, newline. rewrite !Hne by lia. done.
Qed.

Lemma ParseUint_pretty x :
  (0 < x)%N -> (Z.of_N x <= maxUint64)%Z ->
  ParseUint (pretty_N_go x "") = Ok (Z.of_N x) /\
  exists c rest,
    pretty_N_go x "" = String c rest /\
    Ascii.eqb c (ascii_of_nat 43) = false /\
    Ascii.eqb c (ascii_of_nat 45) = false.
Proof.
  intros Hx Hmax.
  pose proof (ParseUint_loop_pretty x Hmax "") as Hloop.
  cbn [ParseUint_loop] in Hloop.
  pose proof (ParseUint_loop_digits _ _ _ Hloop) as Hdigits.
  destruct (pretty_N_go x "") as [|c rest] eqn:Hs.
  { cbn in Hloop. simplify_eq. lia. }
  split; [done|]. exists c, rest. split; [done|].
  cbn [allChars] in Hdigits.
  apply andb_true_iff in Hdigits as [Hc _].
  apply andb_true_iff in Hc as [Hc Hminus].
  apply andb_true_iff in Hc as [_ Hplus].
  by apply negb_true_iff in Hminus, Hplus.
Qed.

(** [strconv.ParseInt] reads back the decimal rendering of every
    [int64]. *)
Lemma ParseInt_pretty z :
  (- 2 ^ 63 <= z < 2 ^ 63)%Z -> ParseInt (pretty z) = Ok z.
Proof.
  intros Hz. destruct z as [|p|p]; [done|..].
  - destruct (ParseUint_pretty (N.pos p)) as (Hparse & c & rest & Hs & Hplus & Hminus);
      [lia|unfold maxUint64; lia|].
    unfold pretty, pretty_Z, pretty, pretty_positive, pretty, pretty_N.
    rewrite decide_False by done.
    rewrite Hs in *. unfold ParseInt. rewrite Hplus, Hminus, Hparse.
    cbn [negb andb]. change (Z.of_N (N.pos p)) with (Z.pos p).
    rewrite Z.geb_leb, (proj2 (Z.leb_gt _ _)); [done|lia].
  - destruct (ParseUint_pretty (N.pos p)) as (Hparse & _);
      [lia|unfold maxUint64; lia|].
    unfold pretty, pretty_Z, pretty, pretty_positive, pretty, pretty_N.
    rewrite decide_False by done.
    change ("-" +:+ pretty_N_go (N.pos p) "")
      with (String "-" (pretty_N_go (N.pos p) "")).
    unfold ParseInt.
    change (Ascii.eqb "-" (ascii_of_nat 45)) with true.
    change (Ascii.eqb "-" (ascii_of_nat 43)) with false.
    cbv zeta. cbv iota. rewrite Hparse. cbn [negb andb].
    change (Z.of_N (N.pos p)) with (Z.pos p).
    rewrite Z.gtb_ltb, (proj2 (Z.ltb_ge _ _)); [done|lia].
Qed.

Lemma allChars_impl (p q : ascii -> bool) s :
  (forall c, p c = true -> q c = true) ->
  allChars p s = true -> allChars q s = true.
Proof.
  intros Hpq. induction s as [|c s IH]; [done|]. cbn [allChars].
  intros [Hc Hs]%andb_true_iff. by rewrite (Hpq c Hc), IH.
Qed.

Lemma afterLastSlash_no_slash id :
  allChars (fun c => negb (Ascii.eqb c slash)) id = true ->
  afterLastSlash id = None.
Proof.
  induction id as [|c id IH]; [done|]. cbn [allChars afterLastSlash].
  intros [Hc Hid]%andb_true_iff. rewrite (IH Hid).
  apply negb_true_iff in Hc. rewrite Hc. by destruct (Ascii.eqb c newline).
Qed.

(** The id is read back from a path that ends with a slash and the id,
    when no newline stands before that slash and no slash in the id. *)
Lemma parseIDFromPath_join prefix id :
  allChars (fun c => negb (Ascii.eqb c newline)) prefix = true ->
  allChars (fun c => negb (Ascii.eqb c slash)) id = true ->
  parseIDFromPath (prefix ++ String slash id) = id.
Proof.
  intros Hprefix Hid. unfold parseIDFromPath.
  assert (Hlast : afterLastSlash (prefix ++ String slash id) = Some id);
    [|by rewrite Hlast].
  induction prefix as [|c prefix IH].
  - change ("" ++ String slash id) with (String slash id).
    cbn [afterLastSlash]. rewrite (afterLastSlash_no_slash id Hid). done.
  - change (String c prefix ++ String slash id)
      with (String c (prefix ++ String slash id)).
    cbn [allChars] in Hprefix.
    apply andb_true_iff in Hprefix as [Hc%negb_true_iff Hprefix].
    cbn [afterLastSlash]. by rewrite Hc, (IH Hprefix).
Qed.

Lemma pretty_positive_no_slash z :
  (0 < z < 2 ^ 63)%Z ->
  allChars (fun c => negb (Ascii.eqb c slash)) (pretty z) = true.
Proof.
  intros Hz. destruct z as [|p|p]; [lia| |lia].
  unfold pretty, pretty_Z, pretty, pretty_positive, pretty, pretty_N.
  rewrite decide_False by done.
  pose proof (ParseUint_loop_pretty (N.pos p)) as Hloop.
  specialize (Hloop ltac:(unfold maxUint64; lia) "").
  apply ParseUint_loop_digits in Hloop.
  revert Hloop. apply allChars_impl.
  intros c Hc. repeat (apply andb_true_iff in Hc as [Hc _]). done.
Qed.

(** X17.  [Registration] takes the URL [NewRegistration] gives an
    account: for a verified POST to a path that ends with a slash and the
    id, in decimal, of the account of the signer, the id read from the
    path is that id, and the update of the payload is sent, with the key
    of the account, when its agreement is empty or current. *)
Theorem Registration_own_URL request ns payload k currReg s1 prefix update :
  Request.Method request = "POST" ->
  verifyPOST wfe request true (afterHeaders ns) =
    (Returned (Ok (payload, k, currReg)), s1) ->
  (0 < Registration.ID currReg < 2 ^ 63)%Z ->
  allChars (fun c => negb (Ascii.eqb c newline)) prefix = true ->
  URL.Path (Request.URL_ request) =
    prefix ++ String slash (pretty (Registration.ID currReg)) ->
  Unmarshal_Registration (lib wfe) payload = Ok update ->
  Registration.Agreement update = "" \/
  Registration.Agreement update = SubscriberAgreementURL wfe ->
  ParseInt (parseIDFromPath (URL.Path (Request.URL_ request))) =
    Ok (Registration.ID currReg) /\
  calls (serve (Registration wfe request) ns).2 =
    [UpdateRegistrationCall currReg
       (Registration.mk (Registration.ID update) (Registration.Key currReg)
          (Registration.Contact update) (Registration.Agreement update))].
Proof.
  intros Hmethod Hv Hid Hprefix Hpath Hupdate Hagreement.
  assert (Hparse : ParseInt (parseIDFromPath (URL.Path (Request.URL_ request))) =
                   Ok (Registration.ID currReg)).
  { rewrite Hpath, parseIDFromPath_join; [apply ParseInt_pretty; lia|done|].
    by apply pretty_positive_no_slash. }
  split; [done|].
  unfold Registration. unfold_effects.
  rewrite Hmethod. simpl. simpl in Hv.
  destruct (Nonce ns) as [n ns1]. simpl in *. rewrite Hv, Hparse.
  rewrite (proj2 (Z.leb_gt _ _)) by lia. rewrite Z.eqb_refl. simpl.
  rewrite Hupdate.
  assert (Hok : negb (String.length (Registration.Agreement update) =? 0)%nat &&
                negb (Registration.Agreement update =? SubscriberAgreementURL wfe)
                = false).
  { destruct Hagreement as [-> | ->]; [done|].
    by rewrite String.eqb_refl, andb_false_r. }
  rewrite Hok.
  destruct (RA_UpdateRegistration _ _ _); [destruct (Marshal_Registration _ _)|];
    leaf; reflexivity.
Qed.

(** ** Challenges, continued *)

(** X18.  [challenge] reads the answer of the Registration Authority at
    the index it sent without a test of the bounds: when the
    authorization returned has no challenge at that index, the handler
    panics after the update was sent, and no status is written. *)
Theorem challenge_short_reply request ns authz payload k currReg s1
    challengeIndex challengeResponse updatedAuthz :
  Request.Method request = "POST" ->
  findChallenge (Authorization.Challenges authz) (Request.URL_ request) 0 =
    Some challengeIndex ->
  verifyPOST wfe request true (afterHeaders ns) =
    (Returned (Ok (payload, k, currReg)), s1) ->
  Registration.Agreement currReg <> "" ->
  Registration.ID currReg = Authorization.RegistrationID authz ->
  Unmarshal_Challenge (lib wfe) payload = Ok challengeResponse ->
  RA_UpdateAuthorization (RA wfe) authz (Z.of_nat challengeIndex)
    challengeResponse = Ok updatedAuthz ->
  (length (Authorization.Challenges updatedAuthz) <= challengeIndex)%nat ->
  (serve (challenge wfe authz request) ns).1 = Panicked /\
  ResponseWriter.Code (response (serve (challenge wfe authz request) ns).2) =
    None /\
  calls (serve (challenge wfe authz request) ns).2 =
    [UpdateAuthorizationCall authz (Z.of_nat challengeIndex) challengeResponse].
Proof.
  intros Hmethod Hfound Hv Hagreement Hid Hresponse Hupdated Hshort.
  unfold challenge. unfold_effects.
  rewrite Hmethod, Hfound. simpl. simpl in Hv.
  destruct (Nonce ns) as [n ns1]. simpl in *. rewrite Hv.
  rewrite (proj2 (String.eqb_neq _ _)) by done.
  rewrite Hid, Z.eqb_refl. simpl. rewrite Hresponse, Hupdated.
  rewrite (lookup_ge_None_2 _ _ Hshort). by leaf.
Qed.

Lemma findChallenge_none challenges u : forall i,
  (forall c, c ∈ challenges ->
     ~ (URL.Path (Challenge.URI c) = URL.Path u /\
        URL.RawQuery (Challenge.URI c) = URL.RawQuery u)) ->
  findChallenge challenges u i = None.
Proof.
  induction challenges as [|c rest IH]; intros i Hnone; [done|].
  cbn [findChallenge]. cbv zeta.
  destruct (_ && _)%bool eqn:Hmatch.
  - apply andb_true_iff in Hmatch as [?%String.eqb_eq ?%String.eqb_eq].
    destruct (Hnone c); [by left|done].
  - apply IH. intros c' Hin. apply Hnone. by right.
Qed.

(** The index found is that of the first challenge with the URI. *)
Lemma findChallenge_first challenges u : forall i idx c,
  challenges !! idx = Some c ->
  URL.Path (Challenge.URI c) = URL.Path u ->
  URL.RawQuery (Challenge.URI c) = URL.RawQuery u ->
  (forall k c', (k < idx)%nat -> challenges !! k = Some c' ->
     ~ (URL.Path (Challenge.URI c') = URL.Path u /\
        URL.RawQuery (Challenge.URI c') = URL.RawQuery u)) ->
  findChallenge challenges u i = Some (i + idx)%nat.
Proof.
  induction challenges as [|c0 rest IH]; intros i idx c Hlook Hpath Hquery Hfirst;
    [done|].
  cbn [findChallenge]. cbv zeta. destruct idx as [|idx].
  - simpl in Hlook. simplify_eq.
    rewrite Hpath, Hquery, !String.eqb_refl. cbn [andb]. f_equal. lia.
  - destruct (_ && _)%bool eqn:Hmatch.
    + apply andb_true_iff in Hmatch as [?%String.eqb_eq ?%String.eqb_eq].
      destruct (Hfirst 0%nat c0); [lia|done|done].
    + rewrite (IH (S i) idx c); [f_equal; lia|done..|].
      intros k c' Hk Hlook'. apply (Hfirst (S k) c'); [lia|done].
Qed.

(** A request to a stored authorization, with a query string, is the
    request [challenge] is given, in the state after the standard
    headers. *)
Lemma Authorization_hands_over request (ns : NS) authz :
  Request.Method request = "GET" \/ Request.Method request = "POST" ->
  GetAuthorization (SA wfe)
    (parseIDFromPath (URL.Path (Request.URL_ request))) = Ok authz ->
  URL.RawQuery (Request.URL_ request) <> "" ->
  serve (Authorization wfe request) ns =
    challenge wfe authz request (afterHeaders ns).
Proof.
  intros Hmethod Hauthz Hquery.
  assert (Hlen : (String.length (URL.RawQuery (Request.URL_ request)) =? 0)%nat
                 = false).
  { apply Nat.eqb_neq. by destruct (URL.RawQuery (Request.URL_ request)). }
  unfold Authorization, afterHeaders, serve, sendStandardHeaders, sendAllow,
    HeaderSet. run_handler.
  simpl. rewrite Hauthz, Hlen. simpl.
  destruct (Nonce ns) as [n ns1]. simpl.
  by destruct Hmethod as [-> | ->].
Qed.

(** X19.  A challenge is read without an envelope, through
    [Authorization].  For a stored authorization and a request with a
    query string: when no challenge of the authorization has the path and
    the query of the request, the answer to a GET and to a POST alike is
    404, before any verification.  A GET whose URI is that of a challenge
    is answered 202 with the first challenge that has the URI, the
    rendering of its URI by [url.URL.String] as [Location] and the
    authorization as the link [up].  Nothing is verified or called, and
    the nonce service has issued two nonces. *)
Theorem challenge_read request ns authz :
  GetAuthorization (SA wfe)
    (parseIDFromPath (URL.Path (Request.URL_ request))) = Ok authz ->
  URL.RawQuery (Request.URL_ request) <> "" ->
  (Request.Method request = "GET" \/ Request.Method request = "POST" ->
   (forall c, c ∈ Authorization.Challenges authz ->
      ~ (URL.Path (Challenge.URI c) = URL.Path (Request.URL_ request) /\
         URL.RawQuery (Challenge.URI c) = URL.RawQuery (Request.URL_ request))) ->
   ResponseWriter.Code (response (serve (Authorization wfe request) ns).2) =
     Some StatusNotFound /\
   nonceService (serve (Authorization wfe request) ns).2 =
     (Nonce (Nonce ns).2).2 /\
   calls (serve (Authorization wfe request) ns).2 = []) /\
  (Request.Method request = "GET" ->
   forall idx c jsonReply,
     Authorization.Challenges authz !! idx = Some c ->
     URL.Path (Challenge.URI c) = URL.Path (Request.URL_ request) ->
     URL.RawQuery (Challenge.URI c) = URL.RawQuery (Request.URL_ request) ->
     (forall k c', (k < idx)%nat ->
        Authorization.Challenges authz !! k = Some c' ->
        ~ (URL.Path (Challenge.URI c') = URL.Path (Request.URL_ request) /\
           URL.RawQuery (Challenge.URI c') =
             URL.RawQuery (Request.URL_ request))) ->
     Marshal_Challenge (lib wfe) c = Ok jsonReply ->
     ResponseWriter.Code (response (serve (Authorization wfe request) ns).2) =
       Some StatusAccepted /\
     ResponseWriter.Body (response (serve (Authorization wfe request) ns).2) =
       jsonReply /\
     ResponseWriter.Header (response (serve (Authorization wfe request) ns).2)
       !! "Location" = Some [URL_String (lib wfe) (Challenge.URI c)] /\
     ResponseWriter.Header (response (serve (Authorization wfe request) ns).2)
       !! "Link" = Some [link (AuthzBase wfe ++ Authorization.ID authz) "up"] /\
     nonceService (serve (Authorization wfe request) ns).2 =
       (Nonce (Nonce ns).2).2 /\
     calls (serve (Authorization wfe request) ns).2 = []).
Proof.
  intros Hauthz Hquery. split.
  - intros Hmethod Hnone.
    rewrite (Authorization_hands_over request ns authz Hmethod Hauthz Hquery).
    unfold challenge. unfold_effects. simpl.
    rewrite (findChallenge_none _ _ 0 Hnone).
    destruct (Nonce ns) as [n ns1]. simpl.
    destruct (Nonce ns1) as [n' ns2].
    destruct Hmethod as [-> | ->]; leaf; split_and!; reflexivity.
  - intros Hmethod idx c jsonReply Hlook Hpath Hrawquery Hfirst Hjson.
    rewrite (Authorization_hands_over request ns authz (or_introl Hmethod)
               Hauthz Hquery).
    unfold challenge. unfold_effects. simpl.
    rewrite Hmethod,
      (findChallenge_first _ _ 0 idx c Hlook Hpath Hrawquery Hfirst).
    simpl. rewrite Hlook, Hjson.
    destruct (Nonce ns) as [n ns1]. simpl.
    destruct (Nonce ns1) as [n' ns2]. leaf. split_and!; reflexivity.
Qed.

(** ** Certificates, continued *)

Lemma sendError_lib wfe' details code (s : @state NS) :
  lib wfe' = lib wfe ->
  sendError wfe' details code s = sendError wfe details code s.
Proof. intros Hlib. unfold sendError. by rewrite Hlib. Qed.

(** X20.  A GET of a certificate whose path is not [CertPath] followed by
    exactly sixteen characters, all of them digits or letters from [a] to
    [f], is answered 404 whatever is stored: the answer is the same
    before every storage and every Registration Authority. *)
Theorem Certificate_malformed request ns wfe' :
  Request.Method request = "GET" ->
  lib wfe' = lib wfe ->
  String.prefix CertPath (URL.Path (Request.URL_ request)) = false \/
  String.length (dropPrefix (String.length CertPath)
                   (URL.Path (Request.URL_ request))) <> 16%nat \/
  allHex (dropPrefix (String.length CertPath)
            (URL.Path (Request.URL_ request))) = false ->
  ResponseWriter.Code (response (serve (Certificate wfe request) ns).2) =
    Some StatusNotFound /\
  serve (Certificate wfe' request) ns = serve (Certificate wfe request) ns.
Proof.
  intros Hmethod Hlib Hbad.
  unfold Certificate. unfold_effects. cbv zeta.
  rewrite Hmethod.
  destruct (String.prefix CertPath _) eqn:Hprefix.
  - assert ((negb (String.length
                     (dropPrefix (String.length CertPath)
                        (URL.Path (Request.URL_ request))) =? 16)%nat ||
             negb (allHex (dropPrefix (String.length CertPath)
                             (URL.Path (Request.URL_ request)))))%bool = true)
      as ->.
    { destruct Hbad as [?|[Hlen|Hhex]]; [done|..].
      - apply Nat.eqb_neq in Hlen. by rewrite Hlen.
      - by rewrite Hhex, orb_true_r. }
    cbn -[sendError]. destruct (Nonce ns) as [n ns1]. cbn -[sendError].
    by rewrite sendError_Code, (sendError_lib wfe').
  - cbn -[sendError]. destruct (Nonce ns) as [n ns1]. cbn -[sendError].
    by rewrite sendError_Code, (sendError_lib wfe').
Qed.

(** ** Issuance *)

(** X21.  A certificate request answered 201 carries the link [up] to
    the issuer certificate and the type [application/pkix-cert], and
    counts one certificate.  A certificate the Registration Authority
    returned but whose bytes do not parse is not sent: the answer is Bad
    Request although the authority was called, and an error of the
    authority is answered with the status of [statusCodeFromError]; in
    both cases nothing is counted. *)
Theorem NewCertificate_issued request ns :
  (ResponseWriter.Code (response (serve (NewCertificate wfe request) ns).2) =
     Some StatusCreated ->
   ResponseWriter.Header (response (serve (NewCertificate wfe request) ns).2)
     !! "Link" = Some [link (BaseURL wfe ++ IssuerPath) "up"] /\
   ResponseWriter.Header (response (serve (NewCertificate wfe request) ns).2)
     !! "Content-Type" = Some ["application/pkix-cert"] /\
   stats (serve (NewCertificate wfe request) ns).2 = ["Certificates"]) /\
  (forall init regID cert err,
     calls (serve (NewCertificate wfe request) ns).2 =
       [NewCertificateCall init regID] ->
     RA_NewCertificate (RA wfe) init regID = Ok cert ->
     ParseCertificate (lib wfe) (Certificate.DER cert) = Err err ->
     ResponseWriter.Code (response (serve (NewCertificate wfe request) ns).2) =
       Some StatusBadRequest /\
     stats (serve (NewCertificate wfe request) ns).2 = []) /\
  (forall init regID err,
     calls (serve (NewCertificate wfe request) ns).2 =
       [NewCertificateCall init regID] ->
     RA_NewCertificate (RA wfe) init regID = Err err ->
     ResponseWriter.Code (response (serve (NewCertificate wfe request) ns).2) =
       Some (statusCodeFromError err) /\
     stats (serve (NewCertificate wfe request) ns).2 = []).
Proof.
  split_and!.
  - start_run. intros Hcode.
    repeat case_match; simplify_eq; revert Hcode.
    all: try not_this_status.
    intros _; cbn [snd response calls stats]; verify_facts.
    split_and!; reflexivity.
  - intros init regID cert err. start_run. intros Hmade Hcert Hparse.
    repeat case_match; simplify_eq; revert Hmade.
    all: leaf; try discriminate.
    all: intros [= <- <-]; try congruence.
    all: split; [congruence | reflexivity].
  - intros init regID err. start_run. intros Hmade Herr.
    repeat case_match; simplify_eq; revert Hmade.
    all: leaf; try discriminate.
    all: intros [= <- <-]; try congruence.
    all: split; [congruence | reflexivity].
Qed.

(** ** The kinds of answers *)

Lemma statusCodeFromError_range err : 400 <= statusCodeFromError err < 600.
Proof. destruct err; by vm_compute. Qed.

(** X22.  A run of [NewRegistration], [NewAuthorization],
    [RevokeCertificate], [NewCertificate], [Registration],
    [Authorization], [Certificate], [Terms], [Issuer] or [BuildID] either
    panics before it writes a status, or answers with a problem document,
    of the type [application/problem+json] and with a status from 400 to
    599, or answers 200, 201 or 202 with another type.  Only a success is
    counted, once, and a counted request made one call to the
    Registration Authority.  ([Index], which answers a path other than
    the root through [http.NotFound], is not among them.) *)
Theorem response_kinds request ns build h :
  h ∈ [NewRegistration wfe; NewAuthorization wfe; RevokeCertificate wfe;
       NewCertificate wfe; Registration wfe; Authorization wfe;
       Certificate wfe; Terms wfe; Issuer wfe; BuildID wfe build] ->
  ((serve (h request) ns).1 = Panicked /\
   ResponseWriter.Code (response (serve (h request) ns).2) = None /\
   stats (serve (h request) ns).2 = []) \/
  ((serve (h request) ns).1 = Returned tt /\
   (exists code,
      ResponseWriter.Code (response (serve (h request) ns).2) = Some code /\
      400 <= code < 600) /\
   ResponseWriter.Header (response (serve (h request) ns).2)
     !! "Content-Type" = Some ["application/problem+json"] /\
   stats (serve (h request) ns).2 = []) \/
  ((serve (h request) ns).1 = Returned tt /\
   ResponseWriter.Code (response (serve (h request) ns).2) ∈
     [Some StatusOK; Some StatusCreated; Some StatusAccepted] /\
   ResponseWriter.Header (response (serve (h request) ns).2)
     !! "Content-Type" <> Some ["application/problem+json"] /\
   (stats (serve (h request) ns).2 = [] \/
    exists counter c,
      stats (serve (h request) ns).2 = [counter] /\
      calls (serve (h request) ns).2 = [c])).
Proof.
  intros Hh.
  repeat (apply elem_of_cons in Hh as [->|Hh]);
    [..|by apply elem_of_nil in Hh].
  all: start_run.
  all: repeat case_match; simplify_eq.
  all: leaf.
  all: first
    [ by left
    | right; left; split_and!;
      [ reflexivity
      | eexists; split;
        [ reflexivity
        | first [by vm_compute | apply statusCodeFromError_range] ]
      | reflexivity
      | reflexivity ]
    | right; right; split_and!;
      [ reflexivity
      | first [by left | by right; left | by right; right; left]
      | discriminate
      | first [by left | right; eexists _, _; split; reflexivity] ] ].
Qed.

(** ** Replay *)

(** When the signature step passes, [verifyPOST] puts the nonce of the
    verified header to the nonce service once, whatever it returns. *)
Lemma verifyPOST_nonce_spent request regCheck (s : @state NS) nonce :
  verifiedNonce wfe request = Some nonce ->
  nonce <> "" ->
  nonceService (verifyPOST wfe request regCheck s).2 =
    (Valid nonce (nonceService s)).2.
Proof.
  unfold verifiedNonce, verifyPOST. run_handler. intros Hnonce Hfilled.
  destruct (Request.Body request) as [[body|]|]; [|done..].
  destruct (ParseSigned (lib wfe) body) as [jws|]; [|done].
  destruct (JsonWebSignature.Signatures jws) as [|sig0 [|sig1 rest]];
    [done| |done].
  simpl.
  destruct (Verify (lib wfe) jws _) as [[payload header]|]; [|done].
  simplify_eq.
  destruct (String.length (JoseHeader.Nonce header) =? 0)%nat eqn:Hlen.
  { apply Nat.eqb_eq in Hlen.
    destruct (JoseHeader.Nonce header); [done|discriminate]. }
  destruct (Valid (JoseHeader.Nonce header) (nonceService s)) as [valid ns'].
  destruct valid; simpl; [|done].
  destruct (JoseHeader.JsonWebKey (Signature.Header sig0)) as [k|]; [|done].
  destruct (GetRegistrationByKey (SA wfe) k); [done|].
  by destruct regCheck.
Qed.

(** A nonce the service refuses fails the verification. *)
Lemma verifyPOST_refused request regCheck (s : @state NS) nonce :
  verifiedNonce wfe request = Some nonce ->
  nonce <> "" ->
  (Valid nonce (nonceService s)).1 = false ->
  (verifyPOST wfe request regCheck s).1 =
    Returned (Err (errorsNew "JWS has invalid anti-replay nonce")).
Proof.
  unfold verifiedNonce, verifyPOST. run_handler. intros Hnonce Hfilled.
  destruct (Request.Body request) as [[body|]|]; [|done..].
  destruct (ParseSigned (lib wfe) body) as [jws|]; [|done].
  destruct (JsonWebSignature.Signatures jws) as [|sig0 [|sig1 rest]];
    [done| |done].
  simpl.
  destruct (Verify (lib wfe) jws _) as [[payload header]|]; [|done].
  simplify_eq.
  destruct (String.length (JoseHeader.Nonce header) =? 0)%nat eqn:Hlen.
  { apply Nat.eqb_eq in Hlen.
    destruct (JoseHeader.Nonce header); [done|discriminate]. }
  destruct (Valid (JoseHeader.Nonce header) (nonceService s)) as [valid ns'].
  simpl. by intros ->.
Qed.

(** X23.  A signed POST spends its nonce whatever the handler answers:
    after the request the nonce service has issued the nonce of the
    response and has been put the nonce of the verified header once.  The
    same request sent again, to a nonce service that then refuses the
    nonce, is answered Bad Request without a call to the Registration
    Authority, also when the first answer was a success. *)
Theorem replay_refused request ns h nonce :
  h ∈ [NewRegistration wfe; NewAuthorization wfe; RevokeCertificate wfe;
       NewCertificate wfe; Registration wfe] ->
  Request.Method request = "POST" ->
  verifiedNonce wfe request = Some nonce ->
  nonce <> "" ->
  nonceService (serve (h request) ns).2 = (Valid nonce (Nonce ns).2).2 /\
  ((Valid nonce (Nonce (nonceService (serve (h request) ns).2)).2).1 = false ->
   ResponseWriter.Code
     (response (serve (h request) (nonceService (serve (h request) ns).2)).2) =
     Some StatusBadRequest /\
   calls (serve (h request) (nonceService (serve (h request) ns).2)).2 = []).
Proof.
  intros Hh Hmethod Hnonce Hfilled.
  assert (forall m : NS,
    nonceService (serve (h request) m).2 = (Valid nonce (Nonce m).2).2 /\
    ((Valid nonce (Nonce m).2).1 = false ->
     ResponseWriter.Code (response (serve (h request) m).2) =
       Some StatusBadRequest /\
     calls (serve (h request) m).2 = [])) as Hrun.
  { intros m.
    repeat (apply elem_of_cons in Hh as [->|Hh]);
      [..|by apply elem_of_nil in Hh].
    all: unfold NewRegistration, NewAuthorization, RevokeCertificate,
           NewCertificate, Registration; unfold_effects.
    all: rewrite Hmethod; simpl.
    all: destruct (Nonce m) as [n m1]; simpl.
    all: match goal with
         | |- context [verifyPOST ?w ?r ?b ?s] =>
           pose proof (verifyPOST_nonce_spent r b s nonce Hnonce Hfilled)
             as Hspent;
           pose proof (verifyPOST_refused r b s nonce Hnonce Hfilled)
             as Hrefused;
           pose proof (verifyPOST_state w r b s) as Hstate;
           destruct (verifyPOST w r b s) as [o s1]
         end.
    all: simpl in Hspent, Hrefused, Hstate.
    all: destruct Hstate as (Hresponse & Hcalls & _).
    all: split;
      [ rewrite <- Hspent; repeat case_match; simplify_eq; leaf; reflexivity
      | intros Hinvalid; rewrite (Hrefused Hinvalid); leaf;
        rewrite ?Hresponse, ?Hcalls; split; reflexivity ]. }
  split; [apply Hrun|]. apply Hrun.
Qed.

End CoverageFacts.

(** * The further properties on the small deployment *)

(** The witness of X1: a GET of the new-registration resource is answered
    405 with [Allow: POST]. *)
Lemma POST_only_witness :
  Request.Method (Example.plain "GET" "/acme/new-reg" "") <> "POST" /\
  ResponseWriter.Code
    (response (serve (NewRegistration (Example.wfe false)
                        (Example.plain "GET" "/acme/new-reg" ""))
                 Example.nonces).2) = Some StatusMethodNotAllowed /\
  ResponseWriter.Header
    (response (serve (NewRegistration (Example.wfe false)
                        (Example.plain "GET" "/acme/new-reg" ""))
                 Example.nonces).2) !! "Allow" = Some ["POST"] /\
  calls (serve (NewRegistration (Example.wfe false)
                  (Example.plain "GET" "/acme/new-reg" ""))
           Example.nonces).2 = [].
Proof.
  split; [discriminate|].
  destruct (POST_only (Example.wfe false)
              (Example.plain "GET" "/acme/new-reg" "") Example.nonces
              (NewRegistration (Example.wfe false)))
    as (_ & Hcode & Hallow & _ & Hcalls & _); [discriminate | left |].
  split_and!; assumption.
Defined.

(** The witness of X2: a PUT to an authorization is answered 405 with
    [Allow: GET, POST], and a PUT to the terms with [Allow: GET]. *)
Lemma GET_POST_only_witness :
  ResponseWriter.Header
    (response (serve (Authorization (Example.wfe false)
                        (Example.plain "PUT" "/acme/authz/az1" ""))
                 Example.nonces).2) !! "Allow" = Some ["GET, POST"] /\
  ResponseWriter.Code
    (response (serve (Terms (Example.wfe false)
                        (Example.plain "PUT" "/acme/authz/az1" ""))
                 Example.nonces).2) = Some StatusMethodNotAllowed /\
  ResponseWriter.Header
    (response (serve (Terms (Example.wfe false)
                        (Example.plain "PUT" "/acme/authz/az1" ""))
                 Example.nonces).2) !! "Allow" = Some ["GET"].
Proof.
  destruct (GET_POST_only (Example.wfe false)
              (Example.plain "PUT" "/acme/authz/az1" "") Example.nonces
              Example.authz1) as [Hboth Hget].
  destruct (Hboth ltac:(discriminate) ltac:(discriminate)
              (Authorization (Example.wfe false)) ltac:(left))
    as (_ & _ & Hallow & _).
  destruct (Hget ltac:(discriminate) (Terms (Example.wfe false)) ltac:(left))
    as (_ & Hcode & Hallow' & _).
  split_and!; assumption.
Defined.

(** The witness of X3: a signed POST to an authorization, without a
    query, is answered 405, and to a certificate 404. *)
Lemma POST_unsupported_witness :
  ResponseWriter.Code
    (response (serve (Authorization (Example.wfe false)
                        (Example.post "/acme/authz/az1" "" "alice-key" "0" "x"))
                 Example.nonces).2) = Some StatusMethodNotAllowed /\
  ResponseWriter.Code
    (response (serve (Certificate (Example.wfe false)
                        (Example.post "/acme/authz/az1" "" "alice-key" "0" "x"))
                 Example.nonces).2) = Some StatusNotFound /\
  nonceService
    (serve (Certificate (Example.wfe false)
              (Example.post "/acme/authz/az1" "" "alice-key" "0" "x"))
       Example.nonces).2 = (Nonce Example.nonces).2.
Proof.
  destruct (POST_unsupported (Example.wfe false)
              (Example.post "/acme/authz/az1" "" "alice-key" "0" "x")
              Example.nonces) as [Hauthz (Hcode & Hnonce & _)]; [reflexivity|].
  destruct (Hauthz Example.authz1) as (Hcode' & _); [reflexivity..|].
  split_and!; assumption.
Defined.

(** The witness of X4: the authorization [zz] is not stored, and [az1]
    is read with its registration id and its own id blanked. *)
Lemma Authorization_read_witness :
  ResponseWriter.Code
    (response (serve (Authorization (Example.wfe false)
                        (Example.get "/acme/authz/zz" ""))
                 Example.nonces).2) = Some StatusNotFound /\
  ResponseWriter.Code
    (response (serve (Authorization (Example.wfe false)
                        (Example.get "/acme/authz/az1" ""))
                 Example.nonces).2) = Some StatusOK /\
  ResponseWriter.Body
    (response (serve (Authorization (Example.wfe false)
                        (Example.get "/acme/authz/az1" ""))
                 Example.nonces).2) = "example.com".
Proof.
  destruct (Authorization_read (Example.wfe false)
              (Example.get "/acme/authz/zz" "") Example.nonces) as [Hunknown _].
  destruct (Hunknown ltac:(by left) ErrNoRows) as (Hcode & _); [reflexivity|].
  destruct (Authorization_read (Example.wfe false)
              (Example.get "/acme/authz/az1" "") Example.nonces) as [_ Hknown].
  destruct (Hknown ltac:(reflexivity) Example.authz1 "example.com")
    as (Hcode' & Hbody & _); [reflexivity..|].
  split_and!; assumption.
Defined.

(** The witness of X5: the new authorization of Alice reaches the
    Registration Authority, with one call and a verified envelope. *)
Lemma calls_need_verification_witness :
  calls (serve (NewAuthorization (Example.wfe false) Example.aliceNewAuthz)
           Example.nonces).2 <> [] /\
  Request.Method Example.aliceNewAuthz = "POST" /\
  (exists c v s1,
     calls (serve (NewAuthorization (Example.wfe false) Example.aliceNewAuthz)
              Example.nonces).2 = [c] /\
     verifyPOST (Example.wfe false) Example.aliceNewAuthz true
       (afterHeaders Example.nonces) = (Returned (Ok v), s1)) /\
  calls (serve (Issuer (Example.wfe false) Example.aliceNewAuthz)
           Example.nonces).2 = [].
Proof.
  destruct (calls_need_verification (Example.wfe false) Example.aliceNewAuthz
              Example.nonces Example.authz1) as [Hverified Hnever].
  split; [discriminate|].
  destruct (Hverified (NewAuthorization (Example.wfe false)) true)
    as [Hmethod Hcall]; [right; left | discriminate |].
  destruct (Hnever (Issuer (Example.wfe false))) as [Hnone _];
    [right; right; left|].
  split_and!; assumption.
Defined.

(** The witness of X6: Bob, who has an account, asks for another and is
    answered Conflict. *)
Lemma NewRegistration_key_witness :
  GetRegistrationByKey (SA (Example.wfe false)) "bob-key" = Ok Example.bob /\
  ResponseWriter.Code
    (response (serve (NewRegistration (Example.wfe false) Example.bobRegisters)
                 Example.nonces).2) = Some StatusConflict /\
  calls (serve (NewRegistration (Example.wfe false) Example.bobRegisters)
           Example.nonces).2 = [].
Proof.
  split; [reflexivity|].
  destruct (NewRegistration_key (Example.wfe false) Example.bobRegisters
              Example.nonces) as [Hused _].
  apply (Hused "bob-key" "bob-key" Example.bob
           (verifyPOST (Example.wfe false) Example.bobRegisters false
              (afterHeaders Example.nonces)).2 Example.bob);
    reflexivity.
Defined.

(** The witness of X7: the registration of Mallory is created with the
    id 3. *)
Lemma NewRegistration_created_witness :
  exists init reg responseBody,
    calls (serve (NewRegistration (Example.wfe false) Example.malloryRegisters)
             Example.nonces).2 = [NewRegistrationCall init] /\
    RA_NewRegistration (RA (Example.wfe false)) init = Ok reg /\
    Marshal_Registration (lib (Example.wfe false)) reg = Ok responseBody /\
    ResponseWriter.Body
      (response (serve (NewRegistration (Example.wfe false)
                          Example.malloryRegisters) Example.nonces).2) =
      responseBody /\
    ResponseWriter.Header
      (response (serve (NewRegistration (Example.wfe false)
                          Example.malloryRegisters) Example.nonces).2)
      !! "Location" =
      Some [RegBase (Example.wfe false) ++ pretty (Registration.ID reg)] /\
    ResponseWriter.Header
      (response (serve (NewRegistration (Example.wfe false)
                          Example.malloryRegisters) Example.nonces).2)
      !! "Link" =
      Some (link (NewAuthz (Example.wfe false)) "next" ::
            if (String.length (SubscriberAgreementURL (Example.wfe false)) =? 0)%nat
            then []
            else [link (SubscriberAgreementURL (Example.wfe false))
                    "terms-of-service"]) /\
    stats (serve (NewRegistration (Example.wfe false) Example.malloryRegisters)
             Example.nonces).2 = ["Registrations"].
Proof.
  apply (NewRegistration_created (Example.wfe false) Example.malloryRegisters
           Example.nonces).
  reflexivity.
Defined.

(** The witness of X8: Carol, who has not agreed to the terms, asks for
    an authorization and is answered Forbidden. *)
Lemma agreement_required_witness :
  Registration.Agreement Example.carol = "" /\
  ResponseWriter.Code
    (response (serve (NewAuthorization Example.wfeCarol Example.carolNewAuthz)
                 Example.nonces).2) = Some StatusForbidden /\
  calls (serve (NewAuthorization Example.wfeCarol Example.carolNewAuthz)
           Example.nonces).2 = [].
Proof.
  split; [reflexivity|].
  destruct (agreement_required Example.wfeCarol Example.carolNewAuthz
              Example.nonces) as [Hrequired _].
  apply (Hrequired (NewAuthorization Example.wfeCarol) "example.com"
           "carol-key" Example.carol
           (verifyPOST Example.wfeCarol Example.carolNewAuthz true
              (afterHeaders Example.nonces)).2);
    [left | reflexivity..].
Defined.

(** The witness of X9: the registration of Mallory goes to the
    Registration Authority with no agreement. *)
Lemma agreement_is_current_witness :
  NewRegistrationCall (Registration.mk 0 "mallory-key" [] "") ∈
    calls (serve (NewRegistration (Example.wfe false) Example.malloryRegisters)
             Example.nonces).2 /\
  (Registration.Agreement (Registration.mk 0 "mallory-key" [] "") = "" \/
   Registration.Agreement (Registration.mk 0 "mallory-key" [] "") =
     SubscriberAgreementURL (Example.wfe false)).
Proof.
  assert (NewRegistrationCall (Registration.mk 0 "mallory-key" [] "") ∈
            calls (serve (NewRegistration (Example.wfe false)
                            Example.malloryRegisters) Example.nonces).2)
    as Hcall by left.
  split; [exact Hcall|].
  destruct (agreement_is_current (Example.wfe false) Example.malloryRegisters
              Example.nonces) as [Hnew _].
  exact (Hnew _ Hcall).
Defined.

(** The witness of X10: the authorization Alice asks for is created. *)
Lemma NewAuthorization_created_witness :
  exists init regID authz responseBody,
    calls (serve (NewAuthorization (Example.wfe false) Example.aliceNewAuthz)
             Example.nonces).2 = [NewAuthorizationCall init regID] /\
    RA_NewAuthorization (RA (Example.wfe false)) init regID = Ok authz /\
    Marshal_Authorization (lib (Example.wfe false))
      (Authorization.mk "" (Authorization.Identifier authz) 0
         (Authorization.Status authz) (Authorization.Challenges authz)) =
      Ok responseBody /\
    ResponseWriter.Body
      (response (serve (NewAuthorization (Example.wfe false)
                          Example.aliceNewAuthz) Example.nonces).2) =
      responseBody /\
    ResponseWriter.Header
      (response (serve (NewAuthorization (Example.wfe false)
                          Example.aliceNewAuthz) Example.nonces).2)
      !! "Location" =
      Some [AuthzBase (Example.wfe false) ++ Authorization.ID authz] /\
    ResponseWriter.Header
      (response (serve (NewAuthorization (Example.wfe false)
                          Example.aliceNewAuthz) Example.nonces).2)
      !! "Link" = Some [link (NewCert (Example.wfe false)) "next"] /\
    stats (serve (NewAuthorization (Example.wfe false) Example.aliceNewAuthz)
             Example.nonces).2 = ["PendingAuthorizations"].
Proof.
  apply (NewAuthorization_created (Example.wfe false) Example.aliceNewAuthz
           Example.nonces).
  reflexivity.
Defined.

(** The witness of X11: Mallory has no account; her request for an
    authorization is answered Forbidden, and her nonce is spent. *)
Lemma verification_failure_witness :
  verifyPOST (Example.wfe false) Example.malloryPost true
    (afterHeaders Example.nonces) =
    (Returned (Err ErrNoRows),
     (verifyPOST (Example.wfe false) Example.malloryPost true
        (afterHeaders Example.nonces)).2) /\
  ResponseWriter.Code
    (response (serve (NewAuthorization (Example.wfe false) Example.malloryPost)
                 Example.nonces).2) = Some StatusForbidden /\
  calls (serve (NewAuthorization (Example.wfe false) Example.malloryPost)
           Example.nonces).2 = [] /\
  nonceService
    (serve (NewAuthorization (Example.wfe false) Example.malloryPost)
       Example.nonces).2 =
    nonceService (verifyPOST (Example.wfe false) Example.malloryPost true
                    (afterHeaders Example.nonces)).2.
Proof.
  split; [reflexivity|].
  destruct (verification_failure (Example.wfe false) Example.malloryPost
              Example.nonces ErrNoRows
              (verifyPOST (Example.wfe false) Example.malloryPost true
                 (afterHeaders Example.nonces)).2) as [Hknown _];
    [reflexivity|].
  apply (Hknown (NewAuthorization (Example.wfe false))); [left | reflexivity].
Defined.

(** The witness of X12: Alice revokes her certificate; where storage has
    other bytes under its serial number she is answered Not Found. *)
Lemma RevokeCertificate_outcome_witness :
  (ResponseWriter.Code
     (response (serve (RevokeCertificate Example.wfeReissued
                         Example.aliceRevokesA) Example.nonces).2) =
     Some StatusNotFound /\
   calls (serve (RevokeCertificate Example.wfeReissued Example.aliceRevokesA)
            Example.nonces).2 = []) /\
  ResponseWriter.Code
    (response (serve (RevokeCertificate (Example.wfe false)
                        Example.aliceRevokesA) Example.nonces).2) =
    Some StatusOK /\
  exists parsed,
    calls (serve (RevokeCertificate (Example.wfe false) Example.aliceRevokesA)
             Example.nonces).2 = [RevokeCertificateCall parsed] /\
    RA_RevokeCertificate (RA (Example.wfe false)) parsed = None /\
    ResponseWriter.Body
      (response (serve (RevokeCertificate (Example.wfe false)
                          Example.aliceRevokesA) Example.nonces).2) = "" /\
    stats (serve (RevokeCertificate (Example.wfe false) Example.aliceRevokesA)
             Example.nonces).2 = ["RevokedCertificates"].
Proof.
  split.
  - destruct (RevokeCertificate_outcome Example.wfeReissued
                Example.aliceRevokesA Example.nonces) as (Hstale & _).
    apply (Hstale "cert-A" "alice-key" Example.alice
             (verifyPOST Example.wfeReissued Example.aliceRevokesA false
                (afterHeaders Example.nonces)).2 "cert-A" Example.certA
             (Certificate.mk (7 * 2 ^ 64 + 1) 1 "cert-A2"));
      [reflexivity.. | discriminate].
  - split; [reflexivity|].
    destruct (RevokeCertificate_outcome (Example.wfe false)
                Example.aliceRevokesA Example.nonces) as (_ & _ & Hdone).
    apply Hdone. reflexivity.
Defined.

(** The witness of X13: the update of Alice is accepted. *)
Lemma Registration_accepted_witness :
  exists currReg update updatedReg jsonReply,
    calls (serve (Registration (Example.wfe false) Example.aliceUpdate)
             Example.nonces).2 = [UpdateRegistrationCall currReg update] /\
    RA_UpdateRegistration (RA (Example.wfe false)) currReg update =
      Ok updatedReg /\
    Marshal_Registration (lib (Example.wfe false)) updatedReg = Ok jsonReply /\
    ResponseWriter.Body
      (response (serve (Registration (Example.wfe false) Example.aliceUpdate)
                   Example.nonces).2) = jsonReply /\
    ResponseWriter.Header
      (response (serve (Registration (Example.wfe false) Example.aliceUpdate)
                   Example.nonces).2) !! "Content-Type" =
      Some ["application/json"].
Proof.
  apply (Registration_accepted (Example.wfe false) Example.aliceUpdate
           Example.nonces).
  reflexivity.
Defined.

(** The witness of X14: the library of the deployment marshals every
    problem document, and the registration of Mallory leaves the audit
    log empty. *)
Lemma audit_only_internal_witness :
  audit (serve (NewRegistration (Example.wfe false) Example.malloryRegisters)
           Example.nonces).2 = [] \/
  ResponseWriter.Code
    (response (serve (NewRegistration (Example.wfe false)
                        Example.malloryRegisters) Example.nonces).2) =
    Some StatusInternalServerError /\
  exists details,
    audit (serve (NewRegistration (Example.wfe false) Example.malloryRegisters)
             Example.nonces).2 = ["Internal error - " ++ details].
Proof.
  apply (audit_only_internal (Example.wfe false) Example.malloryRegisters
           Example.nonces Example.authz1 Example.build
           (NewRegistration (Example.wfe false))).
  - intros p. eexists. reflexivity.
  - left.
Defined.

(** The witness of X15: the issuer certificate goes out with the nonce
    issued for it and the header that opens it to every origin; a GET of
    the second challenge of [az1] goes out with the second nonce
    issued. *)
Lemma standard_headers_witness :
  (ResponseWriter.Header
     (response (serve (Issuer (Example.wfe false)
                         (Example.get "/acme/issuer-cert" ""))
                  Example.nonces).2) !! "Replay-Nonce" =
     Some [(Nonce Example.nonces).1] /\
   ResponseWriter.Header
     (response (serve (Issuer (Example.wfe false)
                         (Example.get "/acme/issuer-cert" ""))
                  Example.nonces).2) !! "Access-Control-Allow-Origin" =
     Some ["*"]) /\
  (Nonce Example.nonces).1 = "1" /\
  ResponseWriter.Header
    (response (serve (Authorization (Example.wfe false)
                        (Example.get "/acme/authz/az1" "challenge=0"))
                 Example.nonces).2) !! "Replay-Nonce" = Some ["2"].
Proof.
  destruct (standard_headers (Example.wfe false)
              (Example.get "/acme/issuer-cert" "") Example.nonces
              Example.build) as [Hfirst _].
  split; [apply (Hfirst (Issuer (Example.wfe false))); do 7 right; left|].
  split; [reflexivity|].
  destruct (standard_headers (Example.wfe false)
              (Example.get "/acme/authz/az1" "challenge=0") Example.nonces
              Example.build) as (_ & Hsecond & _).
  exact Hsecond.
Defined.

(** The witness of X16: a GET of the second challenge of [az1] is handed
    to [challenge] and takes two nonces. *)
Lemma Authorization_challenge_witness :
  serve (Authorization (Example.wfe false)
           (Example.get "/acme/authz/az1" "challenge=0")) Example.nonces =
    challenge (Example.wfe false) Example.authz1
      (Example.get "/acme/authz/az1" "challenge=0")
      (afterHeaders Example.nonces) /\
  ResponseWriter.Header
    (response (serve (Authorization (Example.wfe false)
                        (Example.get "/acme/authz/az1" "challenge=0"))
                 Example.nonces).2) !! "Replay-Nonce" =
    Some [(Nonce (Nonce Example.nonces).2).1] /\
  nonceService
    (serve (Authorization (Example.wfe false)
              (Example.get "/acme/authz/az1" "challenge=0"))
       Example.nonces).2 = (Nonce (Nonce Example.nonces).2).2.
Proof.
  destruct (Authorization_challenge (Example.wfe false)
              (Example.get "/acme/authz/az1" "challenge=0") Example.nonces
              Example.authz1) as (Hsame & Hnonce & Hget);
    [by left | reflexivity | discriminate |].
  split_and!; [assumption..|]. apply Hget. reflexivity.
Defined.

(** The witness of X17: Alice, whose id is 1, posts to [/acme/reg/1]. *)
Lemma Registration_own_URL_witness :
  URL.Path (Request.URL_ Example.aliceUpdate) =
    "/acme/reg" ++ String slash (pretty (Registration.ID Example.alice)) /\
  ParseInt (parseIDFromPath (URL.Path (Request.URL_ Example.aliceUpdate))) =
    Ok (Registration.ID Example.alice) /\
  calls (serve (Registration (Example.wfe false) Example.aliceUpdate)
           Example.nonces).2 =
    [UpdateRegistrationCall Example.alice
       (Registration.mk 0 (Registration.Key Example.alice) [] "")].
Proof.
  split; [reflexivity|].
  apply (Registration_own_URL (Example.wfe false) Example.aliceUpdate
           Example.nonces "mallory-key" "alice-key" Example.alice
           (verifyPOST (Example.wfe false) Example.aliceUpdate true
              (afterHeaders Example.nonces)).2 "/acme/reg"
           (Registration.mk 0 "mallory-key" [] ""));
    [reflexivity | reflexivity | simpl; lia | reflexivity | reflexivity
    | reflexivity | by left].
Defined.

(** The witness of X18: the authority answers the second challenge of
    Alice with an authorization that has no challenges, and the handler
    panics after the call. *)
Lemma challenge_short_reply_witness :
  (serve (challenge Example.wfeShortReply Example.authz1 Example.aliceAnswer)
     Example.nonces).1 = Panicked /\
  ResponseWriter.Code
    (response (serve (challenge Example.wfeShortReply Example.authz1
                        Example.aliceAnswer) Example.nonces).2) = None /\
  calls (serve (challenge Example.wfeShortReply Example.authz1
                  Example.aliceAnswer) Example.nonces).2 =
    [UpdateAuthorizationCall Example.authz1 (Z.of_nat 1)
       (Challenge.mk "simpleHttps" "" (Example.relative "" "") "token")].
Proof.
  apply (challenge_short_reply Example.wfeShortReply Example.aliceAnswer
           Example.nonces Example.authz1 "token" "alice-key" Example.alice
           (verifyPOST Example.wfeShortReply Example.aliceAnswer true
              (afterHeaders Example.nonces)).2 1%nat
           (Challenge.mk "simpleHttps" "" (Example.relative "" "") "token")
           (Authorization.mk "az1" "example.com" 1 "valid" []));
    [reflexivity | reflexivity | reflexivity | discriminate | reflexivity
    | reflexivity | reflexivity | simpl; lia].
Defined.

(** The witness of X19: [az1] has no challenge with the query
    [challenge=7]; its second challenge is the first with the query
    [challenge=0] and is read with its token. *)
Lemma challenge_read_witness :
  ResponseWriter.Code
    (response (serve (Authorization (Example.wfe false)
                        (Example.get "/acme/authz/az1" "challenge=7"))
                 Example.nonces).2) = Some StatusNotFound /\
  ResponseWriter.Code
    (response (serve (Authorization (Example.wfe false)
                        (Example.get "/acme/authz/az1" "challenge=0"))
                 Example.nonces).2) = Some StatusAccepted /\
  ResponseWriter.Body
    (response (serve (Authorization (Example.wfe false)
                        (Example.get "/acme/authz/az1" "challenge=0"))
                 Example.nonces).2) = "t1" /\
  ResponseWriter.Header
    (response (serve (Authorization (Example.wfe false)
                        (Example.get "/acme/authz/az1" "challenge=0"))
                 Example.nonces).2) !! "Location" =
    Some ["/acme/authz/az1?challenge=0"] /\
  calls (serve (Authorization (Example.wfe false)
                  (Example.get "/acme/authz/az1" "challenge=0"))
           Example.nonces).2 = [].
Proof.
  destruct (challenge_read (Example.wfe false)
              (Example.get "/acme/authz/az1" "challenge=7") Example.nonces
              Example.authz1) as [Hnone _]; [reflexivity | discriminate |].
  destruct Hnone as (Hcode & _); [by left | |].
  { intros c Hin [_ Hquery]. simpl in Hin.
    inversion Hin as [|? ? ? Hin']; subst; [discriminate|].
    inversion Hin' as [|? ? ? Hin'']; subst; [discriminate|].
    inversion Hin''. }
  destruct (challenge_read (Example.wfe false)
              (Example.get "/acme/authz/az1" "challenge=0") Example.nonces
              Example.authz1) as [_ Hfound]; [reflexivity | discriminate |].
  destruct (Hfound ltac:(reflexivity) 1%nat
              (Challenge.mk "simpleHttps" "pending" Example.challengeURI "t1")
              "t1") as (Hcode' & Hbody & Hlocation & _ & _ & Hcalls);
    [reflexivity | reflexivity | reflexivity | | reflexivity |].
  { intros k c' Hk Hlook [_ Hquery]. destruct k as [|k]; [|lia].
    simpl in Hlook. injection Hlook as <-. discriminate. }
  split_and!; assumption.
Defined.

(** The witness of X20: the path [/acme/cert/xyz] names no short
    identifier; the answer is Not Found whichever storage is behind. *)
Lemma Certificate_malformed_witness :
  ResponseWriter.Code
    (response (serve (Certificate (Example.wfe false)
                        (Example.get "/acme/cert/xyz" ""))
                 Example.nonces).2) = Some StatusNotFound /\
  serve (Certificate Example.wfeReissued (Example.get "/acme/cert/xyz" ""))
    Example.nonces =
  serve (Certificate (Example.wfe false) (Example.get "/acme/cert/xyz" ""))
    Example.nonces.
Proof.
  apply (Certificate_malformed (Example.wfe false)
           (Example.get "/acme/cert/xyz" "") Example.nonces
           Example.wfeReissued);
    [reflexivity | reflexivity | right; left; simpl; lia].
Defined.

(** The witness of X21: the certificate Alice asks for is issued; the
    certificate of an authority whose bytes do not parse is answered Bad
    Request after the call. *)
Lemma NewCertificate_issued_witness :
  (ResponseWriter.Header
     (response (serve (NewCertificate (Example.wfe false) Example.aliceNewCert)
                  Example.nonces).2) !! "Link" =
     Some [link (BaseURL (Example.wfe false) ++ IssuerPath) "up"] /\
   ResponseWriter.Header
     (response (serve (NewCertificate (Example.wfe false) Example.aliceNewCert)
                  Example.nonces).2) !! "Content-Type" =
     Some ["application/pkix-cert"] /\
   stats (serve (NewCertificate (Example.wfe false) Example.aliceNewCert)
            Example.nonces).2 = ["Certificates"]) /\
  calls (serve (NewCertificate Example.wfeGarbled Example.aliceNewCert)
           Example.nonces).2 = [NewCertificateCall "csr" 1] /\
  ResponseWriter.Code
    (response (serve (NewCertificate Example.wfeGarbled Example.aliceNewCert)
                 Example.nonces).2) = Some StatusBadRequest /\
  stats (serve (NewCertificate Example.wfeGarbled Example.aliceNewCert)
           Example.nonces).2 = [].
Proof.
  split.
  - destruct (NewCertificate_issued (Example.wfe false) Example.aliceNewCert
                Example.nonces) as (Hissued & _).
    apply Hissued. reflexivity.
  - split; [reflexivity|].
    destruct (NewCertificate_issued Example.wfeGarbled Example.aliceNewCert
                Example.nonces) as (_ & Hgarbled & _).
    apply (Hgarbled "csr" 1 (Certificate.mk (7 * 2 ^ 64 + 2) 1 "garbled")
             (errorString "asn1: syntax error")); reflexivity.
Defined.

(** The witness of X22: the registration of Mallory is a counted
    success. *)
Lemma response_kinds_witness :
  stats (serve (NewRegistration (Example.wfe false) Example.malloryRegisters)
           Example.nonces).2 = ["Registrations"] /\
  (((serve (NewRegistration (Example.wfe false) Example.malloryRegisters)
       Example.nonces).1 = Panicked /\
    ResponseWriter.Code
      (response (serve (NewRegistration (Example.wfe false)
                          Example.malloryRegisters) Example.nonces).2) = None /\
    stats (serve (NewRegistration (Example.wfe false) Example.malloryRegisters)
             Example.nonces).2 = []) \/
   ((serve (NewRegistration (Example.wfe false) Example.malloryRegisters)
       Example.nonces).1 = Returned tt /\
    (exists code,
       ResponseWriter.Code
         (response (serve (NewRegistration (Example.wfe false)
                             Example.malloryRegisters) Example.nonces).2) =
         Some code /\
       400 <= code < 600) /\
    ResponseWriter.Header
      (response (serve (NewRegistration (Example.wfe false)
                          Example.malloryRegisters) Example.nonces).2)
      !! "Content-Type" = Some ["application/problem+json"] /\
    stats (serve (NewRegistration (Example.wfe false) Example.malloryRegisters)
             Example.nonces).2 = []) \/
   ((serve (NewRegistration (Example.wfe false) Example.malloryRegisters)
       Example.nonces).1 = Returned tt /\
    ResponseWriter.Code
      (response (serve (NewRegistration (Example.wfe false)
                          Example.malloryRegisters) Example.nonces).2) ∈
      [Some StatusOK; Some StatusCreated; Some StatusAccepted] /\
    ResponseWriter.Header
      (response (serve (NewRegistration (Example.wfe false)
                          Example.malloryRegisters) Example.nonces).2)
      !! "Content-Type" <> Some ["application/problem+json"] /\
    (stats (serve (NewRegistration (Example.wfe false) Example.malloryRegisters)
              Example.nonces).2 = [] \/
     exists counter c,
       stats (serve (NewRegistration (Example.wfe false)
                       Example.malloryRegisters) Example.nonces).2 = [counter] /\
       calls (serve (NewRegistration (Example.wfe false)
                       Example.malloryRegisters) Example.nonces).2 = [c]))).
Proof.
  split; [reflexivity|].
  apply (response_kinds (Example.wfe false) Example.malloryRegisters
           Example.nonces Example.build (NewRegistration (Example.wfe false))).
  left.
Defined.

(** The witness of X23: the request of Alice for an authorization is
    answered 201, and the same request sent again Bad Request. *)
Lemma replay_refused_witness :
  ResponseWriter.Code
    (response (serve (NewAuthorization (Example.wfe false) Example.aliceNewAuthz)
                 Example.nonces).2) = Some StatusCreated /\
  ResponseWriter.Code
    (response
       (serve (NewAuthorization (Example.wfe false) Example.aliceNewAuthz)
          (nonceService
             (serve (NewAuthorization (Example.wfe false) Example.aliceNewAuthz)
                Example.nonces).2)).2) = Some StatusBadRequest /\
  calls
    (serve (NewAuthorization (Example.wfe false) Example.aliceNewAuthz)
       (nonceService
          (serve (NewAuthorization (Example.wfe false) Example.aliceNewAuthz)
             Example.nonces).2)).2 = [].
Proof.
  split; [reflexivity|].
  destruct (replay_refused (Example.wfe false) Example.aliceNewAuthz
              Example.nonces (NewAuthorization (Example.wfe false)) "0")
    as [_ Hreplay]; [right; left | reflexivity | reflexivity | discriminate |].
  apply Hreplay. reflexivity.
Defined.
